(** * Pixel Studio calendar server: availability views and booking transaction

    A shallow embedding of [src/server.js].  The server is JavaScript on
    Node: its logic lives in three route handlers
    ([GET /api/calendar/:year/:month], [GET /api/slots/:date],
    [POST /api/bookings]) and three helpers ([isWeekend], [isHoliday],
    [getBusinessHours]).  All of them lean on the built-in [Date] object,
    so the first part of this file is a model of the part of ECMAScript's
    time arithmetic the handlers call; the second part is the handlers.

    Conventions.
    - A JavaScript number is an integer of [Z]; [NaN] is [None].  Rounding
      of integers above 2^53 is not modelled.
    - A [Date] is its time value, milliseconds since the epoch in UTC, or
      the invalid date.
    - The host's local time zone is a constant offset [tz] from UTC;
      daylight-saving transitions are not modelled.
    - A thrown exception is the [Throws] outcome; every handler wraps its
      body in [try]/[catch] and answers 500 from the [catch]. *)

From Stdlib Require Import ZArith Lia List Bool String Ascii.
Import ListNotations.
Local Open Scope string_scope.
Local Open Scope Z_scope.

(** ** ECMAScript time values *)

Module Time.

Definition msPerSecond : Z := 1000.
Definition msPerMinute : Z := 60000.
Definition msPerHour : Z := 3600000.
Definition msPerDay : Z := 86400000.

(** The largest magnitude a time value may have (ECMA-262, TimeClip). *)
Definition maxTime : Z := 8640000000000000.

Definition Day (t : Z) : Z := t / msPerDay.
Definition TimeWithinDay (t : Z) : Z := t mod msPerDay.

(** 0 is Sunday; the epoch, day 0, was a Thursday. *)
Definition WeekDay (t : Z) : Z := (Day t + 4) mod 7.

Definition HourFromTime (t : Z) : Z := (t / msPerHour) mod 24.
Definition MinFromTime (t : Z) : Z := (t / msPerMinute) mod 60.
Definition SecFromTime (t : Z) : Z := (t / msPerSecond) mod 60.
Definition msFromTime (t : Z) : Z := t mod msPerSecond.

(** Proleptic Gregorian calendar on day numbers.  Years are counted from
    March so that the leap day is the last day of the year; an era is a
    400-year cycle of 146097 days. *)

Definition marchMonth (m : Z) : Z := if m <=? 2 then m + 9 else m - 3.
Definition marchYear (y m : Z) : Z := if m <=? 2 then y - 1 else y.
Definition dayOfMarchYear (mp d : Z) : Z := (153 * mp + 2) / 5 + d - 1.
Definition dayOfEra (yoe doy : Z) : Z := yoe * 365 + yoe / 4 - yoe / 100 + doy.

Definition days_from_civil (y m d : Z) : Z :=
  let y' := marchYear y m in
  let era := y' / 400 in
  era * 146097 + dayOfEra (y' - era * 400) (dayOfMarchYear (marchMonth m) d)
  - 719468.

Definition yearOfEra (doe : Z) : Z :=
  (doe - doe / 1460 + doe / 36524 - doe / 146096) / 365.

Definition civil_from_days (z : Z) : Z * Z * Z :=
  let z := z + 719468 in
  let era := z / 146097 in
  let doe := z - era * 146097 in
  let yoe := yearOfEra doe in
  let doy := doe - (365 * yoe + yoe / 4 - yoe / 100) in
  let mp := (5 * doy + 2) / 153 in
  let d := doy - (153 * mp + 2) / 5 + 1 in
  let m := if mp <? 10 then mp + 3 else mp - 9 in
  (if m <=? 2 then yoe + era * 400 + 1 else yoe + era * 400, m, d).

Definition isLeapYear (y : Z) : bool :=
  ((y mod 4 =? 0) && negb (y mod 100 =? 0)) || (y mod 400 =? 0).

Definition daysInMonth (y m : Z) : Z :=
  if m =? 2 then (if isLeapYear y then 29 else 28)
  else if (m =? 4) || (m =? 6) || (m =? 9) || (m =? 11) then 30
  else 31.

Definition YearFromTime (t : Z) : Z :=
  let '(y, _, _) := civil_from_days (Day t) in y.

(** Months are numbered from 0, as ECMAScript does. *)
Definition MonthFromTime (t : Z) : Z :=
  let '(_, m, _) := civil_from_days (Day t) in m - 1.

Definition DateFromTime (t : Z) : Z :=
  let '(_, _, d) := civil_from_days (Day t) in d.

Definition MakeTime (hour min sec ms : Z) : Z :=
  hour * msPerHour + min * msPerMinute + sec * msPerSecond + ms.

(** [month] is 0-based and may lie outside 0..11; it then carries into the
    year.  [date] may lie outside the month; day 0 is the last day of the
    month before. *)
Definition MakeDay (year month date : Z) : Z :=
  let ym := year + month / 12 in
  let mn := month mod 12 in
  days_from_civil ym (mn + 1) 1 + date - 1.

Definition MakeDate (day time : Z) : Z := day * msPerDay + time.

Definition TimeClip (t : Z) : option Z :=
  if Z.abs t <=? maxTime then Some t else None.

End Time.

(** ** Strings *)

Module Str.

Definition digit (n : Z) : ascii :=
  match n with
  | 0 => "0" | 1 => "1" | 2 => "2" | 3 => "3" | 4 => "4"
  | 5 => "5" | 6 => "6" | 7 => "7" | 8 => "8" | _ => "9"
  end%char.

(** The [w] low decimal digits of [n], most significant first. *)
Fixpoint digits (w : nat) (n : Z) : string :=
  match w with
  | O => EmptyString
  | S w' => digits w' (n / 10) ++ String (digit (n mod 10)) EmptyString
  end.

(** [s.slice(from, to)] for indices inside the string. *)
Definition slice (from to : nat) (s : string) : string :=
  substring from (to - from) s.

(** [s.split(c)]. *)
Fixpoint split (c : ascii) (s : string) : list string :=
  match s with
  | EmptyString => [EmptyString]
  | String a r =>
      if Ascii.eqb a c then EmptyString :: split c r
      else match split c r with
           | [] => [String a EmptyString]
           | h :: t => String a h :: t
           end
  end.

(** [s.replace(c, r)] with a one-character string pattern: only the first
    occurrence is replaced. *)
Fixpoint replace (c : ascii) (r : string) (s : string) : string :=
  match s with
  | EmptyString => EmptyString
  | String a rest =>
      if Ascii.eqb a c then r ++ rest else String a (replace c r rest)
  end.

Definition includes (l : list string) (s : string) : bool :=
  existsb (String.eqb s) l.

Definition isWhiteSpace (c : ascii) : bool :=
  let n := nat_of_ascii c in
  (Nat.eqb n 32 || Nat.eqb n 9 || Nat.eqb n 10 || Nat.eqb n 11
   || Nat.eqb n 12 || Nat.eqb n 13)%bool.

Fixpoint trimStart (s : string) : string :=
  match s with
  | String a r => if isWhiteSpace a then trimStart r else s
  | EmptyString => EmptyString
  end.

Definition digitValue (radix : Z) (c : ascii) : option Z :=
  let n := Z.of_nat (nat_of_ascii c) in
  let v :=
    if (48 <=? n) && (n <=? 57) then n - 48
    else if (97 <=? n) && (n <=? 122) then n - 87
    else if (65 <=? n) && (n <=? 90) then n - 55
    else radix in
  if v <? radix then Some v else None.

(** Value of the longest prefix of digits; [acc] is [None] until a digit
    has been read. *)
Fixpoint readDigits (radix : Z) (s : string) (acc : option Z) : option Z :=
  match s with
  | EmptyString => acc
  | String c r =>
      match digitValue radix c with
      | Some v =>
          readDigits radix r
            (Some (radix * match acc with Some a => a | None => 0 end + v))
      | None => acc
      end
  end.

(** [parseInt(s)] with no radix argument: leading white space, an optional
    sign, an optional [0x] prefix that selects radix 16, then the longest
    prefix of digits; [NaN] when there is none. *)
Definition parseInt (s : string) : option Z :=
  let s1 := trimStart s in
  let '(sign, s2) :=
    match s1 with
    | String "-"%char r => (-1, r)
    | String "+"%char r => (1, r)
    | _ => (1, s1)
    end in
  let '(radix, s3) :=
    match s2 with
    | String "0"%char (String "x"%char r) => (16, r)
    | String "0"%char (String "X"%char r) => (16, r)
    | _ => (10, s2)
    end in
  option_map (Z.mul sign) (readDigits radix s3 None).

(** [parseInt(x)] where [x] may be [undefined]. *)
Definition parseIntOpt (s : option string) : option Z :=
  match s with
  | Some s => parseInt s
  | None => None
  end.

End Str.

(** ** Outcomes

    A JavaScript expression either returns a value or throws.  The handlers
    never inspect the exception they catch, so one [Throws] is enough. *)

Inductive outcome (A : Type) : Type :=
| Returns (a : A)
| Throws.
Arguments Returns {A} a.
Arguments Throws {A}.

Definition bind {A B : Type} (c : outcome A) (k : A -> outcome B) : outcome B :=
  match c with
  | Returns a => k a
  | Throws => Throws
  end.

Notation "x <- c ;; k" := (bind c (fun x => k))
  (at level 61, c at next level, right associativity).

(** [l.some(f)]: stops at the first element for which [f] returns true, so a
    later element whose callback would throw is never visited. *)
Fixpoint someM {A : Type} (f : A -> outcome bool) (l : list A) : outcome bool :=
  match l with
  | [] => Returns false
  | a :: r => b <- f a ;; if b then Returns true else someM f r
  end.

(** [l.filter(f)]: visits every element. *)
Fixpoint filterM {A : Type} (f : A -> outcome bool) (l : list A)
  : outcome (list A) :=
  match l with
  | [] => Returns []
  | a :: r =>
      b <- f a ;; r' <- filterM f r ;;
      Returns (if b then a :: r' else r')
  end.

(** [l.forEach(a => out.push(f a))]. *)
Fixpoint mapM {A B : Type} (f : A -> outcome B) (l : list A)
  : outcome (list B) :=
  match l with
  | [] => Returns []
  | a :: r => b <- f a ;; r' <- mapM f r ;; Returns (b :: r')
  end.

(** ** The [Date] object *)

Definition JSDate : Type := option Z.

(** Relational operators on dates and numbers: false when either side is
    [NaN]. *)
Definition lt (a b : option Z) : bool :=
  match a, b with Some x, Some y => x <? y | _, _ => false end.
Definition le (a b : option Z) : bool :=
  match a, b with Some x, Some y => x <=? y | _, _ => false end.
Definition ge (a b : option Z) : bool := le b a.

Definition add (a b : option Z) : option Z :=
  match a, b with Some x, Some y => Some (x + y) | _, _ => None end.

(** Year field of [toISOString]: four digits for years 0 to 9999, otherwise
    a sign and six digits. *)
Definition isoYear (y : Z) : string :=
  if (0 <=? y) && (y <=? 9999) then Str.digits 4 y
  else String (if 0 <=? y then "+"%char else "-"%char)
         (Str.digits 6 (Z.abs y)).

Definition isoDate (t : Z) : string :=
  isoYear (Time.YearFromTime t) ++ "-"
  ++ Str.digits 2 (Time.MonthFromTime t + 1) ++ "-"
  ++ Str.digits 2 (Time.DateFromTime t).

Definition isoTime (t : Z) : string :=
  Str.digits 2 (Time.HourFromTime t) ++ ":"
  ++ Str.digits 2 (Time.MinFromTime t) ++ ":"
  ++ Str.digits 2 (Time.SecFromTime t) ++ "."
  ++ Str.digits 3 (Time.msFromTime t) ++ "Z".

Definition isoString (t : Z) : string := isoDate t ++ "T" ++ isoTime t.

(** [d.toISOString()]: the UTC rendering; RangeError on the invalid date. *)
Definition toISOString (d : JSDate) : outcome string :=
  match d with
  | Some t => Returns (isoString t)
  | None => Throws
  end.

(** [new Date(n)] for a time value [n]. *)
Definition newDate (n : Z) : JSDate := Time.TimeClip n.

(** [s.split('T')[0]]. *)
Definition beforeT (s : string) : string := hd EmptyString (Str.split "T" s).

(** ** Data the handlers exchange with their collaborators *)

(** An item of [calendar.events.list]: the handlers read only
    [event.start?.dateTime] and [event.end?.dateTime], RFC 3339 texts that
    the model holds as the instants they denote; an all-day event has
    neither. *)
Module Event.
Record t : Type := mk
  { id : string;
    start_dateTime : option Z;
    end_dateTime : option Z }.
End Event.

(** A document of the [ClosedDay] collection. *)
Module ClosedDay.
Record t : Type := mk
  { date : Z;
    reason : option string;
    type : string }.
End ClosedDay.

(** The [resource] handed to [calendar.events.insert]. *)
Module Resource.
Record t : Type := mk
  { summary : string;
    description : string;
    start_dateTime : string;
    start_timeZone : string;
    end_dateTime : string;
    end_timeZone : string;
    attendees : list string }.
End Resource.

(** A document of the [Booking] collection. *)
Module Booking.
Record t : Type := mk
  { id : string;
    date : JSDate;
    startTime : JSDate;
    endTime : JSDate;
    customerName : string;
    customerEmail : string;
    customerPhone : string;
    duration : string;
    shootingType : option string;
    message : option string;
    status : string;
    googleEventId : string;
    createdAt : Z }.
End Booking.

Module Mail.
Record t : Type := mk
  { from : string;
    to : string;
    cc : string;
    subject : string;
    html : string }.
End Mail.

(** The body of [POST /api/bookings]; an absent key is [None].  Values
    that are not strings are outside the model. *)
Module Body.
Record t : Type := mk
  { date : option string;
    timeSlot : option string;
    duration : option string;
    customerName : option string;
    customerEmail : option string;
    customerPhone : option string;
    shootingType : option string;
    message : option string }.
End Body.

(** An entry of the month view. *)
Inductive Status : Type := available | occupied | closed.

Definition Status_eqb (a b : Status) : bool :=
  match a, b with
  | available, available | occupied, occupied | closed, closed => true
  | _, _ => false
  end.

Module CalendarDay.
Record t : Type := mk
  { date : string;
    status : Status;
    bookings : Z }.
End CalendarDay.

(** An entry of the day view. *)
Module Slot.
Record t : Type := mk
  { time : string;
    available : bool;
    datetime : string }.
End Slot.

(** What the external stores hold.  [POST /api/bookings] is the only
    handler below that writes. *)
Record World : Type := mkWorld
  { calendar : list (string * Resource.t);
    bookings : list Booking.t;
    outbox : list Mail.t }.

(** Whether each external call of one booking request succeeds, and the
    identifier the calendar assigns. *)
Record Oracle : Type := mkOracle
  { insertReply : option string;
    saveSucceeds : bool;
    sendSucceeds : bool }.

Inductive CalendarResponse : Type :=
| CalendarOk (data : list CalendarDay.t)
| CalendarError.

Inductive SlotsResponse : Type :=
| SlotsOk (date : option string) (slots : list Slot.t)
| SlotsError.

Module Confirmation.
Record t : Type := mk
  { id : string;
    date : JSDate;
    timeSlot : string;
    duration : string;
    customerName : string }.
End Confirmation.

Inductive BookingResponse : Type :=
| BookingOk (booking : Confirmation.t)
| MissingFields
| BookingError.

(** JavaScript truthiness of a string or [undefined]. *)
Definition truthy (s : option string) : bool :=
  match s with
  | Some (String _ _) => true
  | _ => false
  end.

(** [s || dflt]. *)
Definition orElse (s : option string) (dflt : string) : string :=
  match s with
  | Some (String a r) => String a r
  | _ => dflt
  end.

(** Template-literal rendering of a string or [undefined]. *)
Definition text (s : option string) : string :=
  match s with
  | Some s => s
  | None => "undefined"
  end.

(** ** The server *)

Section Server.

(** The host: offset of local time from UTC in milliseconds, [Date.parse]
    (implementation-defined outside the ISO formats), the mail account of
    the environment and the Italian rendering of a date. *)
Variable tz : Z.
Variable Date_parse : string -> option Z.
Variable EMAIL_USER : string.
Variable toLocaleDateString : JSDate -> string.

(** The read side of the collaborators.  [events_list timeMin timeMax] is
    [calendar.events.list] and answers [data.items], which may be
    [undefined]; [ClosedDay_find a b] is
    [ClosedDay.find({date: {$gte: a, $lte: b}})].  Either may throw. *)
Variable events_list : Z -> Z -> outcome (option (list Event.t)).
Variable ClosedDay_find : Z -> Z -> outcome (list ClosedDay.t).

Definition LocalTime (t : Z) : Z := t + tz.
Definition UTC (t : Z) : Z := t - tz.

(** [new Date(s)]. *)
Definition newDateOfString (s : string) : JSDate :=
  match Date_parse s with
  | Some n => Time.TimeClip n
  | None => None
  end.

(** [new Date(year, month, date)], in local time; a year from 0 to 99 is
    taken in the twentieth century. *)
Definition fullYear (year : Z) : Z :=
  if (0 <=? year) && (year <=? 99) then 1900 + year else year.

Definition newDateOfFields (year month date : Z) : JSDate :=
  let yr := fullYear year in
  Time.TimeClip
    (UTC (Time.MakeDate (Time.MakeDay yr month date) (Time.MakeTime 0 0 0 0))).

Definition getDay (d : JSDate) : option Z :=
  option_map (fun t => Time.WeekDay (LocalTime t)) d.

Definition getDate (d : JSDate) : option Z :=
  option_map (fun t => Time.DateFromTime (LocalTime t)) d.

Definition getHours (d : JSDate) : option Z :=
  option_map (fun t => Time.HourFromTime (LocalTime t)) d.

(** [d.setHours(hour, min, sec, ms)]: the new value of [d]. *)
Definition setHours (d : JSDate) (hour min sec ms : option Z) : JSDate :=
  match d, hour, min, sec, ms with
  | Some t, Some h, Some m, Some s, Some milli =>
      Time.TimeClip
        (UTC (Time.MakeDate (Time.Day (LocalTime t)) (Time.MakeTime h m s milli)))
  | _, _, _, _, _ => None
  end.

(** [d.setHours(hour)]: minutes, seconds and milliseconds are kept. *)
Definition setHours1 (d : JSDate) (hour : option Z) : JSDate :=
  match d with
  | Some t =>
      let l := LocalTime t in
      setHours d hour (Some (Time.MinFromTime l)) (Some (Time.SecFromTime l))
        (Some (Time.msFromTime l))
  | None => None
  end.

(** [d.setDate(date)]. *)
Definition setDate (d : JSDate) (date : option Z) : JSDate :=
  match d, date with
  | Some t, Some dt =>
      let l := LocalTime t in
      Time.TimeClip
        (UTC (Time.MakeDate
                (Time.MakeDay (Time.YearFromTime l) (Time.MonthFromTime l) dt)
                (Time.TimeWithinDay l)))
  | _, _ => None
  end.

(** A date rendered by [toISOString] for a collaborator: the text is handed
    over as the instant it denotes, and the invalid date throws. *)
Definition instant (d : JSDate) : outcome Z :=
  _ <- toISOString d ;;
  match d with
  | Some t => Returns t
  | None => Throws
  end.

(** *** Utility functions *)

Definition isWeekend (date : JSDate) : bool :=
  match getDay date with
  | Some 0 => true
  | _ => false
  end.

Definition holidays : list string :=
  [ "01-01"; "01-06"; "04-25"; "05-01"; "06-02";
    "08-15"; "11-01"; "12-08"; "12-25"; "12-26" ].

Definition isHoliday (date : JSDate) : outcome bool :=
  iso <- toISOString date ;;
  let dateStr := Str.slice 5 10 iso in
  Returns (Str.includes holidays dateStr).

Record BusinessHours : Type := mkBusinessHours
  { bh_start : Z;
    bh_end : Z;
    bh_slots : list string }.

Definition getBusinessHours : BusinessHours :=
  {| bh_start := 9;
     bh_end := 18;
     bh_slots := [ "09:00"; "10:00"; "11:00"; "12:00"; "13:00";
                   "14:00"; "15:00"; "16:00"; "17:00" ] |}.

(** *** [GET /api/calendar/:year/:month] *)

(** The callback of [items.some] and [items.filter]: does the event start,
    in UTC, on the day [dateStr]? *)
Definition startsOn (dateStr : string) (event : Event.t) : outcome bool :=
  match Event.start_dateTime event with
  | None => Returns false
  | Some s =>
      iso <- toISOString (newDate s) ;;
      Returns (String.eqb (beforeT iso) dateStr)
  end.

Definition declaredOn (dateStr : string) (day : ClosedDay.t) : outcome bool :=
  iso <- toISOString (Some (ClosedDay.date day)) ;;
  Returns (String.eqb (beforeT iso) dateStr).

(** One turn of the [while] loop, up to the [push]. *)
Definition calendarEntry (closedDays : list ClosedDay.t)
    (items : option (list Event.t)) (currentDate : JSDate)
  : outcome CalendarDay.t :=
  iso <- toISOString currentDate ;;
  let dateStr := beforeT iso in
  let status := available in
  let status := if isWeekend currentDate then closed else status in
  holiday <- isHoliday currentDate ;;
  let status := if holiday then closed else status in
  isClosed <- someM (declaredOn dateStr) closedDays ;;
  let status := if isClosed then closed else status in
  hasBookings <-
    match items with
    | Some l => someM (startsOn dateStr) l
    | None => Returns false
    end ;;
  let status :=
    if hasBookings && Status_eqb status available then occupied else status in
  count <-
    (if hasBookings
     then l <- filterM (startsOn dateStr)
                 (match items with Some l => l | None => [] end) ;;
          Returns (Z.of_nat (List.length l))
     else Returns 0) ;;
  Returns (CalendarDay.mk dateStr status count).

(** The [while (currentDate <= endDate)] loop; [None] when [fuel] turns do
    not reach its end. *)
Fixpoint calendarLoop (fuel : nat) (closedDays : list ClosedDay.t)
    (items : option (list Event.t)) (endDate currentDate : JSDate)
  : option (outcome (list CalendarDay.t)) :=
  if le currentDate endDate then
    match fuel with
    | O => None
    | S fuel' =>
        match calendarEntry closedDays items currentDate with
        | Throws => Some Throws
        | Returns entry =>
            let next := setDate currentDate (add (getDate currentDate) (Some 1)) in
            match calendarLoop fuel' closedDays items endDate next with
            | Some (Returns rest) => Some (Returns (entry :: rest))
            | other => other
            end
        end
    end
  else Some (Returns []).

(** The handler.  [year] and [month] are the integers the path parameters
    denote.  The echoed [month] label of the response is left out. *)
Definition getCalendar (fuel : nat) (year month : Z) : option CalendarResponse :=
  let startDate := newDateOfFields year (month - 1) 1 in
  let endDate := newDateOfFields year month 0 in
  let fetched :=
    timeMin <- instant startDate ;;
    timeMax <- instant endDate ;;
    googleEvents <- events_list timeMin timeMax ;;
    closedDays <- ClosedDay_find timeMin timeMax ;;
    Returns (googleEvents, closedDays) in
  match fetched with
  | Throws => Some CalendarError
  | Returns (googleEvents, closedDays) =>
      match calendarLoop fuel closedDays googleEvents endDate startDate with
      | None => None
      | Some Throws => Some CalendarError
      | Some (Returns calendarData) => Some (CalendarOk calendarData)
      end
  end.

(** *** [GET /api/slots/:date] *)

(** The callback of [items.some] in the slot loop. *)
Definition covers (slotTime : JSDate) (event : Event.t) : bool :=
  match Event.start_dateTime event, Event.end_dateTime event with
  | Some s, Some e =>
      let eventStart := newDate s in
      let eventEnd := newDate e in
      ge slotTime eventStart && lt slotTime eventEnd
  | _, _ => false
  end.

(** The instant of a slot of the grid on the local day of [requestDate]. *)
Definition slotTimeOf (requestDate : JSDate) (timeSlot : string) : JSDate :=
  let parts := Str.split ":" timeSlot in
  let hours := nth_error parts 0 in
  let minutes := nth_error parts 1 in
  setHours requestDate (Str.parseIntOpt hours) (Str.parseIntOpt minutes)
    (Some 0) (Some 0).

(** The body of [businessHours.slots.forEach]. *)
Definition slotEntry (requestDate : JSDate) (items : option (list Event.t))
    (timeSlot : string) : outcome Slot.t :=
  let slotTime := slotTimeOf requestDate timeSlot in
  let isOccupied :=
    match items with
    | Some l => existsb (covers slotTime) l
    | None => false
    end in
  iso <- toISOString slotTime ;;
  Returns (Slot.mk timeSlot (negb isOccupied) iso).

(** [new Date().setHours(0, 0, 0, 0)]: the start of the current local day. *)
Definition startOfToday (now : Z) : option Z :=
  setHours (newDate now) (Some 0) (Some 0) (Some 0) (Some 0).

Definition getSlots (now : Z) (date : string) : SlotsResponse :=
  let requestDate := newDateOfString date in
  if lt requestDate (startOfToday now) then SlotsOk None []
  else
    let rest :=
      shut <- (if isWeekend requestDate then Returns true
               else isHoliday requestDate) ;;
      if shut then Returns (SlotsOk None [])
      else
        let startOfDay :=
          setHours requestDate (Some 0) (Some 0) (Some 0) (Some 0) in
        let endOfDay :=
          setHours requestDate (Some 23) (Some 59) (Some 59) (Some 999) in
        timeMin <- instant startOfDay ;;
        timeMax <- instant endOfDay ;;
        googleEvents <- events_list timeMin timeMax ;;
        availableSlots <-
          mapM (slotEntry requestDate googleEvents) (bh_slots getBusinessHours) ;;
        Returns (SlotsOk (Some date) availableSlots) in
    match rest with
    | Returns r => r
    | Throws => SlotsError
    end.

(** *** [POST /api/bookings] *)

(** The write side of the collaborators: state passing over [World], with
    the exception outcome. *)
Definition M (A : Type) : Type := World -> outcome A * World.

Definition ret {A : Type} (a : A) : M A := fun w => (Returns a, w).

Definition lift {A : Type} (c : outcome A) : M A := fun w => (c, w).

Definition bindM {A B : Type} (c : M A) (k : A -> M B) : M B :=
  fun w =>
    match c w with
    | (Returns a, w') => k a w'
    | (Throws, w') => (Throws, w')
    end.

Notation "x <~ c ;; k" := (bindM c (fun x => k))
  (at level 61, c at next level, right associativity).

(** [calendar.events.insert]: the event is stored under the identifier the
    provider assigns. *)
Definition events_insert (o : Oracle) (resource : Resource.t) : M string :=
  fun w =>
    match insertReply o with
    | Some id =>
        (Returns id,
         mkWorld (calendar w ++ [(id, resource)])%list (bookings w) (outbox w))
    | None => (Throws, w)
    end.

(** [booking.save()]. *)
Definition Booking_save (o : Oracle) (booking : Booking.t) : M unit :=
  fun w =>
    if saveSucceeds o
    then (Returns tt, mkWorld (calendar w) (bookings w ++ [booking])%list (outbox w))
    else (Throws, w).

(** [transporter.sendMail(mailOptions)]. *)
Definition sendMail (o : Oracle) (mailOptions : Mail.t) : M unit :=
  fun w =>
    if sendSucceeds o
    then (Returns tt, mkWorld (calendar w) (bookings w) (outbox w ++ [mailOptions])%list)
    else (Throws, w).

Definition newline : string := String (ascii_of_nat 10) EmptyString.

(** The statements of the [try] block after validation. *)
Definition createBooking (o : Oracle) (now : Z)
    (date timeSlot duration customerName customerEmail customerPhone : string)
    (shootingType message : option string) : M Confirmation.t :=
  let bookingDate := newDateOfString date in
  let parts := Str.split ":" timeSlot in
  let hours := nth_error parts 0 in
  let minutes := nth_error parts 1 in
  let bookingDate :=
    setHours bookingDate (Str.parseIntOpt hours) (Str.parseIntOpt minutes)
      (Some 0) (Some 0) in
  let endDate := bookingDate in
  let durationHours := Str.parseInt (Str.replace "h" "" duration) in
  let endDate := setHours1 endDate (add (getHours endDate) durationHours) in
  startIso <~ lift (toISOString bookingDate) ;;
  endIso <~ lift (toISOString endDate) ;;
  let event :=
    Resource.mk
      ("Shooting - " ++ customerName)
      ("Cliente: " ++ customerName ++ newline
       ++ "Email: " ++ customerEmail ++ newline
       ++ "Telefono: " ++ customerPhone ++ newline
       ++ "Tipo: " ++ orElse shootingType "Non specificato" ++ newline
       ++ "Note: " ++ orElse message "Nessuna nota")
      startIso "Europe/Rome" endIso "Europe/Rome"
      [customerEmail] in
  googleEventId <~ events_insert o event ;;
  let booking :=
    Booking.mk googleEventId bookingDate bookingDate endDate
      customerName customerEmail customerPhone duration shootingType message
      "confirmed" googleEventId now in
  _ <~ Booking_save o booking ;;
  let mailOptions :=
    Mail.mk EMAIL_USER customerEmail EMAIL_USER
      "Conferma Prenotazione - Pixel Studio"
      ("Ciao " ++ customerName
       ++ "; Data: " ++ toLocaleDateString bookingDate
       ++ "; Ora: " ++ timeSlot
       ++ "; Durata: " ++ duration
       ++ "; Tipo: " ++ orElse shootingType "Non specificato") in
  _ <~ sendMail o mailOptions ;;
  ret (Confirmation.mk googleEventId bookingDate timeSlot duration customerName).

Definition postBookings (o : Oracle) (now : Z) (body : Body.t)
  : World -> BookingResponse * World :=
  fun w =>
    if negb (truthy (Body.date body)) || negb (truthy (Body.timeSlot body))
       || negb (truthy (Body.duration body))
       || negb (truthy (Body.customerName body))
       || negb (truthy (Body.customerEmail body))
       || negb (truthy (Body.customerPhone body))
    then (MissingFields, w)
    else
      match createBooking o now
              (text (Body.date body)) (text (Body.timeSlot body))
              (text (Body.duration body)) (text (Body.customerName body))
              (text (Body.customerEmail body)) (text (Body.customerPhone body))
              (Body.shootingType body) (Body.message body) w with
      | (Returns booking, w') => (BookingOk booking, w')
      | (Throws, w') => (BookingError, w')
      end.

End Server.

(** ** [POST /api/admin/closed-days]

    The handler builds a [ClosedDay] document from the body and saves it.
    Mongoose applies the schema when it saves: [type] takes its default
    when the body has none and must be one of the values of the [enum], and
    the invalid date cannot be cast.  A rejected [save] is caught and
    answered 500.  Nothing is looked up before the document is saved. *)

Module ClosedDayBody.
Record t : Type := mk
  { date : option string;
    reason : option string;
    type : option string }.
End ClosedDayBody.

Inductive ClosedDayResponse : Type :=
| ClosedDayOk (closedDay : ClosedDay.t)
| ClosedDayError.

(** The [enum] and the [default] of the schema. *)
Definition closedDayTypes : list string :=
  [ "holiday"; "maintenance"; "personal" ].

Definition defaultClosedDayType : string := "personal".

Section Admin.

Variable Date_parse : string -> option Z.

(** [new Date(date)] where [date] may be [undefined]. *)
Definition newDateOfField (date : option string) : JSDate :=
  match date with
  | Some s => newDateOfString Date_parse s
  | None => None
  end.

(** [new ClosedDay({date, reason, type})] and [closedDay.save()];
    [storeAccepts] tells whether the store takes a valid document. *)
Definition ClosedDay_save (storeAccepts : bool) (date : JSDate)
    (reason type : option string) (store : list ClosedDay.t)
  : outcome ClosedDay.t * list ClosedDay.t :=
  let type :=
    match type with
    | Some s => s
    | None => defaultClosedDayType
    end in
  match date with
  | Some t =>
      if Str.includes closedDayTypes type && storeAccepts
      then let closedDay := ClosedDay.mk t reason type in
           (Returns closedDay, (store ++ [closedDay])%list)
      else (Throws, store)
  | None => (Throws, store)
  end.

Definition postClosedDays (storeAccepts : bool) (body : ClosedDayBody.t)
  : list ClosedDay.t -> ClosedDayResponse * list ClosedDay.t :=
  fun store =>
    match ClosedDay_save storeAccepts (newDateOfField (ClosedDayBody.date body))
            (ClosedDayBody.reason body) (ClosedDayBody.type body) store with
    | (Returns closedDay, store') => (ClosedDayOk closedDay, store')
    | (Throws, store') => (ClosedDayError, store')
    end.

End Admin.

(** ** Concrete hosts and collaborators

    Instances of the parameters of the server, used to run the handlers. *)

(** A [Date.parse] that reads the date-only ISO form [YYYY-MM-DD], which
    ECMAScript takes as midnight UTC, and nothing else. *)
Definition digitOf (c : ascii) : option Z := Str.digitValue 10 c.

Definition number (l : list ascii) : option Z :=
  fold_left
    (fun acc c =>
       match acc, digitOf c with
       | Some a, Some v => Some (10 * a + v)
       | _, _ => None
       end)
    l (Some 0).

Definition parseISODate (s : string) : option Z :=
  match list_ascii_of_string s with
  | [y1; y2; y3; y4; "-"; m1; m2; "-"; d1; d2]%char =>
      match number [y1; y2; y3; y4], number [m1; m2], number [d1; d2] with
      | Some y, Some m, Some d =>
          if (1 <=? m) && (m <=? 12) && (1 <=? d) && (d <=? Time.daysInMonth y m)
          then Some (Time.days_from_civil y m d * Time.msPerDay)
          else None
      | _, _, _ => None
      end
  | _ => None
  end.

(** A calendar provider holding [store]: an event is listed when it ends
    after [timeMin] and starts before [timeMax]; all-day events, which the
    handlers skip, are always listed. *)
Definition listedBetween (timeMin timeMax : Z) (event : Event.t) : bool :=
  match Event.start_dateTime event with
  | Some s => s <? timeMax
  | None => true
  end
  && match Event.end_dateTime event with
     | Some e => timeMin <? e
     | None => true
     end.

Definition calendarOf (store : list Event.t) (timeMin timeMax : Z)
  : outcome (option (list Event.t)) :=
  Returns (Some (filter (listedBetween timeMin timeMax) store)).

(** A [ClosedDay] collection holding [store]. *)
Definition closedDaysOf (store : list ClosedDay.t) (a b : Z)
  : outcome (list ClosedDay.t) :=
  Returns (filter (fun day => (a <=? ClosedDay.date day)
                              && (ClosedDay.date day <=? b)) store).

Definition noLocale (d : JSDate) : string := EmptyString.

(** Sample data: a host one hour ahead of UTC, as Rome is in winter, the
    clock at noon UTC on 1 March 2024, and a request for Tuesday 5 March
    2024. *)
Definition romeWinter : Z := 3600000.

Definition sampleNow : Z := 1709294400000.

Definition sampleBody : Body.t :=
  Body.mk (Some "2024-03-05") (Some "14:00") (Some "2h") (Some "Ada")
    (Some "ada@example.org") (Some "333") None None.

Definition emptyWorld : World := mkWorld [] [] [].

(** Events of two hours from 10:00 UTC: on Tuesday 5 March 2024, on
    Tuesday 30 January 2024 and on Wednesday 31 January 2024, the last day
    of its month; and a closure declared for 5 March 2024. *)
Definition eventMarch5 : Event.t :=
  Event.mk "march5" (Some 1709632800000) (Some 1709640000000).

Definition eventJanuary30 : Event.t :=
  Event.mk "january30" (Some 1706608800000) (Some 1706616000000).

Definition eventJanuary31 : Event.t :=
  Event.mk "january31" (Some 1706695200000) (Some 1706702400000).

(** An event of one hour from 02:00 UTC on 31 January 2024, which is 21:00
    on the 30th on a host five hours behind UTC. *)
Definition eventJanuary31Early : Event.t :=
  Event.mk "january31early" (Some 1706666400000) (Some 1706670000000).

Definition fiveHoursBehind : Z := -18000000.

Definition closureMarch5 : ClosedDay.t :=
  ClosedDay.mk 1709596800000 (Some "maintenance") "maintenance".

Definition allAvailable (time datetime : list string) : list Slot.t :=
  map (fun p => Slot.mk (fst p) true (snd p)) (combine time datetime).

Definition withDuration (duration : string) (body : Body.t) : Body.t :=
  Body.mk (Body.date body) (Body.timeSlot body) (Some duration)
    (Body.customerName body) (Body.customerEmail body)
    (Body.customerPhone body) (Body.shootingType body) (Body.message body).

Definition withoutPhone (body : Body.t) : Body.t :=
  Body.mk (Body.date body) (Body.timeSlot body) (Body.duration body)
    (Body.customerName body) (Body.customerEmail body)
    None (Body.shootingType body) (Body.message body).


Definition withName (name : string) (body : Body.t) : Body.t :=
  Body.mk (Body.date body) (Body.timeSlot body) (Body.duration body)
    (Some name) (Body.customerEmail body)
    (Body.customerPhone body) (Body.shootingType body) (Body.message body).

Definition closureBody : ClosedDayBody.t :=
  ClosedDayBody.mk (Some "2024-03-05") (Some "maintenance") None.

Definition allGood : Oracle := mkOracle (Some "ev1") true true.

Definition failingCalendar (timeMin timeMax : Z)
  : outcome (option (list Event.t)) := Throws.

Definition allDayEvent : Event.t := Event.mk "allday" None None.


Definition secondOracle : Oracle := mkOracle (Some "ev2") true true.

(** ** Vocabulary of the statements *)

(** Characters of a string satisfy [P]. *)
Fixpoint allChars (P : ascii -> bool) (s : string) : bool :=
  match s with
  | EmptyString => true
  | String a r => P a && allChars P r
  end.

Definition isDigit (c : ascii) : bool :=
  let n := nat_of_ascii c in (Nat.leb 48 n && Nat.leb n 57)%bool.

(** The text [YYYY-MM-DD] of a calendar date with a four-digit year. *)
Definition isoOfCivil (y m d : Z) : string :=
  Str.digits 4 y ++ "-" ++ Str.digits 2 m ++ "-" ++ Str.digits 2 d.

Definition notT (c : ascii) : bool := negb (Ascii.eqb c "T").

(** A time value a [Date] can hold. *)
Definition validTime (t : Z) : Prop := Z.abs t <= Time.maxTime.

(** The instant at which the local day containing [t] starts, on a host
    [tz] milliseconds ahead of UTC. *)
Definition startOfLocalDay (tz t : Z) : Z :=
  Time.Day (t + tz) * Time.msPerDay - tz.

(** The instant at which local clocks show [h]:00 on the calendar date
    [y]-[m]-[d]. *)
Definition localInstant (tz y m d h : Z) : Z :=
  Time.days_from_civil y m d * Time.msPerDay + h * Time.msPerHour - tz.

(** The items of a listing; none when [data.items] is [undefined]. *)
Definition itemsOf (items : option (list Event.t)) : list Event.t :=
  match items with
  | Some l => l
  | None => []
  end.

(** The instants of an event are time values a [Date] can hold, as the
    instants of RFC 3339 texts are. *)
Definition validEvent (event : Event.t) : Prop :=
  (forall s, Event.start_dateTime event = Some s -> validTime s)
  /\ (forall e, Event.end_dateTime event = Some e -> validTime e).

(** The instant [t] lies in the half-open interval of one of the items. *)
Definition busyAt (items : option (list Event.t)) (t : Z) : Prop :=
  exists event s e,
    In event (itemsOf items)
    /\ Event.start_dateTime event = Some s
    /\ Event.end_dateTime event = Some e
    /\ s <= t < e.

(** The month view, as a function of the two listings: does an event
    start, in UTC, on the day written [dateStr]; is a declared closure on
    that day; is the instant on a fixed holiday; the entry of the local day
    starting at [t]; and [n] consecutive days from [t]. *)
Definition startsAt (dateStr : string) (event : Event.t) : bool :=
  match Event.start_dateTime event with
  | Some s => String.eqb (isoDate s) dateStr
  | None => false
  end.

Definition declaredAt (dateStr : string) (day : ClosedDay.t) : bool :=
  String.eqb (isoDate (ClosedDay.date day)) dateStr.

Definition holidayAt (t : Z) : bool :=
  Str.includes holidays (Str.slice 5 10 (isoString t)).

Definition entryAt (tz : Z) (closedDays : list ClosedDay.t)
    (items : option (list Event.t)) (t : Z) : CalendarDay.t :=
  let dateStr := isoDate t in
  let n := Z.of_nat (List.length (filter (startsAt dateStr) (itemsOf items))) in
  CalendarDay.mk dateStr
    (if isWeekend tz (Some t) || holidayAt t
        || existsb (declaredAt dateStr) closedDays
     then closed
     else if 0 <? n then occupied else available)
    n.

Definition dailyFrom (t : Z) (n : nat) : list Z :=
  map (fun k => t + Z.of_nat k * Time.msPerDay) (seq 0 n).

(** The start of an event, if it is the instant [t]. *)
Definition startsExactlyAt (t : Z) (event : Event.t) : bool :=
  match Event.start_dateTime event with
  | Some s => s =? t
  | None => false
  end.

(** The day of the week of a calendar date; 0 is Sunday. *)
Definition weekdayOf (y m d : Z) : Z :=
  (Time.days_from_civil y m d + 4) mod 7.

(** A field of a body that JavaScript takes as false: absent or the empty
    string. *)
Definition blank (s : option string) : Prop := s = None \/ s = Some "".

(** The hours and the minutes [parseInt] reads from a slot text. *)
Definition slotHours (timeSlot : string) : option Z :=
  Str.parseIntOpt (nth_error (Str.split ":" timeSlot) 0).

Definition slotMinutes (timeSlot : string) : option Z :=
  Str.parseIntOpt (nth_error (Str.split ":" timeSlot) 1).

(** An event that carries both instants. *)
Definition timed (event : Event.t) : bool :=
  match Event.start_dateTime event, Event.end_dateTime event with
  | Some _, Some _ => true
  | _, _ => false
  end.

(** The six fields the booking handler requires. *)
Definition requiredFields (body : Body.t) : list (option string) :=
  [ Body.date body; Body.timeSlot body; Body.duration body;
    Body.customerName body; Body.customerEmail body;
    Body.customerPhone body ].

(** What the status of an entry tells about its count. *)
Definition consistent (entry : CalendarDay.t) : Prop :=
  0 <= CalendarDay.bookings entry
  /\ (CalendarDay.status entry = occupied -> 0 < CalendarDay.bookings entry)
  /\ (CalendarDay.status entry = available -> CalendarDay.bookings entry = 0).

(** The ten fixed holidays, as (month, day). *)
Definition holidayMonthDays : list (Z * Z) :=
  [ (1, 1); (1, 6); (4, 25); (5, 1); (6, 2);
    (8, 15); (11, 1); (12, 8); (12, 25); (12, 26) ].

(** * Facts *)

Set Default Proof Using "Type".

(** ** The calendar on day numbers *)

Module TimeFacts.
Import Time.

(** The two conversions are inverse of each other: on every day number,
    and on every date of the calendar. *)
Lemma days_from_civil_of_civil (z : Z) :
  let '(y, m, d) := civil_from_days z in days_from_civil y m d = z.
Proof.
  unfold civil_from_days, days_from_civil, marchYear, marchMonth,
    dayOfEra, dayOfMarchYear, yearOfEra.
  repeat match goal with
         | |- context [if ?b then _ else _] => destruct b eqn:?
         end;
    Z.to_euclidean_division_equations; lia.
Qed.

Lemma civil_month_range (z : Z) :
  let '(_, m, d) := civil_from_days z in 1 <= m <= 12 /\ 1 <= d <= 31.
Proof.
  unfold civil_from_days, yearOfEra.
  repeat match goal with
         | |- context [if ?b then _ else _] => destruct b eqn:?
         end;
    Z.to_euclidean_division_equations; lia.
Qed.

Lemma days_from_civil_day (y m d : Z) :
  days_from_civil y m d = days_from_civil y m 1 + d - 1.
Proof.
  unfold days_from_civil, dayOfEra, dayOfMarchYear. lia.
Qed.

Lemma yearOfEra_dayOfEra (yoe doy : Z) :
  0 <= yoe < 400 -> 0 <= doy <= 365 ->
  (doy = 365 -> (yoe + 1) mod 4 = 0 /\ ((yoe + 1) mod 100 <> 0 \/ yoe = 399)) ->
  yearOfEra (dayOfEra yoe doy) = yoe.
Proof.
  unfold yearOfEra, dayOfEra. intros.
  Z.to_euclidean_division_equations; lia.
Qed.

Lemma dayOfEra_range (yoe doy : Z) :
  0 <= yoe < 400 -> 0 <= doy <= 365 ->
  (doy = 365 -> (yoe + 1) mod 4 = 0 /\ ((yoe + 1) mod 100 <> 0 \/ yoe = 399)) ->
  0 <= dayOfEra yoe doy < 146097.
Proof.
  unfold dayOfEra. intros.
  Z.to_euclidean_division_equations; lia.
Qed.

Lemma month_cases (m : Z) :
  1 <= m <= 12 ->
  m = 1 \/ m = 2 \/ m = 3 \/ m = 4 \/ m = 5 \/ m = 6 \/
  m = 7 \/ m = 8 \/ m = 9 \/ m = 10 \/ m = 11 \/ m = 12.
Proof. lia. Qed.

Ltac each_month H :=
  apply month_cases in H;
  repeat (destruct H as [H | H]); subst.

Lemma isLeapYear_true (y : Z) :
  isLeapYear y = true -> y mod 4 = 0 /\ (y mod 100 <> 0 \/ y mod 400 = 0).
Proof.
  unfold isLeapYear. intros H.
  apply orb_true_iff in H. destruct H as [H | H].
  - apply andb_true_iff in H. destruct H as [H1 H2].
    apply Z.eqb_eq in H1. apply negb_true_iff, Z.eqb_neq in H2. lia.
  - apply Z.eqb_eq in H. split; [|lia].
    Z.to_euclidean_division_equations; lia.
Qed.

Ltac eval_marchMonth :=
  repeat match goal with
         | |- context [marchMonth ?k] =>
             let v := eval vm_compute in (marchMonth k) in
             change (marchMonth k) with v
         end.

Lemma dayOfMarchYear_valid (y m d : Z) :
  1 <= m <= 12 -> 1 <= d <= daysInMonth y m ->
  let doy := dayOfMarchYear (marchMonth m) d in
  0 <= doy <= 365 /\ (doy = 365 -> isLeapYear y = true /\ m = 2) /\
  (5 * doy + 2) / 153 = marchMonth m /\
  doy - (153 * marchMonth m + 2) / 5 + 1 = d.
Proof.
  intros Hm Hd. unfold daysInMonth in Hd.
  each_month Hm; cbn in Hd; unfold dayOfMarchYear; eval_marchMonth; cbv zeta.
  all: try (destruct (isLeapYear y) eqn:E).
  all: repeat split; intros; try reflexivity; try (Z.to_euclidean_division_equations; lia).
Qed.

Lemma civil_of_days_from_civil (y m d : Z) :
  1 <= m <= 12 -> 1 <= d <= daysInMonth y m ->
  civil_from_days (days_from_civil y m d) = (y, m, d).
Proof.
  intros Hm Hd.
  destruct (dayOfMarchYear_valid y m d Hm Hd) as (Hdoy & Hleap & Hmp & Hdd).
  unfold days_from_civil, civil_from_days.
  set (y' := marchYear y m) in *.
  set (era := y' / 400).
  set (yoe := y' - era * 400).
  set (doy := dayOfMarchYear (marchMonth m) d) in *.
  assert (Hyoe : 0 <= yoe < 400)
    by (subst yoe era; Z.to_euclidean_division_equations; lia).
  assert (Hl : doy = 365 ->
               (yoe + 1) mod 4 = 0 /\ ((yoe + 1) mod 100 <> 0 \/ yoe = 399)).
  { intros E. destruct (Hleap E) as [L ->].
    apply isLeapYear_true in L. subst yoe era y'. unfold marchYear. cbn.
    Z.to_euclidean_division_equations; lia. }
  pose proof (dayOfEra_range yoe doy Hyoe Hdoy Hl) as Hdoe.
  pose proof (yearOfEra_dayOfEra yoe doy Hyoe Hdoy Hl) as Hy.
  set (doe := dayOfEra yoe doy) in *.
  replace (era * 146097 + doe - 719468 + 719468) with (doe + era * 146097) by lia.
  rewrite Z.div_add by lia. rewrite (Z.div_small doe) by lia.
  replace (doe + era * 146097 - (0 + era) * 146097) with doe by lia.
  rewrite Hy.
  replace (doe - (365 * yoe + yoe / 4 - yoe / 100)) with doy
    by (subst doe; unfold dayOfEra; lia).
  rewrite Hmp, Hdd.
  assert (Hmm : (if marchMonth m <? 10 then marchMonth m + 3 else marchMonth m - 9) = m).
  { unfold marchMonth. destruct (m <=? 2) eqn:E1.
    - apply Z.leb_le in E1. destruct (m + 9 <? 10) eqn:E2; [apply Z.ltb_lt in E2; lia | lia].
    - apply Z.leb_gt in E1. destruct (m - 3 <? 10) eqn:E2; [lia | apply Z.ltb_ge in E2; lia]. }
  rewrite Hmm.
  f_equal. f_equal.
  subst yoe era y'. unfold marchYear. destruct (m <=? 2); lia.
Qed.

(** The first day of the next month, with the carry into the year that
    [MakeDay] makes, is [daysInMonth] days after the first of the month. *)
Lemma days_from_civil_next_month (y m : Z) :
  1 <= m <= 12 ->
  days_from_civil (y + m / 12) (m mod 12 + 1) 1 =
  days_from_civil y m 1 + daysInMonth y m.
Proof.
  intros Hm. unfold daysInMonth, isLeapYear.
  each_month Hm; cbn -[days_from_civil Z.add Z.sub Z.mul Z.div Z.modulo Z.eqb];
    unfold days_from_civil, marchYear, dayOfEra, dayOfMarchYear; eval_marchMonth.
  all: repeat match goal with
         | |- context [if ?b then _ else _] => destruct b eqn:?
         end.
  all: Z.to_euclidean_division_equations; lia.
Qed.
End TimeFacts.

(** ** Digits and date texts *)

Module StrFacts.
Import Str.

Lemma digit_isDigit (n : Z) : isDigit (digit n) = true.
Proof.
  destruct n as [|p|p]; try reflexivity.
  do 4 (try destruct p as [p|p|]); reflexivity.
Qed.

Lemma allChars_app P s1 s2 :
  allChars P (s1 ++ s2) = allChars P s1 && allChars P s2.
Proof.
  induction s1 as [|a r IH]; cbn; [reflexivity|].
  rewrite IH. now rewrite andb_assoc.
Qed.

Lemma allChars_weaken (P Q : ascii -> bool) s :
  (forall c, P c = true -> Q c = true) ->
  allChars P s = true -> allChars Q s = true.
Proof.
  intros H. induction s as [|a r IH]; cbn; [reflexivity|].
  intros E. apply andb_true_iff in E. destruct E as [E1 E2].
  rewrite (H _ E1), (IH E2). reflexivity.
Qed.

Lemma digits_allDigit w n : allChars isDigit (digits w n) = true.
Proof.
  revert n. induction w as [|w IH]; intros n; cbn; [reflexivity|].
  rewrite allChars_app, IH. cbn. now rewrite digit_isDigit.
Qed.

(** [split] stops at the first separator. *)
Lemma split_first c s r :
  allChars (fun a => negb (Ascii.eqb a c)) s = true ->
  hd EmptyString (split c (s ++ String c r)) = s.
Proof.
  induction s as [|a s' IH]; cbn.
  - now rewrite Ascii.eqb_refl.
  - intros E. apply andb_true_iff in E. destruct E as [E1 E2].
    apply negb_true_iff in E1. rewrite E1.
    specialize (IH E2).
    destruct (split c (s' ++ String c r)) as [|h t]; cbn in *.
    + now subst.
    + now subst.
Qed.

Lemma digit_inj (a b : Z) :
  0 <= a <= 9 -> 0 <= b <= 9 -> digit a = digit b -> a = b.
Proof.
  intros Ha Hb.
  assert (a = 0 \/ a = 1 \/ a = 2 \/ a = 3 \/ a = 4 \/ a = 5 \/ a = 6 \/
          a = 7 \/ a = 8 \/ a = 9) as Ca by lia.
  assert (b = 0 \/ b = 1 \/ b = 2 \/ b = 3 \/ b = 4 \/ b = 5 \/ b = 6 \/
          b = 7 \/ b = 8 \/ b = 9) as Cb by lia.
  repeat (destruct Ca as [Ca | Ca]); subst a;
    repeat (destruct Cb as [Cb | Cb]); subst b;
    cbn; intros E; solve [reflexivity | discriminate E].
Qed.

Lemma digits2_inj (a b : Z) :
  0 <= a < 100 -> 0 <= b < 100 -> digits 2 a = digits 2 b -> a = b.
Proof.
  intros Ha Hb E. cbn [digits append] in E.
  injection E as E1 E0.
  apply digit_inj in E1; [|Z.to_euclidean_division_equations; lia ..].
  apply digit_inj in E0; [|Z.to_euclidean_division_equations; lia ..].
  Z.to_euclidean_division_equations; lia.
Qed.

Lemma digits4_inj (a b : Z) :
  0 <= a < 10000 -> 0 <= b < 10000 -> digits 4 a = digits 4 b -> a = b.
Proof.
  intros Ha Hb E. cbn [digits append] in E.
  injection E as E3 E2 E1 E0.
  apply digit_inj in E3; [|Z.to_euclidean_division_equations; lia ..].
  apply digit_inj in E2; [|Z.to_euclidean_division_equations; lia ..].
  apply digit_inj in E1; [|Z.to_euclidean_division_equations; lia ..].
  apply digit_inj in E0; [|Z.to_euclidean_division_equations; lia ..].
  Z.to_euclidean_division_equations; lia.
Qed.

End StrFacts.

Module DateFacts.
Import Time Str StrFacts TimeFacts.

Lemma isDigit_notT c : isDigit c = true -> notT c = true.
Proof.
  unfold isDigit, notT. intros H.
  destruct (Ascii.eqb_spec c "T") as [-> | _]; [discriminate H | reflexivity].
Qed.

Lemma isoDate_notT t : allChars notT (isoDate t) = true.
Proof.
  unfold isoDate, isoYear.
  assert (D : forall w n, allChars notT (digits w n) = true)
    by (intros; apply (allChars_weaken isDigit); [apply isDigit_notT | apply digits_allDigit]).
  repeat rewrite allChars_app.
  rewrite !D. cbn [allChars andb].
  destruct ((0 <=? YearFromTime t) && (YearFromTime t <=? 9999)).
  - rewrite D. reflexivity.
  - cbn [allChars]. rewrite D. destruct (0 <=? YearFromTime t); reflexivity.
Qed.

Lemma beforeT_isoString t : beforeT (isoString t) = isoDate t.
Proof.
  unfold beforeT, isoString.
  apply (split_first "T"). apply isoDate_notT.
Qed.

Lemma slice_isoOfCivil y m d rest :
  Str.slice 5 10 (isoOfCivil y m d ++ rest)
  = Str.digits 2 m ++ "-" ++ Str.digits 2 d.
Proof.
  unfold isoOfCivil. cbn [digits append Str.slice substring Nat.sub].
  destruct rest; reflexivity.
Qed.

Lemma isoDate_civil t y m d :
  civil_from_days (Day t) = (y, m, d) -> 0 <= y <= 9999 ->
  isoDate t = isoOfCivil y m d.
Proof.
  intros E Hy. unfold isoDate, isoOfCivil, YearFromTime, MonthFromTime, DateFromTime.
  rewrite E. unfold isoYear.
  replace ((0 <=? y) && (y <=? 9999)) with true by (symmetry; apply andb_true_iff; split; apply Z.leb_le; lia).
  now replace (m - 1 + 1) with m by lia.
Qed.

Lemma isoOfCivil_inj y1 m1 d1 y2 m2 d2 :
  0 <= y1 <= 9999 -> 0 <= y2 <= 9999 ->
  0 <= m1 < 100 -> 0 <= m2 < 100 -> 0 <= d1 < 100 -> 0 <= d2 < 100 ->
  isoOfCivil y1 m1 d1 = isoOfCivil y2 m2 d2 -> (y1, m1, d1) = (y2, m2, d2).
Proof.
  intros Hy1 Hy2 Hm1 Hm2 Hd1 Hd2 E.
  unfold isoOfCivil in E. cbn [digits append] in E.
  injection E as Y3 Y2 Y1 Y0 M1 M0 D1 D0.
  assert (y1 = y2).
  { apply digits4_inj; [lia | lia |]. cbn [digits append]. congruence. }
  assert (m1 = m2).
  { apply digits2_inj; [lia | lia |]. cbn [digits append]. congruence. }
  assert (d1 = d2).
  { apply digits2_inj; [lia | lia |]. cbn [digits append]. congruence. }
  congruence.
Qed.

(** Two instants with the same date text lie on the same UTC day, as soon
    as one of them has a four-digit year. *)
Lemma isoDate_same_day t1 t2 :
  0 <= YearFromTime t1 <= 9999 -> isoDate t1 = isoDate t2 -> Day t1 = Day t2.
Proof.
  intros Hy E.
  pose proof (days_from_civil_of_civil (Day t1)) as R1.
  pose proof (days_from_civil_of_civil (Day t2)) as R2.
  pose proof (civil_month_range (Day t1)) as G1.
  pose proof (civil_month_range (Day t2)) as G2.
  unfold YearFromTime in Hy.
  destruct (civil_from_days (Day t1)) as [[y1 m1] d1] eqn:C1.
  destruct (civil_from_days (Day t2)) as [[y2 m2] d2] eqn:C2.
  rewrite (isoDate_civil t1 y1 m1 d1 C1 Hy) in E.
  destruct ((0 <=? y2) && (y2 <=? 9999)) eqn:In2.
  - apply andb_true_iff in In2. destruct In2 as [A B].
    apply Z.leb_le in A. apply Z.leb_le in B.
    rewrite (isoDate_civil t2 y2 m2 d2 C2 (conj A B)) in E.
    apply isoOfCivil_inj in E; try lia.
    injection E as -> -> ->. congruence.
  - exfalso. unfold isoDate, YearFromTime, isoYear in E. rewrite C2, In2 in E.
    unfold isoOfCivil in E. cbn [digits append] in E.
    injection E as E _.
    pose proof (digit_isDigit (y1 / 10 / 10 / 10 mod 10)) as Dg.
    rewrite E in Dg. destruct (0 <=? y2); discriminate Dg.
Qed.

End DateFacts.

(** ** Time values *)

(** Instants in range pass [TimeClip] unchanged. *)
Lemma TimeClip_Some (t u : Z) :
  Time.TimeClip t = Some u -> u = t /\ validTime t.
Proof.
  unfold Time.TimeClip, validTime.
  destruct (Z.leb_spec (Z.abs t) Time.maxTime); intros E.
  - injection E as <-. auto.
  - discriminate E.
Qed.

Lemma TimeClip_valid (t : Z) : validTime t -> Time.TimeClip t = Some t.
Proof.
  unfold Time.TimeClip, validTime. intros H.
  destruct (Z.leb_spec (Z.abs t) Time.maxTime); [reflexivity | lia].
Qed.

Lemma toISOString_Returns (d : JSDate) (iso : string) :
  toISOString d = Returns iso -> exists t, d = Some t.
Proof. destruct d as [t|]; [eauto | discriminate]. Qed.

(** Moving the hour field of a local time moves the instant by whole
    hours. *)
Lemma setHours1_shift (tz s n : Z) :
  setHours1 tz (Some s) (add (getHours tz (Some s)) (Some n))
  = Time.TimeClip (s + n * Time.msPerHour).
Proof.
  unfold setHours1, setHours, getHours, add, option_map, UTC, LocalTime.
  f_equal.
  unfold Time.MakeDate, Time.MakeTime, Time.Day, Time.HourFromTime,
    Time.MinFromTime, Time.SecFromTime, Time.msFromTime,
    Time.msPerDay, Time.msPerHour, Time.msPerMinute, Time.msPerSecond.
  Z.to_euclidean_division_equations; lia.
Qed.

Lemma Day_of_local_midnight (tz D : Z) :
  0 <= tz < Time.msPerDay -> Time.Day (D * Time.msPerDay + tz) = D.
Proof.
  unfold Time.Day, Time.msPerDay. intros H.
  Z.to_euclidean_division_equations; lia.
Qed.

Lemma validTime_between (a b t : Z) :
  validTime a -> validTime b -> a <= t <= b -> validTime t.
Proof. unfold validTime. lia. Qed.

Lemma setHours_local (tz t h m s ms : Z) :
  setHours tz (Some t) (Some h) (Some m) (Some s) (Some ms)
  = Time.TimeClip (startOfLocalDay tz t + Time.MakeTime h m s ms).
Proof.
  unfold setHours, startOfLocalDay, UTC, LocalTime, Time.MakeDate.
  f_equal. lia.
Qed.

Lemma Day_lower (s : Z) : Time.Day s * Time.msPerDay <= s.
Proof.
  unfold Time.Day, Time.msPerDay. Z.to_euclidean_division_equations; lia.
Qed.

Lemma Day_midnight (D : Z) : Time.Day (D * Time.msPerDay) = D.
Proof.
  unfold Time.Day, Time.msPerDay. Z.to_euclidean_division_equations; lia.
Qed.

Lemma days_from_civil_bounds (y m : Z) :
  0 <= y <= 10000 -> 1 <= m <= 12 ->
  -720000 <= Time.days_from_civil y m 1 <= 2940000.
Proof.
  intros Hy Hm.
  unfold Time.days_from_civil, Time.marchYear, Time.marchMonth,
    Time.dayOfEra, Time.dayOfMarchYear.
  destruct (m <=? 2) eqn:E; Z.to_euclidean_division_equations; lia.
Qed.

Lemma daysInMonth_range (y m : Z) : 28 <= Time.daysInMonth y m <= 31.
Proof.
  unfold Time.daysInMonth.
  destruct (m =? 2); [destruct (Time.isLeapYear y); lia|].
  destruct ((m =? 4) || (m =? 6) || (m =? 9) || (m =? 11)); lia.
Qed.

(** ** The closure policy *)


(** [isHoliday] closes the ten fixed month-days and no other: on an instant
    of the UTC date [y]-[m]-[d], with a four-digit year. *)
Lemma holidayAt_iff (t y m d : Z) :
  Time.civil_from_days (Time.Day t) = (y, m, d) -> 0 <= y <= 9999 ->
  holidayAt t = true <-> In (m, d) holidayMonthDays.
Proof.
  intros C Hy.
  pose proof (TimeFacts.civil_month_range (Time.Day t)) as G. rewrite C in G.
  unfold holidayAt, isoString.
  rewrite (DateFacts.isoDate_civil t y m d C Hy), DateFacts.slice_isoOfCivil.
  assert (Hm : In m [1; 2; 3; 4; 5; 6; 7; 8; 9; 10; 11; 12])
    by (cbn; lia).
  assert (Hd : In d [1; 2; 3; 4; 5; 6; 7; 8; 9; 10; 11; 12; 13; 14; 15; 16;
                     17; 18; 19; 20; 21; 22; 23; 24; 25; 26; 27; 28; 29; 30;
                     31])
    by (cbn; lia).
  clear C G Hy.
  cbn in Hm.
  repeat (destruct Hm as [<- | Hm]); try contradiction;
    cbn in Hd; repeat (destruct Hd as [<- | Hd]); try contradiction;
    vm_compute; split; intros H; try discriminate H; try reflexivity;
    try (repeat (destruct H as [H | H]; [discriminate H|]); contradiction);
    try tauto.
Qed.

(** Two date texts are equal exactly when the instants lie on the same UTC
    day, as soon as one of them has a four-digit year: an event counts for
    an entry of the month view, and a declared closure closes it, when its
    instant lies on the UTC day the entry is labelled with. *)
Lemma isoDate_eqb_same_day (t1 t2 : Z) :
  0 <= Time.YearFromTime t1 <= 9999 ->
  String.eqb (isoDate t2) (isoDate t1) = true <-> Time.Day t2 = Time.Day t1.
Proof.
  intros Hy. rewrite String.eqb_eq. split.
  - intros E. symmetry. now apply DateFacts.isoDate_same_day.
  - intros E. unfold isoDate, Time.YearFromTime, Time.MonthFromTime,
      Time.DateFromTime. now rewrite E.
Qed.

(** ** The booking transaction *)

Section BookingFacts.

Variable tz : Z.
Variable Date_parse : string -> option Z.
Variable EMAIL_USER : string.
Variable toLocaleDateString : JSDate -> string.

(** What one request does, by the step that fails, for a request that goes
    through when every collaborator answers. *)
Lemma postBookings_steps now body w id c w_ok :
  postBookings tz Date_parse EMAIL_USER toLocaleDateString
    (mkOracle (Some id) true true) now body w
  = (BookingOk c, w_ok) ->
  exists r b m,
    w_ok = mkWorld (calendar w ++ [(id, r)]) (bookings w ++ [b])
             (outbox w ++ [m])
    /\ (forall s1 s2,
          postBookings tz Date_parse EMAIL_USER toLocaleDateString
            (mkOracle None s1 s2) now body w
          = (BookingError, w))
    /\ (forall s2,
          postBookings tz Date_parse EMAIL_USER toLocaleDateString
            (mkOracle (Some id) false s2) now body w
          = (BookingError,
             mkWorld (calendar w ++ [(id, r)]) (bookings w) (outbox w)))
    /\ postBookings tz Date_parse EMAIL_USER toLocaleDateString
         (mkOracle (Some id) true false) now body w
       = (BookingError,
          mkWorld (calendar w ++ [(id, r)]) (bookings w ++ [b]) (outbox w)).
Proof.
  unfold postBookings.
  destruct (negb (truthy (Body.date body)) || _ || _ || _ || _ || _);
    [discriminate |].
  unfold createBooking, bindM, lift, ret, events_insert, Booking_save, sendMail.
  cbn [insertReply saveSucceeds sendSucceeds].
  destruct (toISOString _) as [startIso|]; [|discriminate].
  destruct (toISOString _) as [endIso|]; [|discriminate].
  cbn [calendar bookings outbox].
  intros E. injection E as _ <-.
  eexists _, _, _. repeat split.
Qed.

(** Whatever the request and whatever fails, the handler only adds to the
    stores: nothing it or an earlier request wrote is removed, and a mail
    leaves only with the success response. *)
Lemma postBookings_only_appends o now body w r w' :
  postBookings tz Date_parse EMAIL_USER toLocaleDateString o now body w
  = (r, w') ->
  exists events records mails,
    w' = mkWorld (calendar w ++ events) (bookings w ++ records)
           (outbox w ++ mails)
    /\ (mails <> [] -> exists c, r = BookingOk c).
Proof.
  assert (Same : w = mkWorld (calendar w ++ []) (bookings w ++ [])
                       (outbox w ++ []))
    by (rewrite !app_nil_r; now destruct w).
  unfold postBookings.
  destruct (negb (truthy (Body.date body)) || _ || _ || _ || _ || _).
  { intros E. injection E as <- <-. exists [], [], []. split; [exact Same | tauto]. }
  unfold createBooking, bindM, lift, ret, events_insert, Booking_save, sendMail.
  destruct (toISOString _) as [startIso|].
  2:{ intros E. injection E as <- <-. exists [], [], []. split; [exact Same | tauto]. }
  destruct (toISOString _) as [endIso|].
  2:{ intros E. injection E as <- <-. exists [], [], []. split; [exact Same | tauto]. }
  destruct (insertReply o) as [id|].
  2:{ intros E. injection E as <- <-. exists [], [], []. split; [exact Same | tauto]. }
  destruct (saveSucceeds o).
  2:{ cbn [calendar bookings outbox]. intros E. injection E as <- <-.
      eexists [_], [], []. rewrite !app_nil_r. split; [reflexivity | tauto]. }
  destruct (sendSucceeds o); cbn [calendar bookings outbox];
    intros E; injection E as <- <-.
  - eexists [_], [_], [_]. split; [reflexivity | eauto].
  - eexists [_], [_], []. rewrite !app_nil_r. split; [reflexivity | tauto].
Qed.

(** C7.  A booking request in which one of the six required fields (date,
    slot time, duration, name, email, phone) is missing is answered with the
    validation failure (400), and the calendar, the booking collection and
    the outbox are left as they were: no event is created, no record is
    persisted, no notification is sent. *)
Theorem C7_missing_field_is_rejected_without_effects o now body w :
  Body.date body = None \/ Body.timeSlot body = None
  \/ Body.duration body = None \/ Body.customerName body = None
  \/ Body.customerEmail body = None \/ Body.customerPhone body = None ->
  postBookings tz Date_parse EMAIL_USER toLocaleDateString o now body w
  = (MissingFields, w).
Proof.
  intros H. unfold postBookings.
  repeat (destruct H as [H | H]); rewrite H; cbn [truthy negb orb];
    rewrite ?orb_true_r; reflexivity.
Qed.

(** C8.  For a request that goes through when every collaborator answers:
    if the calendar insertion fails, failure is returned and nothing is
    persisted or sent; if persistence fails after the event was created,
    failure is returned, no mail is sent and the event stays in the
    calendar (there is no compensating deletion); if the notification fails,
    failure is returned and both the event and the record stay. *)
Theorem C8_failed_step_aborts_the_rest_and_undoes_nothing now body w id c w_ok :
  postBookings tz Date_parse EMAIL_USER toLocaleDateString
    (mkOracle (Some id) true true) now body w
  = (BookingOk c, w_ok) ->
  exists r b m,
    w_ok = mkWorld (calendar w ++ [(id, r)]) (bookings w ++ [b])
             (outbox w ++ [m])
    /\ (forall s1 s2,
          postBookings tz Date_parse EMAIL_USER toLocaleDateString
            (mkOracle None s1 s2) now body w
          = (BookingError, w))
    /\ (forall s2,
          postBookings tz Date_parse EMAIL_USER toLocaleDateString
            (mkOracle (Some id) false s2) now body w
          = (BookingError,
             mkWorld (calendar w ++ [(id, r)]) (bookings w) (outbox w)))
    /\ postBookings tz Date_parse EMAIL_USER toLocaleDateString
         (mkOracle (Some id) true false) now body w
       = (BookingError,
          mkWorld (calendar w ++ [(id, r)]) (bookings w ++ [b]) (outbox w)).
Proof. apply postBookings_steps. Qed.

(** C2, as the code has it.  When the notification fails after the event
    was created and the record persisted, the client receives the failure
    response (500), not a success; the event and the record stay as the
    successful run leaves them, and nothing is added to the outbox. *)
Theorem C2_notification_failure_is_a_failure_response now body w id c w_ok :
  postBookings tz Date_parse EMAIL_USER toLocaleDateString
    (mkOracle (Some id) true true) now body w
  = (BookingOk c, w_ok) ->
  postBookings tz Date_parse EMAIL_USER toLocaleDateString
    (mkOracle (Some id) true false) now body w
  = (BookingError, mkWorld (calendar w_ok) (bookings w_ok) (outbox w)).
Proof.
  intros H. destruct (postBookings_steps _ _ _ _ _ _ H) as (r & b & m & -> & _ & _ & E).
  exact E.
Qed.

(** C3, as the code has it.  A record persisted by a booking request has
    end = start + n hours, where n is the integer [parseInt] reads from the
    duration text once its first [h] is removed; n is not bounded below.
    A request for the date D, slot 14:00 and duration 2h, on a host at or
    ahead of UTC by less than a day and with D read as midnight UTC,
    persists start = D 14:00 local and end = D 16:00 local. *)
Theorem C3_persisted_interval o now body w r w' :
  postBookings tz Date_parse EMAIL_USER toLocaleDateString o now body w = (r, w') ->
  bookings w' <> bookings w ->
  exists b s n,
    bookings w' = (bookings w ++ [b])%list
    /\ Str.parseInt (Str.replace "h" "" (text (Body.duration body))) = Some n
    /\ Booking.startTime b = Some s
    /\ Booking.endTime b = Some (s + n * Time.msPerHour)
    /\ (forall y m d,
          0 <= tz < Time.msPerDay ->
          Date_parse (text (Body.date body))
          = Some (Time.days_from_civil y m d * Time.msPerDay) ->
          Body.timeSlot body = Some "14:00" ->
          Body.duration body = Some "2h" ->
          s = localInstant tz y m d 14
          /\ s + n * Time.msPerHour = localInstant tz y m d 16).
Proof.
  unfold postBookings.
  destruct (negb (truthy (Body.date body)) || _ || _ || _ || _ || _).
  { intros E. injection E as _ <-. congruence. }
  unfold createBooking, bindM, lift, ret, events_insert, Booking_save, sendMail.
  set (bookingDate := setHours tz _ _ _ _ _).
  destruct (toISOString bookingDate) as [startIso|] eqn:Es.
  2:{ intros E. injection E as _ <-. congruence. }
  destruct (toISOString_Returns _ _ Es) as [s Hs].
  rewrite Hs.
  destruct (Str.parseInt (Str.replace "h" "" (text (Body.duration body))))
    as [n|] eqn:En.
  2:{ cbn. intros E. injection E as _ <-. congruence. }
  rewrite setHours1_shift.
  destruct (Time.TimeClip (s + n * Time.msPerHour)) as [e|] eqn:Ee.
  2:{ cbn. intros E. injection E as _ <-. congruence. }
  apply TimeClip_Some in Ee. destruct Ee as [-> _].
  cbn [toISOString].
  destruct (insertReply o) as [id|].
  2:{ intros E. injection E as _ <-. congruence. }
  destruct (saveSucceeds o).
  2:{ cbn. intros E. injection E as _ <-. cbn. congruence. }
  intros E _.
  eexists _, s, n.
  split.
  { destruct (sendSucceeds o); injection E as _ <-; cbn; reflexivity. }
  split; [reflexivity|]. split; [reflexivity|]. split; [reflexivity|].
  intros y m d Htz Hp Hslot Hdur.
  rewrite Hdur in En. cbn in En. injection En as <-.
  subst bookingDate. unfold newDateOfString in Hs.
  rewrite Hp, Hslot in Hs. 
  destruct (Time.TimeClip (Time.days_from_civil y m d * Time.msPerDay)) as [t0|] eqn:E0;
    [|discriminate Hs].
  apply TimeClip_Some in E0. destruct E0 as [-> _].
  change (Str.parseIntOpt (nth_error (Str.split ":" (text (Some "14:00"))) 0)) with (Some 14) in Hs.
  change (Str.parseIntOpt (nth_error (Str.split ":" (text (Some "14:00"))) 1)) with (Some 0) in Hs.
  unfold setHours in Hs. apply TimeClip_Some in Hs. destruct Hs as [Hs _].
  unfold LocalTime in Hs. rewrite Day_of_local_midnight in Hs by assumption.
  unfold localInstant. subst s.
  unfold UTC, Time.MakeDate, Time.MakeTime, Time.msPerHour, Time.msPerMinute, Time.msPerSecond.
  lia.
Qed.

End BookingFacts.

(** ** The day view *)

(** The test for a past date fails from the start of the local day on. *)
Lemma lt_startOfToday (tz now t : Z) :
  startOfLocalDay tz now <= t -> lt (Some t) (startOfToday tz now) = false.
Proof.
  intros H. unfold startOfToday, newDate.
  destruct (Time.TimeClip now) as [n|] eqn:E; [|reflexivity].
  apply TimeClip_Some in E. destruct E as [-> _].
  rewrite setHours_local.
  destruct (Time.TimeClip _) as [u|] eqn:E; [|reflexivity].
  apply TimeClip_Some in E. destruct E as [-> _].
  unfold Time.MakeTime. cbn [lt]. apply Z.ltb_ge. lia.
Qed.

(** The callback of the slot loop is the half-open interval test. *)
Lemma covers_busy (t : Z) (event : Event.t) :
  validEvent event ->
  covers (Some t) event = true <->
  exists s e, Event.start_dateTime event = Some s
              /\ Event.end_dateTime event = Some e /\ s <= t < e.
Proof.
  intros [Vs Ve]. unfold covers.
  destruct (Event.start_dateTime event) as [s|];
    [|split; [discriminate | intros (s & e & E & _); discriminate E]].
  destruct (Event.end_dateTime event) as [e|];
    [|split; [discriminate | intros (s' & e & _ & E & _); discriminate E]].
  unfold newDate. rewrite (TimeClip_valid s), (TimeClip_valid e) by auto.
  unfold ge, le, lt. rewrite andb_true_iff, Z.leb_le, Z.ltb_lt.
  split.
  - intros H. exists s, e. auto.
  - intros (s' & e' & Es & Ee & H). injection Es as <-. injection Ee as <-. exact H.
Qed.

Lemma existsb_covers (t : Z) (items : option (list Event.t)) :
  Forall validEvent (itemsOf items) ->
  match items with
  | Some l => existsb (covers (Some t)) l
  | None => false
  end = true <-> busyAt items t.
Proof.
  intros V. unfold busyAt. destruct items as [l|]; cbn [itemsOf] in *.
  - rewrite existsb_exists. split.
    + intros (event & Hin & Hc).
      rewrite Forall_forall in V.
      apply (covers_busy t event (V _ Hin)) in Hc.
      destruct Hc as (s & e & Es & Ee & H). exists event, s, e. auto.
    + intros (event & s & e & Hin & Es & Ee & H).
      exists event. split; [exact Hin|].
      rewrite Forall_forall in V.
      apply (covers_busy t event (V _ Hin)). exists s, e. auto.
  - split; [discriminate | intros (event & _ & _ & [] & _)].
Qed.

Section DayView.

Variable tz : Z.
Variable Date_parse : string -> option Z.
Variable events_list : Z -> Z -> outcome (option (list Event.t)).

(** C10.  A request whose date lies strictly before the start of the
    current local day is answered with the success response carrying an
    empty slot list, whatever the closure state of the date and whatever the
    calendar holds or answers. *)
Theorem C10_past_date_gets_empty_list (now : Z) (date : string) (t : Z) :
  Date_parse date = Some t ->
  validTime t -> validTime now -> validTime (startOfLocalDay tz now) ->
  t < startOfLocalDay tz now ->
  getSlots tz Date_parse events_list now date = SlotsOk None [].
Proof.
  intros Hp Vt Vn Vs Hlt.
  unfold getSlots, newDateOfString, startOfToday, newDate.
  rewrite Hp, (TimeClip_valid t Vt), (TimeClip_valid now Vn), setHours_local.
  unfold Time.MakeTime. cbn [Z.mul Z.add].
  rewrite Z.add_0_r, (TimeClip_valid _ Vs). cbn [lt].
  apply Z.ltb_lt in Hlt. rewrite Hlt. reflexivity.
Qed.

(** A date closed by the weekly rule or by the holiday table gets the empty
    list too. *)
Lemma getSlots_weekly_or_holiday (now : Z) (date : string) (t : Z) :
  Date_parse date = Some t -> validTime t ->
  isWeekend tz (Some t) = true \/ isHoliday (Some t) = Returns true ->
  getSlots tz Date_parse events_list now date = SlotsOk None [].
Proof.
  intros Hp Vt H. unfold getSlots, newDateOfString.
  rewrite Hp, (TimeClip_valid t Vt).
  destruct (lt (Some t) (startOfToday tz now)); [reflexivity|].
  destruct (isWeekend tz (Some t)); [reflexivity|].
  destruct H as [H | H]; [discriminate H|]. rewrite H. reflexivity.
Qed.

(** C6.  On an open date that is not past, the day view returns the nine
    slots of the grid in order; each carries its instant, the local hour of
    the slot on the local day of the request, and is unavailable exactly
    when that instant lies in [start, end) of a fetched busy interval; in
    particular a slot is available when every fetched interval starts after
    it or ends at or before it. *)
Theorem C6_open_day_returns_the_grid (now : Z) (date : string) (t : Z)
    (items : option (list Event.t)) :
  Date_parse date = Some t ->
  validTime t ->
  validTime (startOfLocalDay tz t) ->
  validTime (startOfLocalDay tz t + Time.msPerDay) ->
  startOfLocalDay tz now <= t ->
  isWeekend tz (Some t) = false ->
  isHoliday (Some t) = Returns false ->
  events_list (startOfLocalDay tz t) (startOfLocalDay tz t + 86399999)
  = Returns items ->
  Forall validEvent (itemsOf items) ->
  exists l,
    getSlots tz Date_parse events_list now date = SlotsOk (Some date) l
    /\ map Slot.time l
       = [ "09:00"; "10:00"; "11:00"; "12:00"; "13:00";
           "14:00"; "15:00"; "16:00"; "17:00" ]
    /\ forall k sl,
         nth_error l k = Some sl ->
         let slotInstant :=
           startOfLocalDay tz t + (9 + Z.of_nat k) * Time.msPerHour in
         Slot.datetime sl = isoString slotInstant
         /\ (Slot.available sl = false <-> busyAt items slotInstant)
         /\ ((forall event s e,
                In event (itemsOf items) ->
                Event.start_dateTime event = Some s ->
                Event.end_dateTime event = Some e ->
                slotInstant < s \/ e <= slotInstant) ->
             Slot.available sl = true).
Proof.
  intros Hp Vt V0 V1 Hnow Hw Hh Hev Vi.
  assert (S : forall h m s ms,
             0 <= Time.MakeTime h m s ms <= Time.msPerDay ->
             setHours tz (Some t) (Some h) (Some m) (Some s) (Some ms)
             = Some (startOfLocalDay tz t + Time.MakeTime h m s ms)).
  { intros h m s ms B. rewrite setHours_local. apply TimeClip_valid.
    apply (validTime_between _ _ _ V0 V1). lia. }
  unfold getSlots, newDateOfString.
  rewrite Hp, (TimeClip_valid t Vt), (lt_startOfToday _ _ _ Hnow), Hw, Hh.
  cbn [bind].
  rewrite !S by (vm_compute; split; discriminate).
  unfold instant. cbn [toISOString bind].
  change (Time.MakeTime 0 0 0 0) with 0.
  change (Time.MakeTime 23 59 59 999) with 86399999.
  rewrite Z.add_0_r, Hev. cbn [bind].
  unfold getBusinessHours, bh_slots, mapM, slotEntry.
  repeat match goal with
         | |- context [slotTimeOf tz (Some t) ?x] =>
             let h := eval vm_compute in
                        (Str.parseIntOpt (nth_error (Str.split ":" x) 0)) in
             change (slotTimeOf tz (Some t) x)
               with (setHours tz (Some t) h (Some 0) (Some 0) (Some 0));
             rewrite S by (vm_compute; split; discriminate)
         end.
  cbn [toISOString bind].
  eexists. split; [reflexivity|]. split; [reflexivity|].
  assert (A : forall u,
             negb match items with
                  | Some l0 => existsb (covers (Some u)) l0
                  | None => false
                  end = false <-> busyAt items u).
  { intros u. rewrite negb_false_iff. apply existsb_covers. exact Vi. }
  assert (B : forall u,
             (forall event s e,
                In event (itemsOf items) ->
                Event.start_dateTime event = Some s ->
                Event.end_dateTime event = Some e ->
                u < s \/ e <= u) ->
             negb match items with
                  | Some l0 => existsb (covers (Some u)) l0
                  | None => false
                  end = true).
  { intros u H. apply not_false_iff_true. intros F. apply A in F.
    destruct F as (event & s & e & Hin & Es & Ee & R).
    destruct (H event s e Hin Es Ee); lia. }
  intros k sl Hk.
  do 9 (destruct k as [|k];
        [ injection Hk as <-; cbn [Slot.datetime Slot.available];
          match goal with
          | |- isoString ?a = isoString ?b /\ _ =>
              replace b with a by (unfold Time.MakeTime, Time.msPerHour; cbn [Z.of_nat]; lia)
          end;
          split; [reflexivity | split; [apply A | apply B]]
        | cbn [nth_error] in Hk ]).
  destruct k; discriminate Hk.
Qed.

End DayView.

(** ** The month view *)

(** With a callback that never throws, [some] and [filter] are [existsb]
    and [filter]. *)
Lemma someM_pure {A : Type} (f : A -> outcome bool) (g : A -> bool) (l : list A) :
  (forall a, In a l -> f a = Returns (g a)) ->
  someM f l = Returns (existsb g l).
Proof.
  induction l as [|a r IH]; intros H; cbn; [reflexivity|].
  rewrite (H a (or_introl eq_refl)). cbn.
  destruct (g a); [reflexivity|].
  apply IH. intros b Hb. apply H. now right.
Qed.

Lemma filterM_pure {A : Type} (f : A -> outcome bool) (g : A -> bool) (l : list A) :
  (forall a, In a l -> f a = Returns (g a)) ->
  filterM f l = Returns (filter g l).
Proof.
  induction l as [|a r IH]; intros H; cbn; [reflexivity|].
  rewrite (H a (or_introl eq_refl)). cbn.
  rewrite IH by (intros b Hb; apply H; now right). reflexivity.
Qed.

(** [hasBookings] is true exactly when the filtered list is not empty. *)
Lemma existsb_filter {A : Type} (g : A -> bool) (l : list A) :
  existsb g l = (0 <? Z.of_nat (List.length (filter g l))).
Proof.
  induction l as [|a r IH]; cbn; [reflexivity|].
  destruct (g a); cbn [orb List.length].
  - symmetry. apply Z.ltb_lt. lia.
  - exact IH.
Qed.

Lemma startsOn_pure (dateStr : string) (event : Event.t) :
  validEvent event -> startsOn dateStr event = Returns (startsAt dateStr event).
Proof.
  intros [V _]. unfold startsOn, startsAt.
  destruct (Event.start_dateTime event) as [s|]; [|reflexivity].
  unfold newDate. rewrite (TimeClip_valid s) by auto.
  cbn. now rewrite DateFacts.beforeT_isoString.
Qed.

Lemma declaredOn_pure (dateStr : string) (day : ClosedDay.t) :
  declaredOn dateStr day = Returns (declaredAt dateStr day).
Proof.
  unfold declaredOn, declaredAt. cbn. now rewrite DateFacts.beforeT_isoString.
Qed.

(** One turn of the loop computes [entryAt]. *)
Lemma calendarEntry_entryAt (tz : Z) (closedDays : list ClosedDay.t)
    (items : option (list Event.t)) (t : Z) :
  Forall validEvent (itemsOf items) ->
  calendarEntry tz closedDays items (Some t)
  = Returns (entryAt tz closedDays items t).
Proof.
  intros V. rewrite Forall_forall in V.
  unfold calendarEntry, entryAt, isHoliday.
  cbn [toISOString bind]. rewrite DateFacts.beforeT_isoString.
  fold (holidayAt t).
  rewrite (someM_pure _ (declaredAt (isoDate t)))
    by (intros; apply declaredOn_pure).
  cbn [bind].
  assert (H : match items with
              | Some l => someM (startsOn (isoDate t)) l
              | None => Returns false
              end = Returns (existsb (startsAt (isoDate t)) (itemsOf items))).
  { destruct items as [l|]; [|reflexivity].
    apply someM_pure. intros a Ha. apply startsOn_pure, V, Ha. }
  rewrite H. cbn [bind].
  rewrite (filterM_pure _ (startsAt (isoDate t)))
    by (intros a Ha; apply startsOn_pure, V; destruct items; [exact Ha | destruct Ha]).
  fold (itemsOf items).
  rewrite (existsb_filter (startsAt (isoDate t))).
  set (n := Z.of_nat (List.length (filter (startsAt (isoDate t)) (itemsOf items)))).
  destruct (0 <? n) eqn:E.
  - cbn [bind andb]. f_equal. f_equal.
    destruct (isWeekend tz (Some t)), (holidayAt t),
      (existsb (declaredAt (isoDate t)) closedDays); reflexivity.
  - cbn [bind andb]. apply Z.ltb_ge in E. assert (n = 0) as -> by (subst n; lia).
    f_equal. f_equal.
    destruct (isWeekend tz (Some t)), (holidayAt t),
      (existsb (declaredAt (isoDate t)) closedDays); reflexivity.
Qed.

(** [setDate(getDate() + 1)] moves the instant by one day. *)
Lemma setDate_next (tz t : Z) :
  setDate tz (Some t) (add (getDate tz (Some t)) (Some 1))
  = Time.TimeClip (t + Time.msPerDay).
Proof.
  unfold setDate, getDate, add, option_map, UTC, LocalTime.
  f_equal.
  set (l := t + tz).
  unfold Time.YearFromTime, Time.MonthFromTime, Time.DateFromTime.
  pose proof (TimeFacts.days_from_civil_of_civil (Time.Day l)) as R.
  pose proof (TimeFacts.civil_month_range (Time.Day l)) as G.
  destruct (Time.civil_from_days (Time.Day l)) as [[y m] d].
  unfold Time.MakeDay.
  replace ((m - 1) / 12) with 0 by (Z.to_euclidean_division_equations; lia).
  replace ((m - 1) mod 12 + 1) with m by (Z.to_euclidean_division_equations; lia).
  rewrite Z.add_0_r.
  rewrite (TimeFacts.days_from_civil_day y m d) in R.
  unfold Time.MakeDate, Time.TimeWithinDay.
  replace (Time.days_from_civil y m 1 + (d + 1) - 1) with (Time.Day l + 1) by lia.
  unfold Time.Day, Time.msPerDay. subst l.
  Z.to_euclidean_division_equations; lia.
Qed.

(** Started [n] days before the day after [endDate], with fuel for [n]
    turns, the loop makes the entries of those [n] days. *)
Lemma calendarLoop_run (tz : Z) (closedDays : list ClosedDay.t)
    (items : option (list Event.t)) (e : Z) :
  Forall validEvent (itemsOf items) ->
  validTime (e + Time.msPerDay) ->
  forall (n fuel : nat) (t : Z),
    (n <= fuel)%nat ->
    validTime t ->
    t + Z.of_nat n * Time.msPerDay = e + Time.msPerDay ->
    calendarLoop tz fuel closedDays items (Some e) (Some t)
    = Some (Returns (map (entryAt tz closedDays items) (dailyFrom t n))).
Proof.
  intros V Ve. induction n as [|n IH]; intros fuel t Hf Vt Ht.
  - assert (le (Some t) (Some e) = false) as L
        by (cbn; apply Z.leb_gt; unfold Time.msPerDay in *; lia).
    destruct fuel; cbn [calendarLoop]; rewrite L; reflexivity.
  - destruct fuel as [|fuel]; [lia|].
    assert (le (Some t) (Some e) = true) as L
        by (cbn; apply Z.leb_le; unfold Time.msPerDay in *; lia).
    cbn [calendarLoop]. rewrite L.
    rewrite (calendarEntry_entryAt tz closedDays items t V).
    rewrite setDate_next.
    assert (Vn : validTime (t + Time.msPerDay)).
    { apply (validTime_between t (e + Time.msPerDay)); auto.
      unfold Time.msPerDay in *. lia. }
    rewrite (TimeClip_valid _ Vn).
    rewrite (IH fuel (t + Time.msPerDay)) by (auto; lia).
    unfold dailyFrom. cbn [seq map]. f_equal. f_equal. f_equal.
    + f_equal. cbn. lia.
    + rewrite <- seq_shift, !map_map. apply map_ext. intros k. f_equal. lia.
Qed.

Lemma fullYear_range (year : Z) :
  0 <= year <= 9999 -> 100 <= fullYear year <= 9999.
Proof.
  unfold fullYear. intros H.
  destruct (Z.leb_spec 0 year), (Z.leb_spec year 99); cbn [andb]; lia.
Qed.

Lemma fullYear_idem (year : Z) : fullYear (fullYear year) = fullYear year.
Proof.
  unfold fullYear.
  destruct ((0 <=? year) && (year <=? 99)) eqn:E; [|now rewrite E].
  apply andb_true_iff in E. destruct E as [A B].
  apply Z.leb_le in A. apply Z.leb_le in B.
  destruct (Z.leb_spec (1900 + year) 99); [lia|].
  now rewrite andb_false_r.
Qed.

Lemma getCalendar_fullYear (tz : Z)
    (events_list : Z -> Z -> outcome (option (list Event.t)))
    (ClosedDay_find : Z -> Z -> outcome (list ClosedDay.t))
    (fuel : nat) (year month : Z) :
  getCalendar tz events_list ClosedDay_find fuel year month
  = getCalendar tz events_list ClosedDay_find fuel (fullYear year) month.
Proof.
  unfold getCalendar, newDateOfFields. now rewrite fullYear_idem.
Qed.

(** The UTC day of the local midnights of a month, on a host at or ahead
    of UTC by less than a day: the day itself in UTC, the day before
    otherwise. *)
Lemma Day_localInstant (tz y m d : Z) :
  0 <= tz < Time.msPerDay ->
  Time.Day (localInstant tz y m d 0)
  = Time.days_from_civil y m d - (if tz =? 0 then 0 else 1).
Proof.
  intros H. unfold localInstant, Time.Day.
  destruct (Z.eqb_spec tz 0) as [-> | N];
    unfold Time.msPerDay, Time.msPerHour in *;
    Z.to_euclidean_division_equations; lia.
Qed.

(** The two dates the handler builds: the local midnights of the first and
    of the last day of the month. *)
Lemma newDateOfFields_first (tz year month : Z) :
  - Time.msPerDay <= tz <= Time.msPerDay ->
  100 <= year <= 9999 -> 1 <= month <= 12 ->
  newDateOfFields tz year (month - 1) 1
  = Some (localInstant tz year month 1 0).
Proof.
  intros tz_day year_range month_range.
  unfold newDateOfFields, fullYear, localInstant.
  replace ((0 <=? year) && (year <=? 99)) with false
    by (symmetry; apply andb_false_iff; right; apply Z.leb_gt; lia).
  unfold Time.MakeDay.
  replace ((month - 1) / 12) with 0 by (Z.to_euclidean_division_equations; lia).
  replace ((month - 1) mod 12 + 1) with month
    by (Z.to_euclidean_division_equations; lia).
  rewrite Z.add_0_r.
  pose proof (days_from_civil_bounds year month) as B.
  unfold UTC, Time.MakeDate, Time.MakeTime.
  rewrite TimeClip_valid.
  - f_equal. lia.
  - unfold validTime, Time.maxTime, Time.msPerDay in *. lia.
Qed.

Lemma newDateOfFields_last (tz year month : Z) :
  - Time.msPerDay <= tz <= Time.msPerDay ->
  100 <= year <= 9999 -> 1 <= month <= 12 ->
  newDateOfFields tz year month 0
  = Some (localInstant tz year month (Time.daysInMonth year month) 0).
Proof.
  intros tz_day year_range month_range.
  unfold newDateOfFields, fullYear, localInstant.
  replace ((0 <=? year) && (year <=? 99)) with false
    by (symmetry; apply andb_false_iff; right; apply Z.leb_gt; lia).
  unfold Time.MakeDay.
  rewrite (TimeFacts.days_from_civil_next_month year month month_range).
  rewrite (TimeFacts.days_from_civil_day year month (Time.daysInMonth year month)).
  pose proof (days_from_civil_bounds year month) as B.
  pose proof (daysInMonth_range year month) as D.
  unfold UTC, Time.MakeDate, Time.MakeTime.
  rewrite TimeClip_valid.
  - f_equal. lia.
  - unfold validTime, Time.maxTime, Time.msPerDay in *. lia.
Qed.

(** On a host at or behind UTC, by less than a day, the local days of a
    month carry its dates, in ascending order. *)
Lemma entry_date (tz year month k : Z) :
  - Time.msPerDay < tz <= 0 ->
  0 <= year <= 9999 -> 1 <= month <= 12 ->
  0 <= k < Time.daysInMonth year month ->
  Time.civil_from_days
    (Time.Day (localInstant tz year month 1 0 + k * Time.msPerDay))
  = (year, month, k + 1).
Proof.
  intros Htz Hy Hm Hk.
  replace (Time.Day (localInstant tz year month 1 0 + k * Time.msPerDay))
    with (Time.days_from_civil year month (k + 1)).
  - apply TimeFacts.civil_of_days_from_civil; lia.
  - rewrite (TimeFacts.days_from_civil_day year month (k + 1)).
    unfold localInstant, Time.Day, Time.msPerDay, Time.msPerHour in *.
    Z.to_euclidean_division_equations; lia.
Qed.

Section MonthView.

Variable tz : Z.
Variable events_list : Z -> Z -> outcome (option (list Event.t)).
Variable ClosedDay_find : Z -> Z -> outcome (list ClosedDay.t).

(** The month view, entry by entry: one entry per local day of the month,
    computed from the two listings fetched up front. *)
Lemma getCalendar_entries (fuel : nat) (year month : Z)
    (items : option (list Event.t)) (closedDays : list ClosedDay.t) :
  - Time.msPerDay <= tz <= Time.msPerDay ->
  100 <= year <= 9999 -> 1 <= month <= 12 ->
  (31 <= fuel)%nat ->
  events_list (localInstant tz year month 1 0)
    (localInstant tz year month (Time.daysInMonth year month) 0)
  = Returns items ->
  ClosedDay_find (localInstant tz year month 1 0)
    (localInstant tz year month (Time.daysInMonth year month) 0)
  = Returns closedDays ->
  Forall validEvent (itemsOf items) ->
  getCalendar tz events_list ClosedDay_find fuel year month
  = Some (CalendarOk
            (map (entryAt tz closedDays items)
               (dailyFrom (localInstant tz year month 1 0)
                  (Z.to_nat (Time.daysInMonth year month))))).
Proof.
  intros tz_day year_range month_range Hf He Hc V.
  unfold getCalendar.
  rewrite newDateOfFields_first, newDateOfFields_last by assumption.
  unfold instant. cbn [toISOString bind].
  rewrite He. cbn [bind]. rewrite Hc. cbn [bind].
  pose proof (days_from_civil_bounds year month) as B.
  pose proof (daysInMonth_range year month) as D.
  rewrite (calendarLoop_run tz closedDays items _ V)
    with (n := Z.to_nat (Time.daysInMonth year month)).
  - reflexivity.
  - unfold localInstant, validTime, Time.maxTime, Time.msPerDay, Time.msPerHour in *.
    rewrite (TimeFacts.days_from_civil_day year month (Time.daysInMonth year month)).
    lia.
  - lia.
  - unfold localInstant, validTime, Time.maxTime, Time.msPerDay, Time.msPerHour in *. lia.
  - unfold localInstant.
    rewrite (TimeFacts.days_from_civil_day year month (Time.daysInMonth year month)).
    rewrite Z2Nat.id by lia. unfold Time.msPerDay, Time.msPerHour. lia.
Qed.

End MonthView.

Lemma dailyFrom_last (t : Z) (n : nat) :
  dailyFrom t (S n) = (dailyFrom t n ++ [t + Z.of_nat n * Time.msPerDay])%list.
Proof.
  unfold dailyFrom. rewrite seq_S, map_app. reflexivity.
Qed.

Lemma filter_none {A : Type} (g : A -> bool) (l : list A) :
  (forall a, In a l -> g a = false) -> filter g l = [].
Proof.
  induction l as [|a r IH]; intros H; cbn; [reflexivity|].
  rewrite (H a (or_introl eq_refl)). apply IH. intros b Hb. apply H. now right.
Qed.

Lemma nth_error_dailyFrom (t : Z) (n k : nat) :
  (k < n)%nat ->
  nth_error (dailyFrom t n) k = Some (t + Z.of_nat k * Time.msPerDay).
Proof.
  intros H. unfold dailyFrom.
  rewrite nth_error_map, nth_error_seq.
  destruct (Nat.ltb_spec k n); [reflexivity | lia].
Qed.

(** The month view on a host at or behind UTC, by less than a day: one
    entry per date of the month, in ascending order, each with the count of
    the fetched events that start on it and the status the three closure
    rules and that count give. *)
Lemma getCalendar_month (tz : Z)
    (events_list : Z -> Z -> outcome (option (list Event.t)))
    (ClosedDay_find : Z -> Z -> outcome (list ClosedDay.t))
    (fuel : nat) (year month : Z)
    (items : option (list Event.t)) (closedDays : list ClosedDay.t) :
  - Time.msPerDay < tz <= 0 ->
  0 <= year <= 9999 -> 1 <= month <= 12 -> (31 <= fuel)%nat ->
  let y := fullYear year in
  events_list (localInstant tz y month 1 0)
    (localInstant tz y month (Time.daysInMonth y month) 0)
  = Returns items ->
  ClosedDay_find (localInstant tz y month 1 0)
    (localInstant tz y month (Time.daysInMonth y month) 0)
  = Returns closedDays ->
  Forall validEvent (itemsOf items) ->
  exists data,
    getCalendar tz events_list ClosedDay_find fuel year month
    = Some (CalendarOk data)
    /\ Z.of_nat (List.length data) = Time.daysInMonth y month
    /\ forall k entry,
         nth_error data k = Some entry ->
         let t := localInstant tz y month (Z.of_nat k + 1) 0 in
         let dateStr := isoOfCivil y month (Z.of_nat k + 1) in
         CalendarDay.date entry = dateStr
         /\ 0 <= CalendarDay.bookings entry
         /\ CalendarDay.bookings entry
            = Z.of_nat (List.length (filter (startsAt dateStr) (itemsOf items)))
         /\ CalendarDay.status entry
            = if isWeekend tz (Some t) || holidayAt t
                 || existsb (declaredAt dateStr) closedDays
              then closed
              else if 0 <? CalendarDay.bookings entry then occupied
                   else available.
Proof.
  intros Htz Hyear Hm Hf y He Hc V.
  pose proof (fullYear_range year Hyear) as Hy. fold y in Hy.
  rewrite getCalendar_fullYear. fold y.
  clearbody y. clear Hyear year. rename y into year.
  pose proof (daysInMonth_range year month) as D.
  eexists. split.
  { apply (getCalendar_entries tz events_list ClosedDay_find fuel year month
             items closedDays); auto; unfold Time.msPerDay in *; lia. }
  split.
  { unfold dailyFrom. rewrite !length_map, length_seq. lia. }
  intros k entry Hk t dateStr.
  rewrite nth_error_map in Hk.
  destruct (Nat.ltb_spec k (Z.to_nat (Time.daysInMonth year month))) as [Lt | Ge].
  2:{ unfold dailyFrom in Hk. rewrite (proj2 (nth_error_None _ _)) in Hk;
        [discriminate Hk | rewrite length_map, length_seq; lia]. }
  rewrite (nth_error_dailyFrom _ _ _ Lt) in Hk. cbn [option_map] in Hk.
  assert (T : localInstant tz year month 1 0 + Z.of_nat k * Time.msPerDay = t).
  { subst t. unfold localInstant.
    rewrite (TimeFacts.days_from_civil_day year month (Z.of_nat k + 1)). lia. }
  rewrite T in Hk.
  assert (L : isoDate t = dateStr).
  { subst dateStr. apply DateFacts.isoDate_civil; [|lia].
    rewrite <- T. apply entry_date; auto; lia. }
  assert (E : entry = entryAt tz closedDays items t) by congruence.
  subst entry. unfold entryAt.
  cbn [CalendarDay.date CalendarDay.bookings CalendarDay.status].
  rewrite L. repeat split. lia.
Qed.

(** The text of a date of the month is that of its midnight in UTC. *)
Lemma isoDate_utc_midnight (y m d : Z) :
  0 <= y <= 9999 -> 1 <= m <= 12 -> 1 <= d <= Time.daysInMonth y m ->
  isoDate (Time.days_from_civil y m d * Time.msPerDay) = isoOfCivil y m d
  /\ 0 <= Time.YearFromTime (Time.days_from_civil y m d * Time.msPerDay) <= 9999.
Proof.
  intros Hy Hm Hd.
  assert (C : Time.civil_from_days
                (Time.Day (Time.days_from_civil y m d * Time.msPerDay))
              = (y, m, d)).
  { rewrite Day_midnight. now apply TimeFacts.civil_of_days_from_civil. }
  split.
  - now apply DateFacts.isoDate_civil.
  - unfold Time.YearFromTime. rewrite C. exact Hy.
Qed.

(** On a host at or ahead of UTC by less than a day, a local midnight of
    the month is dated its last day only on a host in UTC, and is then the
    midnight of the last day. *)
Lemma dated_last_day (tz y m : Z) (k : nat) :
  0 <= tz < Time.msPerDay ->
  0 <= y <= 9999 -> 1 <= m <= 12 ->
  (k < Z.to_nat (Time.daysInMonth y m))%nat ->
  isoDate (localInstant tz y m 1 0 + Z.of_nat k * Time.msPerDay)
  = isoOfCivil y m (Time.daysInMonth y m) ->
  tz = 0
  /\ localInstant tz y m 1 0 + Z.of_nat k * Time.msPerDay
     = Time.days_from_civil y m (Time.daysInMonth y m) * Time.msPerDay.
Proof.
  intros Htz Hy Hm Hk E.
  pose proof (daysInMonth_range y m) as D.
  destruct (isoDate_utc_midnight y m (Time.daysInMonth y m) Hy Hm) as [T Y];
    [lia|].
  rewrite <- T in E. symmetry in E.
  apply (DateFacts.isoDate_same_day _ _ Y) in E.
  rewrite Day_midnight in E.
  replace (localInstant tz y m 1 0 + Z.of_nat k * Time.msPerDay)
    with (localInstant tz y m (Z.of_nat k + 1) 0) in *
    by (unfold localInstant;
        rewrite (TimeFacts.days_from_civil_day y m (Z.of_nat k + 1)); lia).
  rewrite (Day_localInstant tz y m _ Htz) in E.
  rewrite (TimeFacts.days_from_civil_day y m (Time.daysInMonth y m)),
    (TimeFacts.days_from_civil_day y m (Z.of_nat k + 1)) in E.
  destruct (Z.eqb_spec tz 0) as [-> | N]; [|lia].
  split; [reflexivity|].
  unfold localInstant.
  rewrite (TimeFacts.days_from_civil_day y m (Time.daysInMonth y m)),
    (TimeFacts.days_from_civil_day y m (Z.of_nat k + 1)).
  lia.
Qed.

(** No listed event starts on the UTC day of a midnight at the end of the
    listed range, unless it starts at that midnight. *)
Lemma none_starts_on_last_day (items : option (list Event.t)) (D : Z) :
  0 <= Time.YearFromTime (D * Time.msPerDay) <= 9999 ->
  (forall event s,
     In event (itemsOf items) -> Event.start_dateTime event = Some s ->
     s <= D * Time.msPerDay) ->
  existsb (startsExactlyAt (D * Time.msPerDay)) (itemsOf items) = false ->
  filter (startsAt (isoDate (D * Time.msPerDay))) (itemsOf items) = [].
Proof.
  intros Y Hr Ex. apply filter_none. intros event Hi. unfold startsAt.
  destruct (Event.start_dateTime event) as [s|] eqn:Es; [|reflexivity].
  apply not_true_iff_false. intros Eq. apply String.eqb_eq in Eq.
  symmetry in Eq. apply (DateFacts.isoDate_same_day _ _ Y) in Eq.
  rewrite Day_midnight in Eq.
  pose proof (Day_lower s) as Ls.
  pose proof (Hr event s Hi Es) as Us.
  assert (s = D * Time.msPerDay) by lia.
  assert (existsb (startsExactlyAt (D * Time.msPerDay)) (itemsOf items) = true).
  { apply existsb_exists. exists event. split; [exact Hi|].
    unfold startsExactlyAt. rewrite Es. now apply Z.eqb_eq. }
  congruence.
Qed.

Lemma existsb_startsExactlyAt (items : option (list Event.t)) (t : Z) :
  existsb (startsExactlyAt t) (itemsOf items) = true ->
  exists event,
    In event (itemsOf items) /\ Event.start_dateTime event = Some t.
Proof.
  intros Ex. apply existsb_exists in Ex. destruct Ex as (event & Hi & Hs).
  exists event. split; [exact Hi|].
  unfold startsExactlyAt in Hs.
  destruct (Event.start_dateTime event) as [s|]; [|discriminate Hs].
  apply Z.eqb_eq in Hs. now subst s.
Qed.

Lemma entryAt_date (tz : Z) (closedDays : list ClosedDay.t)
    (items : option (list Event.t)) (t : Z) :
  CalendarDay.date (entryAt tz closedDays items t) = isoDate t.
Proof. reflexivity. Qed.

Lemma entryAt_quiet (tz : Z) (closedDays : list ClosedDay.t)
    (items : option (list Event.t)) (t : Z) :
  filter (startsAt (isoDate t)) (itemsOf items) = [] ->
  CalendarDay.bookings (entryAt tz closedDays items t) = 0
  /\ CalendarDay.status (entryAt tz closedDays items t) <> occupied.
Proof.
  intros E. unfold entryAt. cbn [CalendarDay.bookings CalendarDay.status].
  rewrite E. cbn [List.length Z.of_nat]. split; [reflexivity|].
  destruct (_ || _ || _); discriminate.
Qed.

Section MonthViewClaims.

Variable tz : Z.
Variable events_list : Z -> Z -> outcome (option (list Event.t)).
Variable ClosedDay_find : Z -> Z -> outcome (list ClosedDay.t).

(** C9.  The month view asks the calendar for the range from the start of
    the first day of the month to midnight, 00:00, of its last day, in
    local time.  With a calendar that lists no event starting after the end
    of the range, on a host at or ahead of UTC by less than a day, an entry
    dated the last day of the month has busy count 0 and is not 'occupied',
    unless a listed event starts exactly at that midnight; on a host in
    UTC the last entry is dated the last day. *)
Theorem C9_last_day_lies_outside_the_query (fuel : nat) (year month : Z)
    (items : option (list Event.t)) (closedDays : list ClosedDay.t) :
  0 <= tz < Time.msPerDay ->
  0 <= year <= 9999 -> 1 <= month <= 12 -> (31 <= fuel)%nat ->
  let y := fullYear year in
  let first := localInstant tz y month 1 0 in
  let last := localInstant tz y month (Time.daysInMonth y month) 0 in
  let lastDay := isoOfCivil y month (Time.daysInMonth y month) in
  events_list first last = Returns items ->
  ClosedDay_find first last = Returns closedDays ->
  Forall validEvent (itemsOf items) ->
  (forall event s,
     In event (itemsOf items) -> Event.start_dateTime event = Some s ->
     s <= last) ->
  exists data,
    getCalendar tz events_list ClosedDay_find fuel year month
    = Some (CalendarOk data)
    /\ (tz = 0 ->
        exists init entry,
          data = (init ++ [entry])%list /\ CalendarDay.date entry = lastDay)
    /\ forall entry,
         In entry data -> CalendarDay.date entry = lastDay ->
         (exists event,
            In event (itemsOf items)
            /\ Event.start_dateTime event = Some last)
         \/ (CalendarDay.bookings entry = 0
             /\ CalendarDay.status entry <> occupied).
Proof.
  intros Htz Hyear Hm Hf y.
  pose proof (fullYear_range year Hyear) as Hy. fold y in Hy.
  rewrite getCalendar_fullYear. fold y. clearbody y. clear Hyear year.
  intros first last lastDay He Hc V Hr.
  pose proof (daysInMonth_range y month) as D.
  assert (Hy' : 0 <= y <= 9999) by lia.
  destruct (isoDate_utc_midnight y month (Time.daysInMonth y month) Hy' Hm)
    as [T Y]; [lia|].
  rewrite (getCalendar_entries tz events_list ClosedDay_find fuel y month
             items closedDays)
    by (auto; unfold Time.msPerDay in *; lia).
  eexists. split; [reflexivity|]. split.
  - intros Z0.
    destruct (Z.to_nat (Time.daysInMonth y month)) as [|k] eqn:En; [lia|].
    rewrite dailyFrom_last, map_app. cbn [map].
    eexists _, _. split; [reflexivity|].
    rewrite entryAt_date. unfold lastDay. rewrite <- T. f_equal.
    unfold localInstant.
    rewrite (TimeFacts.days_from_civil_day y month (Time.daysInMonth y month)).
    lia.
  - intros entry Hin Hdate.
    apply in_map_iff in Hin. destruct Hin as (t & <- & Hin).
    unfold dailyFrom in Hin. apply in_map_iff in Hin.
    destruct Hin as (k & <- & Hk). apply in_seq in Hk.
    rewrite entryAt_date in Hdate.
    destruct (dated_last_day tz y month k Htz Hy' Hm) as [Z0 Et];
      [lia | exact Hdate |].
    rewrite Et.
    assert (El : last = Time.days_from_civil y month (Time.daysInMonth y month)
                        * Time.msPerDay)
      by (unfold last, localInstant; lia).
    rewrite El in *.
    destruct (existsb
                (startsExactlyAt
                   (Time.days_from_civil y month (Time.daysInMonth y month)
                    * Time.msPerDay)) (itemsOf items)) eqn:Ex.
    + left. now apply existsb_startsExactlyAt.
    + right. apply entryAt_quiet. now apply none_starts_on_last_day.
Qed.

End MonthViewClaims.

(** ** Runs on sample data *)

(** The sample calendar provider never lists an event that starts at or
    after the end of the range. *)
Lemma calendarOf_respects_timeMax (store : list Event.t) (timeMin timeMax : Z)
    (items : option (list Event.t)) :
  calendarOf store timeMin timeMax = Returns items ->
  forall event s,
    In event (itemsOf items) -> Event.start_dateTime event = Some s ->
    s <= timeMax.
Proof.
  unfold calendarOf. intros E event s Hin Hs.
  assert (I : items = Some (filter (listedBetween timeMin timeMax) store))
    by congruence.
  subst items. cbn [itemsOf] in Hin.
  apply filter_In in Hin. destruct Hin as [_ L].
  unfold listedBetween in L. rewrite Hs in L.
  apply andb_true_iff in L. destruct L as [L _].
  apply Z.ltb_lt in L. lia.
Qed.

Lemma validEvent_mk (id : string) (s e : Z) :
  validTime s -> validTime e -> validEvent (Event.mk id (Some s) (Some e)).
Proof.
  intros Vs Ve. split; cbn; intros x E; congruence.
Qed.

Lemma validTime_sample (t : Z) :
  (Z.abs t <=? Time.maxTime) = true -> validTime t.
Proof. apply Z.leb_le. Qed.

Example parseInt_09 : Str.parseInt "09" = Some 9.
Proof. reflexivity. Qed.

Example parseInt_2h : Str.parseInt (Str.replace "h" "" "2h") = Some 2.
Proof. reflexivity. Qed.

Example parseInt_abc : Str.parseInt "abc" = None.
Proof. reflexivity. Qed.

Example split_slot : Str.split ":" "14:00" = ["14"; "00"].
Proof. reflexivity. Qed.

Example civil_epoch : Time.civil_from_days 0 = (1970, 1, 1).
Proof. reflexivity. Qed.

Example civil_2024_02_29 : Time.civil_from_days 19782 = (2024, 2, 29).
Proof. reflexivity. Qed.

Example days_2024_03_01 : Time.days_from_civil 2024 3 1 = 19783.
Proof. reflexivity. Qed.

Example iso_epoch : toISOString (Some 0) = Returns "1970-01-01T00:00:00.000Z".
Proof. reflexivity. Qed.

Example iso_2024 :
  toISOString (Some 1709647200123) = Returns "2024-03-05T14:00:00.123Z".
Proof. reflexivity. Qed.

Example iso_year_10000 :
  toISOString (Some 253402300800000) = Returns "+010000-01-01T00:00:00.000Z".
Proof. reflexivity. Qed.

Example iso_before_year_0 :
  toISOString (Some (-62167219200001)) = Returns "-000001-12-31T23:59:59.999Z".
Proof. reflexivity. Qed.

(** Beyond the year 9999 [toISOString] writes a sign and six digits, and
    the characters 5 to 10 are no month-day. *)
Example isHoliday_christmas_10000 :
  isHoliday (Some (Time.days_from_civil 10000 12 25 * Time.msPerDay))
  = Returns false.
Proof. reflexivity. Qed.



(** *** The booking transaction *)

Lemma C7_missing_phone_witness :
  Body.customerPhone (withoutPhone sampleBody) = None
  /\ postBookings romeWinter parseISODate "studio@example.org" noLocale
       (mkOracle (Some "ev1") true true) sampleNow (withoutPhone sampleBody)
       emptyWorld
     = (MissingFields, emptyWorld).
Proof.
  split; [reflexivity|].
  apply C7_missing_field_is_rejected_without_effects.
  do 5 right. reflexivity.
Defined.

Lemma C8_sample_request_witness :
  let run o :=
    postBookings romeWinter parseISODate "studio@example.org" noLocale o
      sampleNow sampleBody emptyWorld in
  exists r b m,
    snd (run (mkOracle (Some "ev1") true true))
    = mkWorld [("ev1", r)] [b] [m]
    /\ (forall s1 s2, run (mkOracle None s1 s2) = (BookingError, emptyWorld))
    /\ (forall s2,
          run (mkOracle (Some "ev1") false s2)
          = (BookingError, mkWorld [("ev1", r)] [] []))
    /\ run (mkOracle (Some "ev1") true false)
       = (BookingError, mkWorld [("ev1", r)] [b] []).
Proof.
  eapply (C8_failed_step_aborts_the_rest_and_undoes_nothing
            romeWinter parseISODate "studio@example.org" noLocale
            sampleNow sampleBody emptyWorld "ev1").
  vm_compute. reflexivity.
Defined.

Lemma C2_notification_failure_counterexample :
  let out :=
    postBookings romeWinter parseISODate "studio@example.org" noLocale
      (mkOracle (Some "ev1") true false) sampleNow sampleBody emptyWorld in
  List.length (calendar (snd out)) = 1%nat
  /\ List.length (bookings (snd out)) = 1%nat
  /\ fst out = BookingError
  /\ ~ (exists c, fst out = BookingOk c).
Proof.
  vm_compute. repeat split. intros [c H]. discriminate H.
Qed.

Lemma C2_sample_request_witness :
  let run o :=
    postBookings romeWinter parseISODate "studio@example.org" noLocale o
      sampleNow sampleBody emptyWorld in
  run (mkOracle (Some "ev1") true false)
  = (BookingError,
     mkWorld (calendar (snd (run (mkOracle (Some "ev1") true true))))
       (bookings (snd (run (mkOracle (Some "ev1") true true)))) []).
Proof.
  eapply (C2_notification_failure_is_a_failure_response
            romeWinter parseISODate "studio@example.org" noLocale
            sampleNow sampleBody emptyWorld "ev1").
  vm_compute. reflexivity.
Defined.

Lemma C3_zero_duration_counterexample :
  let out :=
    postBookings romeWinter parseISODate "studio@example.org" noLocale
      (mkOracle (Some "ev1") true true) sampleNow
      (withDuration "0h" sampleBody) emptyWorld in
  (exists c, fst out = BookingOk c)
  /\ exists b,
       bookings (snd out) = [b]
       /\ Booking.duration b = "0h"
       /\ Booking.endTime b = Booking.startTime b
       /\ ~ (exists n, 1 <= n
                       /\ Booking.endTime b
                          = add (Booking.startTime b) (Some (n * Time.msPerHour))).
Proof.
  split.
  - eexists. vm_compute. reflexivity.
  - eexists. split; [vm_compute; reflexivity|].
    split; [reflexivity|]. split; [reflexivity|].
    intros [n [Hn E]].
    cbn [Booking.endTime Booking.startTime add] in E.
    assert (E' := f_equal (fun o => match o with Some x => x | None => 0 end) E).
    cbv beta iota in E'. unfold Time.msPerHour in E'. lia.
Qed.

Lemma C3_sample_request_witness :
  let out :=
    postBookings romeWinter parseISODate "studio@example.org" noLocale
      (mkOracle (Some "ev1") true true) sampleNow sampleBody emptyWorld in
  exists b,
    bookings (snd out) = [b]
    /\ Booking.startTime b = Some (localInstant romeWinter 2024 3 5 14)
    /\ Booking.endTime b = Some (localInstant romeWinter 2024 3 5 16).
Proof.
  intros out.
  destruct (C3_persisted_interval
              romeWinter parseISODate "studio@example.org" noLocale
              (mkOracle (Some "ev1") true true) sampleNow sampleBody emptyWorld
              (fst out) (snd out))
    as (b & s & n & Hb & _ & Hs & He & Hex).
  - apply surjective_pairing.
  - vm_compute. discriminate.
  - destruct (Hex 2024 3 5) as [H14 H16].
    + split; [apply Z.leb_le | apply Z.ltb_lt]; reflexivity.
    + reflexivity.
    + reflexivity.
    + reflexivity.
    + exists b. rewrite Hs, He, H16, H14. repeat split. exact Hb.
Defined.

(** *** The day view *)

Lemma C10_yesterday_witness :
  getSlots romeWinter parseISODate (calendarOf [eventMarch5]) sampleNow
    "2024-02-29"
  = SlotsOk None [].
Proof.
  apply (C10_past_date_gets_empty_list romeWinter parseISODate
           (calendarOf [eventMarch5]) sampleNow "2024-02-29" 1709164800000).
  - reflexivity.
  - apply validTime_sample. reflexivity.
  - apply validTime_sample. reflexivity.
  - apply validTime_sample. reflexivity.
  - apply Z.ltb_lt. reflexivity.
Defined.

Lemma C6_open_tuesday_witness :
  exists l,
    getSlots romeWinter parseISODate (calendarOf [eventMarch5]) sampleNow
      "2024-03-05"
    = SlotsOk (Some "2024-03-05") l
    /\ map Slot.time l
       = [ "09:00"; "10:00"; "11:00"; "12:00"; "13:00";
           "14:00"; "15:00"; "16:00"; "17:00" ]
    /\ map Slot.available l
       = [ true; true; false; false; true; true; true; true; true ]
    /\ forall k sl,
         nth_error l k = Some sl ->
         Slot.available sl = false
         <-> busyAt (Some [eventMarch5])
               (startOfLocalDay romeWinter 1709596800000
                + (9 + Z.of_nat k) * Time.msPerHour).
Proof.
  destruct (C6_open_day_returns_the_grid romeWinter parseISODate
              (calendarOf [eventMarch5]) sampleNow "2024-03-05" 1709596800000
              (Some [eventMarch5]))
    as (l & Hl & Ht & Hk).
  - reflexivity.
  - apply validTime_sample. reflexivity.
  - apply validTime_sample. reflexivity.
  - apply validTime_sample. reflexivity.
  - apply Z.leb_le. reflexivity.
  - reflexivity.
  - reflexivity.
  - reflexivity.
  - apply Forall_cons; [|apply Forall_nil].
    apply validEvent_mk; apply validTime_sample; reflexivity.
  - exists l. split; [exact Hl|]. split; [exact Ht|]. split.
    + assert (E : SlotsOk (Some "2024-03-05") l
                  = getSlots romeWinter parseISODate (calendarOf [eventMarch5])
                      sampleNow "2024-03-05") by (symmetry; exact Hl).
      vm_compute in E.
      assert (E' := f_equal (fun r => match r with
                                      | SlotsOk _ x => map Slot.available x
                                      | SlotsError => []
                                      end) E).
      exact E'.
    + intros k sl H. exact (proj1 (proj2 (Hk k sl H))).
Defined.

(** C1.  The day view takes no account of declared closures: [getSlots] has
    no access to the [ClosedDay] collection.  With a closure declared for
    Tuesday 5 March 2024, which is no holiday, the month view reports the
    date 'closed' while the day view still offers its nine slots, all
    available. *)
Theorem C1_declared_closure_is_ignored_by_the_day_view :
  (exists data,
     getCalendar 0 (calendarOf []) (closedDaysOf [closureMarch5]) 31 2024 3
     = Some (CalendarOk data)
     /\ nth_error data 4 = Some (CalendarDay.mk "2024-03-05" closed 0))
  /\ getSlots 0 parseISODate (calendarOf []) sampleNow "2024-03-05"
     = SlotsOk (Some "2024-03-05")
         (allAvailable
            [ "09:00"; "10:00"; "11:00"; "12:00"; "13:00";
              "14:00"; "15:00"; "16:00"; "17:00" ]
            [ "2024-03-05T09:00:00.000Z"; "2024-03-05T10:00:00.000Z";
              "2024-03-05T11:00:00.000Z"; "2024-03-05T12:00:00.000Z";
              "2024-03-05T13:00:00.000Z"; "2024-03-05T14:00:00.000Z";
              "2024-03-05T15:00:00.000Z"; "2024-03-05T16:00:00.000Z";
              "2024-03-05T17:00:00.000Z" ]).
Proof.
  split.
  - eexists. split; [vm_compute; reflexivity | vm_compute; reflexivity].
  - vm_compute. reflexivity.
Qed.

(** *** The month view *)

(** The claim of C9 for every host fails behind UTC: five hours behind,
    with one event from 02:00 to 03:00 UTC on 31 January 2024, the evening
    of the 30th on the local clock, the entry dated the last day of the
    month is [occupied] with count 1, though the event starts at no
    midnight. *)
Lemma C9_behind_utc_counterexample :
  exists data entry,
    getCalendar fiveHoursBehind (calendarOf [eventJanuary31Early])
      (closedDaysOf []) 31 2024 1
    = Some (CalendarOk data)
    /\ In entry data
    /\ CalendarDay.date entry = isoOfCivil 2024 1 (Time.daysInMonth 2024 1)
    /\ CalendarDay.status entry = occupied
    /\ CalendarDay.bookings entry = 1
    /\ Event.start_dateTime eventJanuary31Early
       <> Some (localInstant fiveHoursBehind 2024 1 (Time.daysInMonth 2024 1) 0)
    /\ Event.start_dateTime eventJanuary31Early
       <> Some (localInstant 0 2024 1 (Time.daysInMonth 2024 1) 0).
Proof.
  eexists. exists (CalendarDay.mk "2024-01-31" occupied 1).
  split; [vm_compute; reflexivity|].
  split; [do 30 right; left; reflexivity|].
  split; [vm_compute; reflexivity|].
  split; [reflexivity|]. split; [reflexivity|].
  split; vm_compute; discriminate.
Qed.

Lemma C9_january_2024_witness :
  exists data,
    getCalendar 0 (calendarOf [eventJanuary30; eventJanuary31])
      (closedDaysOf []) 31 2024 1
    = Some (CalendarOk data)
    /\ (0 = 0 ->
        exists init entry,
          data = (init ++ [entry])%list
          /\ CalendarDay.date entry = isoOfCivil 2024 1 31)
    /\ forall entry,
         In entry data -> CalendarDay.date entry = isoOfCivil 2024 1 31 ->
         (exists event,
            In event (itemsOf (Some [eventJanuary30]))
            /\ Event.start_dateTime event
               = Some (localInstant 0 2024 1 31 0))
         \/ (CalendarDay.bookings entry = 0
             /\ CalendarDay.status entry <> occupied).
Proof.
  apply (C9_last_day_lies_outside_the_query 0
           (calendarOf [eventJanuary30; eventJanuary31]) (closedDaysOf [])
           31 2024 1 (Some [eventJanuary30]) []).
  - split; [apply Z.leb_le | apply Z.ltb_lt]; reflexivity.
  - split; apply Z.leb_le; reflexivity.
  - split; apply Z.leb_le; reflexivity.
  - apply Nat.leb_le. reflexivity.
  - reflexivity.
  - reflexivity.
  - apply Forall_cons; [|apply Forall_nil].
    apply validEvent_mk; apply validTime_sample; reflexivity.
  - apply (calendarOf_respects_timeMax [eventJanuary30; eventJanuary31]
             (localInstant 0 2024 1 1 0)).
    reflexivity.
Defined.

(** C5.  An event that starts at 10:00 on 31 January 2024, a Wednesday
    that no closure rule closes, is left out of the month view of January
    2024: the entry of the 31st is 'available' with busy count 0, whereas
    the same event a day earlier makes the 30th 'occupied' with count 1. *)
Theorem C5_event_on_the_last_day_is_not_reported :
  (isoDate 1706695200000 = "2024-01-31"
   /\ isWeekend 0 (Some 1706695200000) = false
   /\ isHoliday (Some 1706695200000) = Returns false)
  /\ (exists data,
        getCalendar 0 (calendarOf [eventJanuary31]) (closedDaysOf []) 31 2024 1
        = Some (CalendarOk data)
        /\ nth_error data 30
           = Some (CalendarDay.mk "2024-01-31" available 0))
  /\ (exists data,
        getCalendar 0 (calendarOf [eventJanuary30]) (closedDaysOf []) 31 2024 1
        = Some (CalendarOk data)
        /\ nth_error data 29
           = Some (CalendarDay.mk "2024-01-30" occupied 1)).
Proof.
  split; [repeat split|split].
  - eexists. split; [vm_compute; reflexivity | vm_compute; reflexivity].
  - eexists. split; [vm_compute; reflexivity | vm_compute; reflexivity].
Qed.

(** The month view depends on the zone of the host: the loop steps local
    midnights and dates them in UTC.  One hour ahead of UTC the entries of
    January run from 31 December to 30 January; five hours behind, an event
    of the evening of the 30th, local time, makes the 31st 'occupied'. *)
Example month_view_ahead_of_utc :
  exists data,
    getCalendar romeWinter (calendarOf []) (closedDaysOf []) 31 2024 1
    = Some (CalendarOk data)
    /\ map CalendarDay.date (firstn 2 data) = ["2023-12-31"; "2024-01-01"]
    /\ map CalendarDay.date (skipn 30 data) = ["2024-01-30"].
Proof.
  eexists. split; [vm_compute; reflexivity|].
  split; vm_compute; reflexivity.
Qed.

Example month_view_behind_utc :
  isoString 1706666400000 = "2024-01-31T02:00:00.000Z"
  /\ exists data,
       getCalendar fiveHoursBehind (calendarOf [eventJanuary31Early]) (closedDaysOf [])
         31 2024 1
       = Some (CalendarOk data)
       /\ nth_error data 30 = Some (CalendarDay.mk "2024-01-31" occupied 1).
Proof.
  split; [vm_compute; reflexivity|].
  eexists. split; [vm_compute; reflexivity|].
  vm_compute; reflexivity.
Qed.

(** * Further properties of the handlers *)

(** ** More on the closure policy *)

(** The weekly test on an instant a whole number of days later. *)
Lemma isWeekend_days_later (tz t k : Z) :
  isWeekend tz (Some (t + k * Time.msPerDay))
  = ((Time.Day (t + tz) + 4 + k) mod 7 =? 0).
Proof.
  unfold isWeekend, getDay, option_map, LocalTime, Time.WeekDay.
  replace (Time.Day (t + k * Time.msPerDay + tz)) with (Time.Day (t + tz) + k).
  - replace (Time.Day (t + tz) + k + 4) with (Time.Day (t + tz) + 4 + k) by lia.
    destruct ((Time.Day (t + tz) + 4 + k) mod 7) as [|p|p]; reflexivity.
  - unfold Time.Day, Time.msPerDay. Z.to_euclidean_division_equations; lia.
Qed.

(** X1.  The weekly rule closes the local Sunday and no other day: at an
    instant whose date on the clock of the host is [y]-[m]-[d], [isWeekend]
    is true exactly when that date is a Sunday, weekday 0 counting from
    Thursday 1 January 1970 as weekday 4; and [j] days later at the same
    time of day it is true exactly when the weekday of [y]-[m]-[d] plus [j]
    is a multiple of seven.  So one day in seven is closed, and a Saturday,
    weekday 6, is open. *)
Theorem X1_weekly_rule_closes_the_local_sunday_only (tz t y m d : Z) :
  Time.civil_from_days (Time.Day (t + tz)) = (y, m, d) ->
  (isWeekend tz (Some t) = true <-> weekdayOf y m d = 0)
  /\ (weekdayOf y m d = 6 -> isWeekend tz (Some t) = false)
  /\ forall j,
       isWeekend tz (Some (t + j * Time.msPerDay)) = true
       <-> (weekdayOf y m d + j) mod 7 = 0.
Proof.
  intros C.
  pose proof (TimeFacts.days_from_civil_of_civil (Time.Day (t + tz))) as R.
  rewrite C in R.
  assert (J : forall j,
             isWeekend tz (Some (t + j * Time.msPerDay)) = true
             <-> (weekdayOf y m d + j) mod 7 = 0).
  { intros j. rewrite isWeekend_days_later, Z.eqb_eq.
    unfold weekdayOf. rewrite R, Zplus_mod_idemp_l. reflexivity. }
  assert (W : 0 <= weekdayOf y m d < 7)
    by (unfold weekdayOf; apply Z.mod_pos_bound; lia).
  assert (Z0 : isWeekend tz (Some t) = true <-> weekdayOf y m d = 0).
  { replace t with (t + 0 * Time.msPerDay) at 1 by lia.
    rewrite J, Z.add_0_r, Z.mod_small by exact W. reflexivity. }
  split; [exact Z0|]. split; [|exact J].
  intros S. apply not_true_iff_false. intros T. apply Z0 in T. lia.
Qed.

(** X2.  [isHoliday] closes the ten fixed month-days and no other date: at
    an instant of the UTC date [y]-[m]-[d], with a four-digit year, it
    returns, and returns true exactly when ([m], [d]) is one of the ten. *)
Theorem X2_isHoliday_closes_exactly_the_ten_dates (t y m d : Z) :
  Time.civil_from_days (Time.Day t) = (y, m, d) -> 0 <= y <= 9999 ->
  (isHoliday (Some t) = Returns true <-> In (m, d) holidayMonthDays)
  /\ (isHoliday (Some t) = Returns false <-> ~ In (m, d) holidayMonthDays).
Proof.
  intros C Hy.
  pose proof (holidayAt_iff t y m d C Hy) as H.
  change (isHoliday (Some t)) with (Returns (holidayAt t)).
  destruct (holidayAt t); split; split; intros E; try reflexivity;
    try discriminate E.
  - now apply H.
  - exfalso. apply E. now apply H.
  - apply H in E. discriminate E.
  - intros I. apply H in I. discriminate I.
Qed.

(** The weekly test on a date-only request: midnight UTC of a date is,
    on a host at or ahead of UTC by less than a day, an instant of that
    date in local time. *)
Lemma isWeekend_utc_midnight (tz D : Z) :
  0 <= tz < Time.msPerDay ->
  isWeekend tz (Some (D * Time.msPerDay)) = ((D + 4) mod 7 =? 0).
Proof.
  intros H. unfold isWeekend, getDay, option_map, LocalTime, Time.WeekDay.
  rewrite Day_of_local_midnight by exact H.
  destruct ((D + 4) mod 7) as [|p|p]; reflexivity.
Qed.

Lemma validTime_date (y m d : Z) :
  0 <= y <= 9999 -> 1 <= m <= 12 -> 1 <= d <= 31 ->
  validTime (Time.days_from_civil y m d * Time.msPerDay).
Proof.
  intros Hy Hm Hd.
  pose proof (days_from_civil_bounds y m) as B.
  rewrite (TimeFacts.days_from_civil_day y m d).
  unfold validTime, Time.maxTime, Time.msPerDay. lia.
Qed.

Section DayViewClosure.

Variable tz : Z.
Variable Date_parse : string -> option Z.
Variable events_list : Z -> Z -> outcome (option (list Event.t)).

(** X3.  The day view of a Sunday or of a fixed holiday is empty: for a
    request whose date is read as midnight UTC of [y]-[m]-[d], on a host at
    or ahead of UTC by less than a day, the handler answers the success
    response with no slots when the date is a Sunday or one of the ten
    holidays, past or not and whatever the calendar holds. *)
Theorem X3_day_view_is_empty_on_sundays_and_holidays (now : Z)
    (date : string) (y m d : Z) :
  Date_parse date = Some (Time.days_from_civil y m d * Time.msPerDay) ->
  0 <= tz < Time.msPerDay ->
  0 <= y <= 9999 -> 1 <= m <= 12 -> 1 <= d <= Time.daysInMonth y m ->
  weekdayOf y m d = 0 \/ In (m, d) holidayMonthDays ->
  getSlots tz Date_parse events_list now date = SlotsOk None [].
Proof.
  intros Hp Htz Hy Hm Hd H.
  pose proof (daysInMonth_range y m) as R.
  apply (getSlots_weekly_or_holiday tz Date_parse events_list now date _ Hp).
  - apply validTime_date; lia.
  - destruct H as [H | H].
    + left. rewrite isWeekend_utc_midnight by exact Htz.
      apply Z.eqb_eq. exact H.
    + right. change (isHoliday (Some (Time.days_from_civil y m d * Time.msPerDay)))
        with (Returns (holidayAt (Time.days_from_civil y m d * Time.msPerDay))).
      f_equal. apply (holidayAt_iff _ y m d); [|exact Hy|exact H].
      rewrite Day_midnight. now apply TimeFacts.civil_of_days_from_civil.
Qed.

End DayViewClosure.

(** ** More on the day view *)

Lemma mapM_pure {A B : Type} (f : A -> outcome B) (g : A -> B) (l : list A) :
  (forall a, In a l -> f a = Returns (g a)) ->
  mapM f l = Returns (map g l).
Proof.
  induction l as [|a r IH]; intros H; cbn [mapM map]; [reflexivity|].
  rewrite (H a (or_introl eq_refl)). cbn [bind].
  rewrite IH by (intros b Hb; apply H; now right). reflexivity.
Qed.

Lemma mapM_In {A B : Type} (f : A -> outcome B) (l : list A) (r : list B)
    (b : B) :
  mapM f l = Returns r -> In b r -> exists a, In a l /\ f a = Returns b.
Proof.
  revert r. induction l as [|a l IH]; intros r E Hb; cbn [mapM] in E.
  - assert (r = []) by congruence. subst r. destruct Hb.
  - destruct (f a) as [b0|] eqn:Fa; [|discriminate E]. cbn [bind] in E.
    destruct (mapM f l) as [r'|] eqn:Fl; [|discriminate E]. cbn [bind] in E.
    assert (r = b0 :: r') by congruence. subst r.
    destruct Hb as [<- | Hb].
    + exists a. split; [now left | exact Fa].
    + destruct (IH r' eq_refl Hb) as (a' & Ha & Fa').
      exists a'. split; [now right | exact Fa'].
Qed.

(** The slots of the grid are whole hours from 9 to 17. *)
Lemma grid_hours (timeSlot : string) :
  In timeSlot (bh_slots getBusinessHours) ->
  exists h, 9 <= h <= 17 /\ slotHours timeSlot = Some h
            /\ slotMinutes timeSlot = Some 0.
Proof.
  intros H.
  assert (F : forallb
                (fun ts =>
                   match slotHours ts, slotMinutes ts with
                   | Some h, Some 0 => (9 <=? h) && (h <=? 17)
                   | _, _ => false
                   end) (bh_slots getBusinessHours) = true)
    by (vm_compute; reflexivity).
  rewrite forallb_forall in F. specialize (F timeSlot H).
  destruct (slotHours timeSlot) as [h|]; [|discriminate F].
  destruct (slotMinutes timeSlot) as [[| |]|]; try discriminate F.
  exists h. apply andb_prop in F. destruct F as [F1 F2].
  apply Z.leb_le in F1. apply Z.leb_le in F2. repeat split; assumption.
Qed.

Section DayViewMore.

Variable tz : Z.
Variable Date_parse : string -> option Z.
Variable events_list : Z -> Z -> outcome (option (list Event.t)).

(** The day view of an open date that is not past, by what the calendar
    answers. *)
Lemma getSlots_open (now : Z) (date : string) (t : Z) :
  Date_parse date = Some t ->
  validTime t ->
  validTime (startOfLocalDay tz t) ->
  validTime (startOfLocalDay tz t + Time.msPerDay) ->
  startOfLocalDay tz now <= t ->
  isWeekend tz (Some t) = false ->
  isHoliday (Some t) = Returns false ->
  getSlots tz Date_parse events_list now date
  = match events_list (startOfLocalDay tz t)
            (startOfLocalDay tz t + 86399999) with
    | Returns items =>
        SlotsOk (Some date)
          (map (fun timeSlot =>
                  Slot.mk timeSlot
                    (negb match items with
                          | Some l =>
                              existsb (covers (slotTimeOf tz (Some t) timeSlot)) l
                          | None => false
                          end)
                    (isoString
                       (startOfLocalDay tz t
                        + match slotHours timeSlot with
                          | Some h => h
                          | None => 0
                          end * Time.msPerHour)))
             (bh_slots getBusinessHours))
    | Throws => SlotsError
    end.
Proof.
  intros Hp Vt V0 V1 Hnow Hw Hh.
  assert (S : forall h m s ms,
             0 <= Time.MakeTime h m s ms <= Time.msPerDay ->
             setHours tz (Some t) (Some h) (Some m) (Some s) (Some ms)
             = Some (startOfLocalDay tz t + Time.MakeTime h m s ms)).
  { intros h m s ms B. rewrite setHours_local. apply TimeClip_valid.
    apply (validTime_between _ _ _ V0 V1). lia. }
  unfold getSlots, newDateOfString.
  rewrite Hp, (TimeClip_valid t Vt), (lt_startOfToday _ _ _ Hnow), Hw, Hh.
  cbn [bind].
  rewrite !S by (vm_compute; split; discriminate).
  unfold instant. cbn [toISOString bind].
  change (Time.MakeTime 0 0 0 0) with 0.
  change (Time.MakeTime 23 59 59 999) with 86399999.
  rewrite Z.add_0_r.
  destruct (events_list _ _) as [items|]; [|reflexivity].
  cbn [bind].
  rewrite (mapM_pure _
             (fun timeSlot =>
                Slot.mk timeSlot
                  (negb match items with
                        | Some l =>
                            existsb (covers (slotTimeOf tz (Some t) timeSlot)) l
                        | None => false
                        end)
                  (isoString
                     (startOfLocalDay tz t
                      + match slotHours timeSlot with
                        | Some h => h
                        | None => 0
                        end * Time.msPerHour)))).
  - reflexivity.
  - intros timeSlot Hin.
    destruct (grid_hours timeSlot Hin) as (h & Hh9 & Eh & Em).
    unfold slotEntry.
    assert (E : slotTimeOf tz (Some t) timeSlot
                = Some (startOfLocalDay tz t + h * Time.msPerHour)).
    { unfold slotTimeOf. fold (slotHours timeSlot) (slotMinutes timeSlot).
      rewrite Eh, Em, S.
      - f_equal. unfold Time.MakeTime. lia.
      - unfold Time.MakeTime, Time.msPerHour, Time.msPerMinute,
          Time.msPerSecond, Time.msPerDay. lia. }
    rewrite Eh, E. reflexivity.
Qed.

(** X4.  A request whose date cannot be read is answered 500, not with an
    empty list: the test for a past date is false on the invalid date,
    [isWeekend] is false on it and [isHoliday] throws. *)
Theorem X4_day_view_of_unreadable_date_is_an_error (now : Z) (date : string) :
  newDateOfString Date_parse date = None ->
  getSlots tz Date_parse events_list now date = SlotsError.
Proof.
  intros H. unfold getSlots. rewrite H. reflexivity.
Qed.

(** X5.  On an open date that is not past, a failure of the calendar
    listing is answered 500: no slot list is made up. *)
Theorem X5_day_view_fails_when_the_listing_fails (now : Z) (date : string)
    (t : Z) :
  Date_parse date = Some t ->
  validTime t ->
  validTime (startOfLocalDay tz t) ->
  validTime (startOfLocalDay tz t + Time.msPerDay) ->
  startOfLocalDay tz now <= t ->
  isWeekend tz (Some t) = false ->
  isHoliday (Some t) = Returns false ->
  events_list (startOfLocalDay tz t) (startOfLocalDay tz t + 86399999)
  = Throws ->
  getSlots tz Date_parse events_list now date = SlotsError.
Proof.
  intros Hp Vt V0 V1 Hnow Hw Hh He.
  rewrite (getSlots_open now date t) by assumption. now rewrite He.
Qed.

(** X6.  Only events that carry both a start and an end instant can take a
    slot: when the listing is [undefined], empty or holds all-day events
    only, the nine slots of an open date are all available. *)
Theorem X6_day_view_without_timed_events_is_all_available (now : Z)
    (date : string) (t : Z) (items : option (list Event.t)) :
  Date_parse date = Some t ->
  validTime t ->
  validTime (startOfLocalDay tz t) ->
  validTime (startOfLocalDay tz t + Time.msPerDay) ->
  startOfLocalDay tz now <= t ->
  isWeekend tz (Some t) = false ->
  isHoliday (Some t) = Returns false ->
  events_list (startOfLocalDay tz t) (startOfLocalDay tz t + 86399999)
  = Returns items ->
  (forall event, In event (itemsOf items) -> timed event = false) ->
  exists l,
    getSlots tz Date_parse events_list now date = SlotsOk (Some date) l
    /\ map Slot.time l = bh_slots getBusinessHours
    /\ forall sl, In sl l -> Slot.available sl = true.
Proof.
  intros Hp Vt V0 V1 Hnow Hw Hh He Hall.
  rewrite (getSlots_open now date t) by assumption. rewrite He.
  eexists. split; [reflexivity|]. split.
  - rewrite map_map. cbn [Slot.time]. apply map_id.
  - intros sl Hin. apply in_map_iff in Hin. destruct Hin as (ts & <- & _).
    cbn [Slot.available]. apply negb_true_iff.
    destruct items as [l|]; [|reflexivity].
    apply not_true_iff_false. intros Ex. apply existsb_exists in Ex.
    destruct Ex as (event & Hin & Hc).
    specialize (Hall event Hin). unfold timed in Hall. unfold covers in Hc.
    destruct (Event.start_dateTime event), (Event.end_dateTime event);
      discriminate.
Qed.

End DayViewMore.

(** ** More on the booking transaction *)

Lemma truthy_blank (s : option string) : truthy s = false <-> blank s.
Proof.
  unfold blank. destruct s as [[|a r]|]; cbn; split; intros H;
    try reflexivity; try discriminate; auto.
  - destruct H; discriminate.
Qed.

Section BookingMore.

Variable tz : Z.
Variable Date_parse : string -> option Z.
Variable EMAIL_USER : string.
Variable toLocaleDateString : JSDate -> string.

(** The guard of the handler, as a test of the six required fields. *)
Lemma postBookings_guard (body : Body.t) :
  negb (truthy (Body.date body)) || negb (truthy (Body.timeSlot body))
  || negb (truthy (Body.duration body))
  || negb (truthy (Body.customerName body))
  || negb (truthy (Body.customerEmail body))
  || negb (truthy (Body.customerPhone body))
  = negb (forallb truthy (requiredFields body)).
Proof.
  cbn [requiredFields forallb].
  destruct (truthy (Body.date body)), (truthy (Body.timeSlot body)),
    (truthy (Body.duration body)), (truthy (Body.customerName body)),
    (truthy (Body.customerEmail body)), (truthy (Body.customerPhone body));
    reflexivity.
Qed.

(** X8.  A required field that is absent or the empty string is answered
    400 with nothing done, whatever the other fields and the collaborators;
    and a body whose six required fields are strings that are not empty is
    never answered 400, with or without the two optional fields. *)
Theorem X8_blank_field_is_rejected_and_complete_body_is_not
    (o : Oracle) (now : Z) (body : Body.t) (w : World) :
  ((exists field, In field (requiredFields body) /\ blank field) ->
   postBookings tz Date_parse EMAIL_USER toLocaleDateString o now body w
   = (MissingFields, w))
  /\ (forallb truthy (requiredFields body) = true ->
      fst (postBookings tz Date_parse EMAIL_USER toLocaleDateString o now
             body w)
      <> MissingFields).
Proof.
  unfold postBookings. rewrite postBookings_guard. split.
  - intros (field & Hin & Hb).
    destruct (forallb truthy (requiredFields body)) eqn:F; cbn [negb];
      [|reflexivity].
    rewrite forallb_forall in F. apply truthy_blank in Hb.
    rewrite (F field Hin) in Hb. discriminate Hb.
  - intros F. rewrite F. cbn [negb].
    destruct (createBooking _ _ _ _ _ _ _ _ _ _ _ _ _ _ _) as [[c|] w'];
      discriminate.
Qed.


(** The successful run, step by step. *)
Lemma postBookings_ok (o : Oracle) (now : Z) (body : Body.t) (w w' : World)
    (c : Confirmation.t) :
  postBookings tz Date_parse EMAIL_USER toLocaleDateString o now body w
  = (BookingOk c, w') ->
  let start :=
    slotTimeOf tz (newDateOfString Date_parse (text (Body.date body)))
      (text (Body.timeSlot body)) in
  exists id startIso r b m,
    insertReply o = Some id
    /\ saveSucceeds o = true /\ sendSucceeds o = true
    /\ forallb truthy (requiredFields body) = true
    /\ toISOString start = Returns startIso
    /\ toISOString (Booking.endTime b) = Returns (Resource.end_dateTime r)
    /\ w' = mkWorld (calendar w ++ [(id, r)]) (bookings w ++ [b])
              (outbox w ++ [m])
    /\ c = Confirmation.mk id start (text (Body.timeSlot body))
             (text (Body.duration body)) (text (Body.customerName body))
    /\ Resource.start_dateTime r = startIso
    /\ Resource.attendees r = [text (Body.customerEmail body)]
    /\ Booking.id b = id /\ Booking.googleEventId b = id
    /\ Booking.date b = start /\ Booking.startTime b = start
    /\ Booking.status b = "confirmed" /\ Booking.createdAt b = now
    /\ Booking.customerEmail b = text (Body.customerEmail body)
    /\ Mail.from m = EMAIL_USER
    /\ Mail.to m = text (Body.customerEmail body)
    /\ Mail.cc m = EMAIL_USER.
Proof.
  unfold postBookings. rewrite postBookings_guard.
  destruct (forallb truthy (requiredFields body)); [|discriminate].
  cbn [negb].
  unfold createBooking, bindM, lift, ret, events_insert, Booking_save, sendMail.
  fold (slotTimeOf tz (newDateOfString Date_parse (text (Body.date body)))
          (text (Body.timeSlot body))).
  destruct (toISOString (slotTimeOf _ _ _)) as [startIso|] eqn:Es;
    [|discriminate].
  destruct (toISOString (setHours1 _ _ _)) as [endIso|] eqn:Ee; [|discriminate].
  destruct (insertReply o) as [id|]; [|discriminate].
  destruct (saveSucceeds o); [|discriminate].
  destruct (sendSucceeds o); [|discriminate].
  cbn [calendar bookings outbox].
  intros E. cbv zeta.
  assert (Ec := f_equal (fun p => match fst p with
                                  | BookingOk x => Some x
                                  | _ => None
                                  end) E).
  assert (Ew := f_equal snd E). cbn [fst snd] in Ec, Ew.
  subst w'.
  assert (Hc : c = Confirmation.mk id
                     (slotTimeOf tz
                        (newDateOfString Date_parse (text (Body.date body)))
                        (text (Body.timeSlot body)))
                     (text (Body.timeSlot body)) (text (Body.duration body))
                     (text (Body.customerName body))) by congruence.
  eexists id, startIso, _, _, _.
  repeat match goal with |- _ /\ _ => split end;
    try reflexivity; try exact Es; try exact Hc.
  cbn [Booking.endTime Resource.end_dateTime]. exact Ee.
Qed.

(** X10.  What a success response stands for: one event, one record and
    one mail were added, in this order and to the end of each store; the
    record carries the identifier the calendar assigned, which is also the
    one answered, the status [confirmed] and the instant of the slot as
    both [date] and [startTime]; the event starts at that instant and
    invites the customer; the mail goes to the customer with a copy to the
    studio. *)
Theorem X10_success_adds_one_event_one_record_and_one_mail
    (o : Oracle) (now : Z) (body : Body.t) (w w' : World)
    (c : Confirmation.t) :
  postBookings tz Date_parse EMAIL_USER toLocaleDateString o now body w
  = (BookingOk c, w') ->
  exists r b m,
    w' = mkWorld (calendar w ++ [(Confirmation.id c, r)]) (bookings w ++ [b])
           (outbox w ++ [m])
    /\ insertReply o = Some (Confirmation.id c)
    /\ Booking.id b = Confirmation.id c
    /\ Booking.googleEventId b = Confirmation.id c
    /\ Booking.status b = "confirmed"
    /\ Booking.createdAt b = now
    /\ Booking.date b = Confirmation.date c
    /\ Booking.startTime b = Confirmation.date c
    /\ toISOString (Booking.startTime b) = Returns (Resource.start_dateTime r)
    /\ toISOString (Booking.endTime b) = Returns (Resource.end_dateTime r)
    /\ Resource.attendees r = [text (Body.customerEmail body)]
    /\ Mail.to m = text (Body.customerEmail body)
    /\ Mail.cc m = EMAIL_USER
    /\ Mail.from m = EMAIL_USER.
Proof.
  intros E. destruct (postBookings_ok o now body w w' c E)
    as (id & startIso & r & b & m & Hid & _ & _ & _ & Hs & He & Hw & Hc
        & Hrs & Hra & Hb1 & Hb2 & Hb3 & Hb4 & Hb5 & Hb6 & _ & Hm1 & Hm2 & Hm3).
  exists r, b, m. subst c. cbn [Confirmation.id Confirmation.date].
  repeat match goal with |- _ /\ _ => split end; try assumption.
  rewrite Hb4, Hrs. exact Hs.
Qed.

(** X11.  The handler reads none of the stores: whether a request succeeds
    does not depend on what the calendar or the collection already hold.
    So the same slot can be booked again: a request that succeeded succeeds
    once more on the stores it left when the collaborators answer, and the
    calendar then holds two events with the same start and end. *)
Theorem X11_the_same_slot_can_be_booked_twice
    (o o' : Oracle) (now now' : Z) (body : Body.t) (w w1 : World)
    (c : Confirmation.t) (id' : string) :
  postBookings tz Date_parse EMAIL_USER toLocaleDateString o now body w
  = (BookingOk c, w1) ->
  insertReply o' = Some id' ->
  saveSucceeds o' = true ->
  sendSucceeds o' = true ->
  exists w2 r,
    postBookings tz Date_parse EMAIL_USER toLocaleDateString o' now' body w1
    = (BookingOk
         (Confirmation.mk id' (Confirmation.date c) (Confirmation.timeSlot c)
            (Confirmation.duration c) (Confirmation.customerName c)), w2)
    /\ calendar w2
       = (calendar w ++ [(Confirmation.id c, r); (id', r)])%list
    /\ List.length (bookings w2) = (List.length (bookings w) + 2)%nat.
Proof.
  intros E Hi Hs Hm. revert E.
  unfold postBookings.
  destruct (negb (truthy (Body.date body)) || _ || _ || _ || _ || _);
    [discriminate |].
  unfold createBooking, bindM, lift, ret, events_insert, Booking_save, sendMail.
  rewrite Hi, Hs, Hm.
  destruct (toISOString _) as [startIso|]; [|discriminate].
  destruct (toISOString _) as [endIso|]; [|discriminate].
  destruct (insertReply o) as [id|]; [|discriminate].
  destruct (saveSucceeds o); [|discriminate].
  destruct (sendSucceeds o); [|discriminate].
  cbn [calendar bookings outbox].
  intros E.
  assert (Ew := f_equal snd E). cbn [fst snd] in Ew.
  subst w1. cbn [calendar bookings outbox].
  assert (Hc : c = Confirmation.mk id
                     (setHours tz
                        (newDateOfString Date_parse (text (Body.date body)))
                        (Str.parseIntOpt
                           (nth_error (Str.split ":" (text (Body.timeSlot body))) 0))
                        (Str.parseIntOpt
                           (nth_error (Str.split ":" (text (Body.timeSlot body))) 1))
                        (Some 0) (Some 0))
                     (text (Body.timeSlot body)) (text (Body.duration body))
                     (text (Body.customerName body))) by congruence.
  eexists _, _. split; [rewrite Hc; reflexivity|]. split.
  - rewrite Hc. cbn [calendar Confirmation.id]. rewrite <- app_assoc. reflexivity.
  - cbn [bookings]. rewrite !length_app. cbn [List.length]. lia.
Qed.

(** X12.  Whatever the request and whichever step fails, the handler only
    adds to the end of the stores, at most one element each, and in the
    order event, record, mail: no record is saved without its event, no
    mail is sent without its record, and the response is a success exactly
    when the mail left. *)
Theorem X12_stores_only_grow_in_step_order
    (o : Oracle) (now : Z) (body : Body.t) (w w' : World)
    (response : BookingResponse) :
  postBookings tz Date_parse EMAIL_USER toLocaleDateString o now body w
  = (response, w') ->
  exists events records mails,
    w' = mkWorld (calendar w ++ events) (bookings w ++ records)
           (outbox w ++ mails)
    /\ (List.length mails <= List.length records <= List.length events)%nat
    /\ (List.length events <= 1)%nat
    /\ (mails <> [] <-> exists c, response = BookingOk c).
Proof.
  assert (Same : w = mkWorld (calendar w ++ []) (bookings w ++ [])
                       (outbox w ++ []))
    by (rewrite !app_nil_r; now destruct w).
  assert (Quiet : forall r,
             (forall c, r <> BookingOk c) ->
             (r, w) = (response, w') ->
             exists events records mails,
               w' = mkWorld (calendar w ++ events) (bookings w ++ records)
                      (outbox w ++ mails)
               /\ (List.length mails <= List.length records
                   <= List.length events)%nat
               /\ (List.length events <= 1)%nat
               /\ (mails <> [] <-> exists c, response = BookingOk c)).
  { intros r Hr E. assert (r = response) by congruence.
    assert (w = w') by congruence. subst r w'.
    exists [], [], []. split; [exact Same|]. cbn [List.length].
    split; [lia|]. split; [lia|]. split; [congruence|].
    intros [c Hc]. exfalso. exact (Hr c Hc). }
  unfold postBookings.
  destruct (negb (truthy (Body.date body)) || _ || _ || _ || _ || _).
  { apply Quiet. discriminate. }
  unfold createBooking, bindM, lift, ret, events_insert, Booking_save, sendMail.
  destruct (toISOString _) as [startIso|]; [|apply Quiet; discriminate].
  destruct (toISOString _) as [endIso|]; [|apply Quiet; discriminate].
  destruct (insertReply o) as [id|]; [|apply Quiet; discriminate].
  destruct (saveSucceeds o).
  2:{ cbn [calendar bookings outbox]. intros E.
      assert (Er := f_equal fst E). assert (Ew := f_equal snd E).
      cbn [fst snd] in Er, Ew. subst response w'.
      eexists [_], [], []. rewrite !app_nil_r. split; [reflexivity|].
      cbn [List.length]. split; [lia|]. split; [lia|].
      split; [congruence | intros [c Hc]; discriminate Hc]. }
  destruct (sendSucceeds o); cbn [calendar bookings outbox]; intros E;
    assert (Er := f_equal fst E); assert (Ew := f_equal snd E);
    cbn [fst snd] in Er, Ew; subst response w'.
  - eexists [_], [_], [_]. split; [reflexivity|].
    cbn [List.length]. split; [lia|]. split; [lia|].
    split; [intros _; eexists; reflexivity | discriminate].
  - eexists [_], [_], []. rewrite !app_nil_r. split; [reflexivity|].
    cbn [List.length]. split; [lia|]. split; [lia|].
    split; [congruence | intros [c Hc]; discriminate Hc].
Qed.

Variable events_list : Z -> Z -> outcome (option (list Event.t)).

(** X7.  The day view and the booking transaction agree on the instant of
    a slot: the [datetime] the day view shows for a slot of a date is the
    start of the event a booking of that date and slot creates, and the
    instant of the booking answered. *)
Theorem X7_booking_starts_at_the_datetime_of_the_slot
    (o : Oracle) (now now' : Z) (date : string) (shown : option string)
    (l : list Slot.t) (sl : Slot.t) (body : Body.t) (w w' : World)
    (c : Confirmation.t) :
  getSlots tz Date_parse events_list now date = SlotsOk shown l ->
  In sl l ->
  Body.date body = Some date ->
  Body.timeSlot body = Some (Slot.time sl) ->
  postBookings tz Date_parse EMAIL_USER toLocaleDateString o now' body w
  = (BookingOk c, w') ->
  exists r,
    calendar w' = (calendar w ++ [(Confirmation.id c, r)])%list
    /\ Resource.start_dateTime r = Slot.datetime sl
    /\ toISOString (Confirmation.date c) = Returns (Slot.datetime sl).
Proof.
  intros G Hin Hd Ht P.
  assert (S : toISOString
                (slotTimeOf tz (newDateOfString Date_parse date) (Slot.time sl))
              = Returns (Slot.datetime sl)).
  { unfold getSlots in G.
    destruct (lt _ _).
    { assert (l = []) by congruence. subst l. destruct Hin. }
    destruct (if isWeekend tz _ then _ else _) as [[|]|]; cbn [bind] in G;
      try discriminate G.
    { assert (l = []) by congruence. subst l. destruct Hin. }
    destruct (instant _) as [timeMin|]; cbn [bind] in G; [|discriminate G].
    destruct (instant _) as [timeMax|]; cbn [bind] in G; [|discriminate G].
    destruct (events_list _ _) as [items|]; cbn [bind] in G; [|discriminate G].
    destruct (mapM _ _) as [slots|] eqn:Em; cbn [bind] in G; [|discriminate G].
    assert (slots = l) by congruence. subst slots.
    destruct (mapM_In _ _ _ _ Em Hin) as (timeSlot & _ & Es).
    unfold slotEntry in Es.
    destruct (toISOString (slotTimeOf _ _ timeSlot)) as [iso|] eqn:Ei;
      cbn [bind] in Es; [|discriminate Es].
    assert (Hsl : sl = Slot.mk timeSlot
                         (negb match items with
                               | Some l0 =>
                                   existsb
                                     (covers
                                        (slotTimeOf tz
                                           (newDateOfString Date_parse date)
                                           timeSlot)) l0
                               | None => false
                               end) iso) by congruence.
    rewrite Hsl. cbn [Slot.time Slot.datetime]. exact Ei. }
  destruct (postBookings_ok o now' body w w' c P)
    as (id & startIso & r & b & m & _ & _ & _ & _ & Hs & _ & Hw & Hc & Hrs & _).
  rewrite Hd, Ht in Hs, Hc. cbn [text] in Hs, Hc.
  exists r. subst c w'. cbn [calendar Confirmation.id Confirmation.date].
  split; [reflexivity|]. split; [|exact S].
  rewrite Hrs. congruence.
Qed.

End BookingMore.

Section BookingAnywhere.

Variable tz : Z.
Variable Date_parse : string -> option Z.
Variable EMAIL_USER : string.
Variable toLocaleDateString : JSDate -> string.


End BookingAnywhere.

(** ** More on the month view *)

(** [some] finds an element only where [filter] keeps one. *)
Lemma someM_filterM {A : Type} (f : A -> outcome bool) (l l' : list A) :
  someM f l = Returns true -> filterM f l = Returns l' -> l' <> [].
Proof.
  revert l'. induction l as [|a r IH]; intros l'; cbn [someM filterM].
  - discriminate.
  - destruct (f a) as [[|]|]; cbn [bind]; try discriminate.
    + intros _. destruct (filterM f r) as [r'|]; cbn [bind]; [|discriminate].
      intros E. assert (l' = a :: r') by congruence. subst l'. discriminate.
    + intros S. destruct (filterM f r) as [r'|] eqn:F; cbn [bind];
        [|discriminate].
      intros E. assert (l' = r') by congruence. subst l'. now apply IH.
Qed.

Lemma calendarEntry_consistent (tz : Z) (closedDays : list ClosedDay.t)
    (items : option (list Event.t)) (currentDate : JSDate)
    (entry : CalendarDay.t) :
  calendarEntry tz closedDays items currentDate = Returns entry ->
  consistent entry.
Proof.
  unfold calendarEntry, consistent.
  destruct (toISOString currentDate) as [iso|]; cbn [bind]; [|discriminate].
  destruct (isHoliday currentDate) as [holiday|]; cbn [bind]; [|discriminate].
  destruct (someM (declaredOn _) closedDays) as [isClosed|]; cbn [bind];
    [|discriminate].
  assert (Quiet : forall status,
             status <> occupied ->
             Returns (CalendarDay.mk (beforeT iso)
                        (if false && Status_eqb status available
                         then occupied else status) 0) = Returns entry ->
             0 <= CalendarDay.bookings entry
             /\ (CalendarDay.status entry = occupied ->
                 0 < CalendarDay.bookings entry)
             /\ (CalendarDay.status entry = available ->
                 CalendarDay.bookings entry = 0)).
  { intros status N E. injection E as <-.
    cbn [CalendarDay.bookings CalendarDay.status andb].
    split; [lia|]. split; [|reflexivity].
    intros O. contradiction. }
  destruct items as [l|].
  - destruct (someM (startsOn _) l) as [[|]|] eqn:S; cbn [bind];
      [| |discriminate].
    + destruct (filterM (startsOn _) l) as [l'|] eqn:F; cbn [bind];
        [|discriminate].
      pose proof (someM_filterM _ _ _ S F) as N.
      intros E. injection E as <-.
      cbn [CalendarDay.bookings CalendarDay.status].
      assert (0 < Z.of_nat (List.length l'))
        by (destruct l'; [contradiction | cbn [List.length]; lia]).
      split; [lia|]. split; [intros _; assumption|].
      destruct isClosed, holiday, (isWeekend tz currentDate); discriminate.
    + apply Quiet.
      destruct isClosed, holiday, (isWeekend tz currentDate); discriminate.
  - cbn [bind]. apply Quiet.
    destruct isClosed, holiday, (isWeekend tz currentDate); discriminate.
Qed.

Lemma calendarLoop_consistent (tz : Z) (closedDays : list ClosedDay.t)
    (items : option (list Event.t)) (endDate : JSDate) (fuel : nat) :
  forall (currentDate : JSDate) (data : list CalendarDay.t),
    calendarLoop tz fuel closedDays items endDate currentDate
    = Some (Returns data) ->
    Forall consistent data.
Proof.
  induction fuel as [|fuel IH]; intros currentDate data; cbn [calendarLoop];
    destruct (le currentDate endDate).
  - discriminate.
  - intros E. assert (data = []) by congruence. subst data. constructor.
  - destruct (calendarEntry tz closedDays items currentDate) as [entry|] eqn:C;
      [|discriminate].
    destruct (calendarLoop tz fuel closedDays items endDate _)
      as [[rest|]|] eqn:L; try discriminate.
    intros E. assert (data = entry :: rest) by congruence. subst data.
    constructor.
    + exact (calendarEntry_consistent _ _ _ _ _ C).
    + exact (IH _ _ L).
  - intros E. assert (data = []) by congruence. subst data. constructor.
Qed.

Lemma isoDate_Day (t u : Z) : Time.Day t = Time.Day u -> isoDate t = isoDate u.
Proof.
  intros E. unfold isoDate, Time.YearFromTime, Time.MonthFromTime,
    Time.DateFromTime. now rewrite E.
Qed.

Lemma MakeDay_next_year (year month date : Z) :
  Time.MakeDay year (month + 12) date = Time.MakeDay (year + 1) month date.
Proof.
  unfold Time.MakeDay.
  replace ((month + 12) / 12) with (month / 12 + 1)
    by (Z.to_euclidean_division_equations; lia).
  replace ((month + 12) mod 12) with (month mod 12)
    by (Z.to_euclidean_division_equations; lia).
  now replace (year + (month / 12 + 1)) with (year + 1 + month / 12) by lia.
Qed.

Section MonthViewMore.

Variable tz : Z.
Variable events_list : Z -> Z -> outcome (option (list Event.t)).
Variable ClosedDay_find : Z -> Z -> outcome (list ClosedDay.t).

(** X14.  Every entry a month view returns is consistent: its count is not
    negative, an [occupied] entry counts at least one event, and an
    [available] entry counts none.  (A [closed] entry may count events.) *)
Theorem X14_entries_of_the_month_view_are_consistent
    (fuel : nat) (year month : Z) (data : list CalendarDay.t)
    (entry : CalendarDay.t) :
  getCalendar tz events_list ClosedDay_find fuel year month
  = Some (CalendarOk data) ->
  In entry data ->
  0 <= CalendarDay.bookings entry
  /\ (CalendarDay.status entry = occupied -> 0 < CalendarDay.bookings entry)
  /\ (CalendarDay.status entry = available -> CalendarDay.bookings entry = 0).
Proof.
  unfold getCalendar.
  destruct (instant _) as [timeMin|]; cbn [bind]; [|discriminate].
  destruct (instant _) as [timeMax|]; cbn [bind]; [|discriminate].
  destruct (events_list _ _) as [googleEvents|]; cbn [bind]; [|discriminate].
  destruct (ClosedDay_find _ _) as [closedDays|]; cbn [bind]; [|discriminate].
  destruct (calendarLoop _ _ _ _ _ _) as [[calendarData|]|] eqn:L;
    try discriminate.
  intros E Hin. assert (calendarData = data) by congruence. subst calendarData.
  pose proof (calendarLoop_consistent _ _ _ _ _ _ _ L) as F.
  rewrite Forall_forall in F. exact (F entry Hin).
Qed.

(** X15.  When either listing fails, the month view is answered 500,
    whatever the month asked for: no partial calendar is returned. *)
Theorem X15_month_view_fails_when_a_listing_fails
    (fuel : nat) (year month : Z) :
  (forall timeMin timeMax, events_list timeMin timeMax = Throws)
  \/ (forall timeMin timeMax, ClosedDay_find timeMin timeMax = Throws) ->
  getCalendar tz events_list ClosedDay_find fuel year month
  = Some CalendarError.
Proof.
  intros H. unfold getCalendar.
  destruct (instant _) as [timeMin|]; cbn [bind]; [|reflexivity].
  destruct (instant _) as [timeMax|]; cbn [bind]; [|reflexivity].
  destruct H as [H | H].
  - now rewrite H.
  - destruct (events_list _ _); cbn [bind]; [|reflexivity]. now rewrite H.
Qed.

(** The two months are the same two dates for the [Date] constructor. *)
Lemma getCalendar_next_year (fuel : nat) (year month : Z) :
  100 <= year ->
  getCalendar tz events_list ClosedDay_find fuel year (month + 12)
  = getCalendar tz events_list ClosedDay_find fuel (year + 1) month.
Proof.
  intros H. unfold getCalendar, newDateOfFields.
  assert (F : fullYear year = year /\ fullYear (year + 1) = year + 1).
  { unfold fullYear.
    destruct (Z.leb_spec year 99), (Z.leb_spec (year + 1) 99);
      rewrite ?andb_false_r; try lia; split; reflexivity. }
  destruct F as [-> ->].
  replace (month + 12 - 1) with (month - 1 + 12) by lia.
  now rewrite !MakeDay_next_year.
Qed.

(** X16.  The month of the path is not checked against 1..12: for a month
    number twelve higher the handler builds the entries of the same month
    of the next year, so the [data] answered for month 13 of a year are the
    entries of January of the next, and for month 0 those of December of
    the year before; and the one request fails exactly when the other
    does.  (The [month] label the response echoes is written from the
    parameters as given and is not part of [data].) *)
Theorem X16_month_numbers_roll_over_into_the_next_year
    (fuel : nat) (year month : Z) :
  100 <= year ->
  (forall data,
     getCalendar tz events_list ClosedDay_find fuel year (month + 12)
     = Some (CalendarOk data)
     <-> getCalendar tz events_list ClosedDay_find fuel (year + 1) month
         = Some (CalendarOk data))
  /\ (getCalendar tz events_list ClosedDay_find fuel year (month + 12)
      = Some CalendarError
      <-> getCalendar tz events_list ClosedDay_find fuel (year + 1) month
          = Some CalendarError).
Proof.
  intros H. rewrite (getCalendar_next_year fuel year month H).
  split; [intros data|]; reflexivity.
Qed.

(** X18.  On a host ahead of UTC (by less than a day) the month view is
    dated one day back: the loop steps through the local midnights of the
    month and dates each with [toISOString], so the first entry carries the
    day before the first of the month, the entry after it the first, and
    no entry carries the last day. *)
Theorem X18_month_view_ahead_of_utc_is_dated_one_day_back
    (fuel : nat) (year month : Z)
    (items : option (list Event.t)) (closedDays : list ClosedDay.t) :
  0 < tz < Time.msPerDay ->
  100 <= year <= 9999 -> 1 <= month <= 12 -> (31 <= fuel)%nat ->
  events_list (localInstant tz year month 1 0)
    (localInstant tz year month (Time.daysInMonth year month) 0)
  = Returns items ->
  ClosedDay_find (localInstant tz year month 1 0)
    (localInstant tz year month (Time.daysInMonth year month) 0)
  = Returns closedDays ->
  Forall validEvent (itemsOf items) ->
  exists data,
    getCalendar tz events_list ClosedDay_find fuel year month
    = Some (CalendarOk data)
    /\ Z.of_nat (List.length data) = Time.daysInMonth year month
    /\ (exists first,
          nth_error data 0 = Some first
          /\ CalendarDay.date first
             = isoDate ((Time.days_from_civil year month 1 - 1) * Time.msPerDay))
    /\ (forall k entry,
          nth_error data (S k) = Some entry ->
          CalendarDay.date entry = isoOfCivil year month (Z.of_nat k + 1))
    /\ (forall entry,
          In entry data ->
          CalendarDay.date entry
          <> isoOfCivil year month (Time.daysInMonth year month)).
Proof.
  intros Htz Hy Hm Hf He Hc V.
  pose proof (daysInMonth_range year month) as D.
  set (n := Time.daysInMonth year month) in *.
  assert (Dk : forall k : nat,
             Time.Day (localInstant tz year month 1 0
                       + Z.of_nat k * Time.msPerDay)
             = Time.days_from_civil year month 1 + Z.of_nat k - 1).
  { intros k. unfold localInstant, Time.Day, Time.msPerDay, Time.msPerHour in *.
    Z.to_euclidean_division_equations; lia. }
  assert (Nth : forall k entry,
             nth_error
               (map (entryAt tz closedDays items)
                  (dailyFrom (localInstant tz year month 1 0) (Z.to_nat n))) k
             = Some entry ->
             (k < Z.to_nat n)%nat
             /\ CalendarDay.date entry
                = isoDate ((Time.days_from_civil year month 1 + Z.of_nat k - 1)
                           * Time.msPerDay)).
  { intros k entry E.
    assert (Hk : (k < Z.to_nat n)%nat).
    { assert (L : (k < List.length
                          (map (entryAt tz closedDays items)
                             (dailyFrom (localInstant tz year month 1 0)
                                (Z.to_nat n))))%nat)
        by (apply nth_error_Some; rewrite E; discriminate).
      unfold dailyFrom in L. now rewrite !length_map, length_seq in L. }
    split; [exact Hk|].
    rewrite nth_error_map, (nth_error_dailyFrom _ _ _ Hk) in E.
    cbn [option_map] in E.
    assert (entry = entryAt tz closedDays items
                      (localInstant tz year month 1 0
                       + Z.of_nat k * Time.msPerDay)) by congruence.
    subst entry. rewrite entryAt_date. apply isoDate_Day.
    now rewrite Dk, Day_midnight. }
  assert (Later : forall k : nat,
             (S k < Z.to_nat n)%nat ->
             isoDate ((Time.days_from_civil year month 1 + Z.of_nat (S k) - 1)
                      * Time.msPerDay)
             = isoOfCivil year month (Z.of_nat k + 1)).
  { intros k Hk.
    replace (Time.days_from_civil year month 1 + Z.of_nat (S k) - 1)
      with (Time.days_from_civil year month (Z.of_nat k + 1))
      by (rewrite (TimeFacts.days_from_civil_day year month (Z.of_nat k + 1));
          lia).
    apply isoDate_utc_midnight; lia. }
  exists (map (entryAt tz closedDays items)
            (dailyFrom (localInstant tz year month 1 0) (Z.to_nat n))).
  split.
  { apply getCalendar_entries; try assumption. lia. }
  split.
  { rewrite length_map. unfold dailyFrom. rewrite length_map, length_seq. lia. }
  split.
  { destruct (Z.to_nat n) as [|n'] eqn:En; [lia|].
    eexists. split; [reflexivity|].
    rewrite entryAt_date. apply isoDate_Day.
    rewrite Day_midnight.
    etransitivity; [exact (Dk 0%nat)|]. change (Z.of_nat 0) with 0. lia. }
  split.
  { intros k entry E. destruct (Nth _ _ E) as [Hk ->]. now apply Later. }
  intros entry Hin E.
  apply In_nth_error in Hin. destruct Hin as [k Hk].
  destruct (Nth _ _ Hk) as [Hlt Hdate].
  destruct (isoDate_utc_midnight year month n) as [I Y]; try lia.
  rewrite <- I, Hdate in E. symmetry in E.
  apply DateFacts.isoDate_same_day in E; [|exact Y].
  rewrite !Day_midnight in E.
  rewrite (TimeFacts.days_from_civil_day year month n) in E. lia.
Qed.

End MonthViewMore.

(** ** The closure route *)


Section AdminFacts.

Variable Date_parse : string -> option Z.


End AdminFacts.

Section ClosureRoundTrip.

Variable tz : Z.
Variable Date_parse : string -> option Z.
Variable events_list : Z -> Z -> outcome (option (list Event.t)).

(** X20.  A closure declared through the closure route shows in the month
    view: on a host at or behind UTC (by less than a day), after the route
    accepted a body whose date text denotes the UTC midnight of a date of
    the month, as a date-only text does, the entry of that date is
    [closed] whatever the calendar holds.  Behind UTC the first of the
    month is left out: its UTC midnight precedes the local midnight the
    query starts from. *)
Theorem X20_declared_closure_shows_in_the_month_view
    (storeAccepts : bool) (body : ClosedDayBody.t) (date : string)
    (store store' : list ClosedDay.t) (closedDay : ClosedDay.t)
    (fuel : nat) (y m d : Z) (items : option (list Event.t)) :
  - Time.msPerDay < tz <= 0 ->
  100 <= y <= 9999 -> 1 <= m <= 12 -> 1 <= d <= Time.daysInMonth y m ->
  (tz < 0 -> 2 <= d) ->
  (31 <= fuel)%nat ->
  ClosedDayBody.date body = Some date ->
  Date_parse date = Some (Time.days_from_civil y m d * Time.msPerDay) ->
  postClosedDays Date_parse storeAccepts body store
  = (ClosedDayOk closedDay, store') ->
  events_list (localInstant tz y m 1 0)
    (localInstant tz y m (Time.daysInMonth y m) 0)
  = Returns items ->
  Forall validEvent (itemsOf items) ->
  exists data entry,
    getCalendar tz events_list (closedDaysOf store') fuel y m
    = Some (CalendarOk data)
    /\ nth_error data (Z.to_nat (d - 1)) = Some entry
    /\ CalendarDay.date entry = isoOfCivil y m d
    /\ CalendarDay.status entry = closed.
Proof.
  intros Htz Hy Hm Hd Hfirst Hf Hb Hp P He V.
  pose proof (daysInMonth_range y m) as D.
  assert (Fy : fullYear y = y).
  { unfold fullYear. destruct (Z.leb_spec y 99); [lia|].
    now rewrite andb_false_r. }
  (* the document saved *)
  assert (S : In closedDay store'
              /\ ClosedDay.date closedDay
                 = Time.days_from_civil y m d * Time.msPerDay).
  { revert P. unfold postClosedDays, ClosedDay_save, newDateOfField,
      newDateOfString. rewrite Hb, Hp.
    destruct (Time.TimeClip _) as [t|] eqn:T; [|discriminate].
    apply TimeClip_Some in T. destruct T as [-> _].
    destruct (Str.includes _ _ && storeAccepts); [|discriminate].
    intros E. assert (Er := f_equal fst E). assert (Ew := f_equal snd E).
    cbn [fst snd] in Er, Ew.
    assert (Ec : closedDay
                 = ClosedDay.mk (Time.days_from_civil y m d * Time.msPerDay)
                     (ClosedDayBody.reason body)
                     match ClosedDayBody.type body with
                     | Some s => s
                     | None => defaultClosedDayType
                     end) by congruence.
    subst store'. split.
    - apply in_or_app. right. left. now symmetry.
    - now rewrite Ec. }
  destruct S as [Sin Sdate].
  destruct (isoDate_utc_midnight y m d) as [Iso _]; [lia | lia | lia |].
  (* the month view *)
  destruct (getCalendar_month tz events_list (closedDaysOf store') fuel y m
              items
              (filter (fun day =>
                         (localInstant tz y m 1 0 <=? ClosedDay.date day)
                         && (ClosedDay.date day
                             <=? localInstant tz y m (Time.daysInMonth y m) 0))
                 store'))
    as (data & Hdata & Hlen & Hentries);
    try assumption; try lia; rewrite ?Fy; try assumption; try reflexivity.
  rewrite Fy in Hlen, Hentries.
  destruct (nth_error data (Z.to_nat (d - 1))) as [entry|] eqn:N.
  2:{ apply nth_error_None in N. lia. }
  exists data, entry. split; [exact Hdata|]. split; [exact N|].
  destruct (Hentries _ _ N) as (Hdate & _ & _ & Hstatus).
  replace (Z.of_nat (Z.to_nat (d - 1)) + 1) with d in Hdate, Hstatus by lia.
  split; [exact Hdate|].
  rewrite Hstatus.
  assert (Ex : existsb (declaredAt (isoOfCivil y m d))
                 (filter (fun day =>
                            (localInstant tz y m 1 0 <=? ClosedDay.date day)
                            && (ClosedDay.date day
                                <=? localInstant tz y m (Time.daysInMonth y m) 0))
                    store') = true).
  { apply existsb_exists. exists closedDay. split.
    - apply filter_In. split; [exact Sin|].
      rewrite Sdate. apply andb_true_iff.
      unfold localInstant.
      rewrite (TimeFacts.days_from_civil_day y m d).
      rewrite (TimeFacts.days_from_civil_day y m (Time.daysInMonth y m)).
      unfold Time.msPerDay, Time.msPerHour in *.
      split; apply Z.leb_le; lia.
    - unfold declaredAt. rewrite Sdate, Iso. apply String.eqb_refl. }
  rewrite Ex, orb_true_r. reflexivity.
Qed.

End ClosureRoundTrip.

(** ** The handlers together *)

(** The weekly test at the local midnight of a calendar date. *)
Lemma isWeekend_local_midnight (tz y m d : Z) :
  isWeekend tz (Some (localInstant tz y m d 0)) = (weekdayOf y m d =? 0).
Proof.
  unfold isWeekend, getDay, option_map, LocalTime, Time.WeekDay, localInstant,
    weekdayOf.
  replace (Time.days_from_civil y m d * Time.msPerDay + 0 * Time.msPerHour
           - tz + tz)
    with (Time.days_from_civil y m d * Time.msPerDay) by lia.
  rewrite Day_midnight.
  destruct ((Time.days_from_civil y m d + 4) mod 7); reflexivity.
Qed.

Lemma filter_startsAt (dateStr : string) (l : list Event.t) :
  0 < Z.of_nat (List.length (filter (startsAt dateStr) l))
  <-> exists event s,
        In event l /\ Event.start_dateTime event = Some s
        /\ isoDate s = dateStr.
Proof.
  split.
  - intros H. destruct (filter (startsAt dateStr) l) as [|event r] eqn:F;
      [cbn in H; lia|].
    assert (Hin : In event (filter (startsAt dateStr) l))
      by (rewrite F; now left).
    apply filter_In in Hin. destruct Hin as [Hin S].
    unfold startsAt in S.
    destruct (Event.start_dateTime event) as [s|] eqn:E; [|discriminate S].
    exists event, s. repeat split; try assumption. now apply String.eqb_eq.
  - intros (event & s & Hin & E & I).
    assert (Hf : In event (filter (startsAt dateStr) l)).
    { apply filter_In. split; [exact Hin|]. unfold startsAt. rewrite E.
      now apply String.eqb_eq. }
    destruct (filter (startsAt dateStr) l); [destruct Hf|].
    cbn [List.length]. lia.
Qed.

Lemma existsb_declaredAt (dateStr : string) (closedDays : list ClosedDay.t) :
  existsb (declaredAt dateStr) closedDays = true
  <-> exists day, In day closedDays /\ isoDate (ClosedDay.date day) = dateStr.
Proof.
  rewrite existsb_exists. unfold declaredAt.
  split; intros (day & Hin & E); exists day; (split; [exact Hin|]);
    now apply String.eqb_eq.
Qed.

(** The record a successful request saves. *)
Lemma postBookings_record (tz : Z) (Date_parse : string -> option Z)
    (EMAIL_USER : string) (toLocaleDateString : JSDate -> string)
    (o : Oracle) (now : Z) (body : Body.t) (w w' : World)
    (c : Confirmation.t) :
  postBookings tz Date_parse EMAIL_USER toLocaleDateString o now body w
  = (BookingOk c, w') ->
  exists b s e,
    bookings w' = (bookings w ++ [b])%list
    /\ slotTimeOf tz (newDateOfString Date_parse (text (Body.date body)))
         (text (Body.timeSlot body)) = Some s
    /\ validTime s
    /\ Booking.startTime b = Some s
    /\ Booking.endTime b = Some e
    /\ validTime e
    /\ forall n,
         Str.parseInt (Str.replace "h" "" (text (Body.duration body))) = Some n ->
         e = s + n * Time.msPerHour.
Proof.
  unfold postBookings.
  destruct (negb (truthy (Body.date body)) || _ || _ || _ || _ || _);
    [discriminate |].
  unfold createBooking, bindM, lift, ret, events_insert, Booking_save, sendMail.
  fold (slotTimeOf tz (newDateOfString Date_parse (text (Body.date body)))
          (text (Body.timeSlot body))).
  destruct (slotTimeOf _ _ _) as [s|] eqn:Es; [|discriminate].
  cbn [toISOString].
  destruct (Str.parseInt _) as [n|]; [|discriminate].
  rewrite setHours1_shift.
  destruct (Time.TimeClip (s + n * Time.msPerHour)) as [e|] eqn:Ee;
    [|discriminate].
  cbn [toISOString].
  destruct (insertReply o) as [id|]; [|discriminate].
  destruct (saveSucceeds o); [|discriminate].
  destruct (sendSucceeds o); [|discriminate].
  cbn [calendar bookings outbox].
  intros E. assert (Ew := f_equal snd E). cbn [snd] in Ew. subst w'.
  cbn [bookings].
  apply TimeClip_Some in Ee. destruct Ee as [-> Ve].
  assert (Vs : validTime s).
  { unfold slotTimeOf, setHours in Es.
    repeat match type of Es with
           | match ?x with _ => _ end = _ =>
               destruct x; try discriminate Es
           end.
    apply TimeClip_Some in Es. destruct Es as [-> V]. exact V. }
  eexists _, s, _. split; [reflexivity|].
  cbn [Booking.startTime Booking.endTime].
  repeat split; try assumption.
  intros n' Hn'. congruence.
Qed.

Section MonthViewByDate.

Variable tz : Z.
Variable events_list : Z -> Z -> outcome (option (list Event.t)).
Variable ClosedDay_find : Z -> Z -> outcome (list ClosedDay.t).

(** X21.  The month view in terms of calendar dates, on a host at or
    behind UTC by less than a day: the entries carry the dates of the month
    in ascending order, none missing and none repeated; an entry is
    [closed] exactly when its date is a Sunday, a fixed holiday or the UTC
    date of a fetched closure; [occupied] exactly when it is none of these
    and a fetched event starts on its date in UTC; and its count is the
    number of such events, closed or not. *)
Theorem X21_month_view_by_calendar_date
    (fuel : nat) (year month : Z)
    (items : option (list Event.t)) (closedDays : list ClosedDay.t) :
  - Time.msPerDay < tz <= 0 ->
  100 <= year <= 9999 -> 1 <= month <= 12 -> (31 <= fuel)%nat ->
  events_list (localInstant tz year month 1 0)
    (localInstant tz year month (Time.daysInMonth year month) 0)
  = Returns items ->
  ClosedDay_find (localInstant tz year month 1 0)
    (localInstant tz year month (Time.daysInMonth year month) 0)
  = Returns closedDays ->
  Forall validEvent (itemsOf items) ->
  exists data,
    getCalendar tz events_list ClosedDay_find fuel year month
    = Some (CalendarOk data)
    /\ map CalendarDay.date data
       = map (fun d => isoOfCivil year month (Z.of_nat d))
           (seq 1 (Z.to_nat (Time.daysInMonth year month)))
    /\ forall d entry,
         1 <= d <= Time.daysInMonth year month ->
         nth_error data (Z.to_nat (d - 1)) = Some entry ->
         (CalendarDay.status entry = closed
          <-> weekdayOf year month d = 0
              \/ In (month, d) holidayMonthDays
              \/ exists day,
                   In day closedDays
                   /\ isoDate (ClosedDay.date day) = isoOfCivil year month d)
         /\ (CalendarDay.status entry = occupied
             <-> CalendarDay.status entry <> closed
                 /\ exists event s,
                      In event (itemsOf items)
                      /\ Event.start_dateTime event = Some s
                      /\ isoDate s = isoOfCivil year month d)
         /\ CalendarDay.bookings entry
            = Z.of_nat
                (List.length
                   (filter (startsAt (isoOfCivil year month d)) (itemsOf items))).
Proof.
  intros Htz Hy Hm Hf He Hc V.
  pose proof (daysInMonth_range year month) as D.
  assert (Fy : fullYear year = year).
  { unfold fullYear. destruct (Z.leb_spec year 99); [lia|].
    now rewrite andb_false_r. }
  destruct (getCalendar_month tz events_list ClosedDay_find fuel year month
              items closedDays)
    as (data & Hdata & Hlen & Hentries);
    try assumption; try lia; rewrite ?Fy; try assumption.
  rewrite Fy in Hlen, Hentries.
  exists data. split; [exact Hdata|]. split.
  - apply nth_error_ext. intros k. rewrite !nth_error_map, nth_error_seq.
    destruct (nth_error data k) as [entry|] eqn:N; cbn [option_map].
    + assert (Lt : (k < List.length data)%nat)
        by (apply nth_error_Some; rewrite N; discriminate).
      destruct (Nat.ltb_spec k (Z.to_nat (Time.daysInMonth year month)));
        [|lia].
      cbn [option_map]. destruct (Hentries _ _ N) as (Hdate & _).
      rewrite Hdate. do 2 f_equal. lia.
    + apply nth_error_None in N.
      destruct (Nat.ltb_spec k (Z.to_nat (Time.daysInMonth year month)));
        [lia | reflexivity].
  - intros d entry Hd N.
    destruct (Hentries _ _ N) as (_ & _ & Hcount & Hstatus).
    replace (Z.of_nat (Z.to_nat (d - 1)) + 1) with d in Hcount, Hstatus by lia.
    rewrite isWeekend_local_midnight in Hstatus.
    assert (Hol : holidayAt (localInstant tz year month d 0) = true
                  <-> In (month, d) holidayMonthDays).
    { apply (holidayAt_iff _ year); [|lia].
      replace (localInstant tz year month d 0)
        with (localInstant tz year month 1 0 + (d - 1) * Time.msPerDay)
        by (unfold localInstant;
            rewrite (TimeFacts.days_from_civil_day year month d); lia).
      replace d with (d - 1 + 1) at 2 by lia.
      apply entry_date; lia. }
    pose proof (existsb_declaredAt (isoOfCivil year month d) closedDays) as Dec.
    pose proof (filter_startsAt (isoOfCivil year month d) (itemsOf items)) as Cnt.
    rewrite <- Hcount in Cnt.
    assert (Closed : CalendarDay.status entry = closed
                     <-> weekdayOf year month d = 0
                         \/ In (month, d) holidayMonthDays
                         \/ exists day,
                              In day closedDays
                              /\ isoDate (ClosedDay.date day)
                                 = isoOfCivil year month d).
    { rewrite Hstatus, <- Hol, <- Dec, <- Z.eqb_eq.
      destruct (weekdayOf year month d =? 0),
        (holidayAt (localInstant tz year month d 0)),
        (existsb (declaredAt (isoOfCivil year month d)) closedDays);
        cbn [orb]; try (split; [auto | reflexivity]).
      destruct (0 <? CalendarDay.bookings entry);
        (split; [discriminate | intros [H | [H | H]]; discriminate H]). }
    split; [exact Closed|]. split; [|exact Hcount].
    rewrite <- Cnt, <- Z.ltb_lt.
    rewrite Hstatus.
    destruct (_ || _ || _).
    + split; [discriminate | intros [H _]; contradiction].
    + destruct (0 <? CalendarDay.bookings entry).
      * split; [split; [discriminate | reflexivity] | reflexivity].
      * split; [discriminate | intros [_ H]; discriminate H].
Qed.

End MonthViewByDate.

Section BookingThenViews.

Variable tz : Z.
Variable Date_parse : string -> option Z.
Variable EMAIL_USER : string.
Variable toLocaleDateString : JSDate -> string.
Variable events_list : Z -> Z -> outcome (option (list Event.t)).

(** X22.  A booked slot is taken in the day view: after a request for a
    slot of the grid and at least one hour went through, the day view of
    the same date shows that slot unavailable as soon as the calendar
    lists an event with the start and the end of the record saved. *)
Theorem X22_a_booked_slot_is_taken_in_the_day_view
    (o : Oracle) (now now' : Z) (date : string) (t n : Z) (body : Body.t)
    (w w' : World) (c : Confirmation.t) (b : Booking.t)
    (items : option (list Event.t)) (event : Event.t) :
  Body.date body = Some date ->
  In (text (Body.timeSlot body)) (bh_slots getBusinessHours) ->
  Str.parseInt (Str.replace "h" "" (text (Body.duration body))) = Some n ->
  1 <= n ->
  postBookings tz Date_parse EMAIL_USER toLocaleDateString o now' body w
  = (BookingOk c, w') ->
  bookings w' = (bookings w ++ [b])%list ->
  Date_parse date = Some t ->
  validTime t ->
  validTime (startOfLocalDay tz t) ->
  validTime (startOfLocalDay tz t + Time.msPerDay) ->
  startOfLocalDay tz now <= t ->
  isWeekend tz (Some t) = false ->
  isHoliday (Some t) = Returns false ->
  events_list (startOfLocalDay tz t) (startOfLocalDay tz t + 86399999)
  = Returns items ->
  In event (itemsOf items) ->
  Event.start_dateTime event = Booking.startTime b ->
  Event.end_dateTime event = Booking.endTime b ->
  exists l sl,
    getSlots tz Date_parse events_list now date = SlotsOk (Some date) l
    /\ In sl l
    /\ Slot.time sl = text (Body.timeSlot body)
    /\ Slot.available sl = false.
Proof.
  intros Hd Hts Hn Hn1 P Hb Hp Vt V0 V1 Hnow Hw Hh He Hin Hs Hen.
  destruct (postBookings_record _ _ _ _ _ _ _ _ _ _ P)
    as (b' & s & e & Hb' & Hslot & Vs & Bs & Be & Ve & Hdur).
  assert (b' = b).
  { rewrite Hb in Hb'. apply app_inj_tail in Hb'. now destruct Hb'. }
  subst b'. specialize (Hdur n Hn).
  rewrite Hd in Hslot. cbn [text] in Hslot.
  unfold newDateOfString in Hslot. rewrite Hp, (TimeClip_valid t Vt) in Hslot.
  rewrite (getSlots_open tz Date_parse events_list now date t) by assumption.
  rewrite He.
  eexists _, _. split; [reflexivity|]. split.
  { apply in_map. exact Hts. }
  cbn [Slot.time Slot.available]. split; [reflexivity|].
  apply negb_false_iff.
  destruct items as [l|]; [|destruct Hin].
  apply existsb_exists. exists event. split; [exact Hin|].
  unfold covers. rewrite Hs, Bs, Hen, Be, Hslot.
  unfold newDate. rewrite (TimeClip_valid s Vs), (TimeClip_valid e Ve).
  unfold ge, le, lt. apply andb_true_iff. split.
  - apply Z.leb_le. lia.
  - apply Z.ltb_lt. unfold Time.msPerHour in *. lia.
Qed.

End BookingThenViews.

Section BookingThenMonthView.

Variable Date_parse : string -> option Z.
Variable EMAIL_USER : string.
Variable toLocaleDateString : JSDate -> string.
Variable events_list : Z -> Z -> outcome (option (list Event.t)).
Variable ClosedDay_find : Z -> Z -> outcome (list ClosedDay.t).

(** X23.  A booking counts in the month view: on a host in UTC, after a
    request for a date of the month and a time of day went through, the
    entry of that date counts at least one event and is not [available],
    as soon as the listing of the month holds an event with the start of
    the record saved. *)
Theorem X23_a_booking_counts_in_the_month_view
    (o : Oracle) (now : Z) (body : Body.t) (w w' : World)
    (c : Confirmation.t) (b : Booking.t) (fuel : nat) (y m d h mi : Z)
    (items : option (list Event.t)) (closedDays : list ClosedDay.t)
    (event : Event.t) :
  postBookings 0 Date_parse EMAIL_USER toLocaleDateString o now body w
  = (BookingOk c, w') ->
  bookings w' = (bookings w ++ [b])%list ->
  Date_parse (text (Body.date body))
  = Some (Time.days_from_civil y m d * Time.msPerDay) ->
  slotHours (text (Body.timeSlot body)) = Some h ->
  slotMinutes (text (Body.timeSlot body)) = Some mi ->
  0 <= h * 60 + mi < 1440 ->
  100 <= y <= 9999 -> 1 <= m <= 12 -> 1 <= d <= Time.daysInMonth y m ->
  (31 <= fuel)%nat ->
  events_list (localInstant 0 y m 1 0)
    (localInstant 0 y m (Time.daysInMonth y m) 0)
  = Returns items ->
  ClosedDay_find (localInstant 0 y m 1 0)
    (localInstant 0 y m (Time.daysInMonth y m) 0)
  = Returns closedDays ->
  Forall validEvent (itemsOf items) ->
  In event (itemsOf items) ->
  Event.start_dateTime event = Booking.startTime b ->
  exists data entry,
    getCalendar 0 events_list ClosedDay_find fuel y m = Some (CalendarOk data)
    /\ nth_error data (Z.to_nat (d - 1)) = Some entry
    /\ CalendarDay.date entry = isoOfCivil y m d
    /\ 0 < CalendarDay.bookings entry
    /\ CalendarDay.status entry <> available.
Proof.
  intros P Hb Hp Hh Hmi Hday Hy Hm Hd Hf He Hc V Hin Hs.
  pose proof (daysInMonth_range y m) as D.
  destruct (postBookings_record _ _ _ _ _ _ _ _ _ _ P)
    as (b' & s & e & Hb' & Hslot & Vs & Bs & _).
  assert (b' = b).
  { rewrite Hb in Hb'. apply app_inj_tail in Hb'. now destruct Hb'. }
  subst b'.
  (* the instant of the booking *)
  assert (Vt : validTime (Time.days_from_civil y m d * Time.msPerDay)).
  { pose proof (days_from_civil_bounds y m) as B.
    rewrite (TimeFacts.days_from_civil_day y m d).
    unfold validTime, Time.maxTime, Time.msPerDay. lia. }
  unfold slotTimeOf, newDateOfString in Hslot.
  fold (slotHours (text (Body.timeSlot body)))
       (slotMinutes (text (Body.timeSlot body))) in Hslot.
  rewrite Hp, (TimeClip_valid _ Vt), Hh, Hmi, setHours_local in Hslot.
  apply TimeClip_Some in Hslot. destruct Hslot as [Hslot _].
  assert (Iso : isoDate s = isoOfCivil y m d).
  { apply DateFacts.isoDate_civil; [|lia].
    replace (Time.Day s) with (Time.days_from_civil y m d).
    - apply TimeFacts.civil_of_days_from_civil; lia.
    - rewrite Hslot.
      unfold startOfLocalDay, Time.MakeTime, Time.Day, Time.msPerDay,
        Time.msPerHour, Time.msPerMinute, Time.msPerSecond.
      Z.to_euclidean_division_equations; lia. }
  assert (Fy : fullYear y = y).
  { unfold fullYear. destruct (Z.leb_spec y 99); [lia|].
    now rewrite andb_false_r. }
  destruct (getCalendar_month 0 events_list ClosedDay_find fuel y m
              items closedDays)
    as (data & Hdata & Hlen & Hentries);
    try assumption; try lia; rewrite ?Fy; try assumption.
  { unfold Time.msPerDay. lia. }
  rewrite Fy in Hlen, Hentries.
  destruct (nth_error data (Z.to_nat (d - 1))) as [entry|] eqn:N.
  2:{ apply nth_error_None in N. lia. }
  exists data, entry. split; [exact Hdata|]. split; [exact N|].
  destruct (Hentries _ _ N) as (Hdate & _ & Hcount & Hstatus).
  replace (Z.of_nat (Z.to_nat (d - 1)) + 1) with d in Hdate, Hcount, Hstatus
    by lia.
  assert (Pos : 0 < CalendarDay.bookings entry).
  { rewrite Hcount. apply filter_startsAt. exists event, s.
    split; [exact Hin|]. split; [congruence | exact Iso]. }
  split; [exact Hdate|]. split; [exact Pos|].
  rewrite Hstatus. apply Z.ltb_lt in Pos. rewrite Pos.
  destruct (_ || _ || _); discriminate.
Qed.

End BookingThenMonthView.

(** ** Hosts behind UTC *)

Lemma startOfLocalDay_behind_utc (tz D : Z) :
  - Time.msPerDay < tz < 0 ->
  startOfLocalDay tz (D * Time.msPerDay) = (D - 1) * Time.msPerDay - tz.
Proof.
  intros H. unfold startOfLocalDay, Time.Day, Time.msPerDay in *.
  Z.to_euclidean_division_equations; lia.
Qed.

Section BehindUtc.

Variable tz : Z.
Variable Date_parse : string -> option Z.
Variable EMAIL_USER : string.
Variable toLocaleDateString : JSDate -> string.
Variable events_list : Z -> Z -> outcome (option (list Event.t)).

(** X24.  On a host behind UTC the day view of the current date is always
    empty: the date text is read as midnight UTC, which is before the local
    midnight the handler compares it with, so today is taken for a past
    date, whatever the weekday and whatever the calendar holds. *)
Theorem X24_today_is_past_on_a_host_behind_utc
    (now : Z) (date : string) (y m d : Z) :
  - Time.msPerDay < tz < 0 ->
  Time.civil_from_days (Time.Day (now + tz)) = (y, m, d) ->
  Date_parse date = Some (Time.days_from_civil y m d * Time.msPerDay) ->
  validTime now ->
  validTime (startOfLocalDay tz now) ->
  validTime (Time.days_from_civil y m d * Time.msPerDay) ->
  getSlots tz Date_parse events_list now date = SlotsOk None [].
Proof.
  intros Htz Hc Hp Vn V0 Vt.
  pose proof (TimeFacts.days_from_civil_of_civil (Time.Day (now + tz))) as R.
  rewrite Hc in R.
  unfold getSlots, newDateOfString, startOfToday, newDate.
  rewrite Hp, (TimeClip_valid _ Vt), (TimeClip_valid _ Vn), setHours_local.
  change (Time.MakeTime 0 0 0 0) with 0. rewrite Z.add_0_r.
  rewrite (TimeClip_valid _ V0).
  replace (lt _ _) with true; [reflexivity|].
  symmetry. unfold lt. apply Z.ltb_lt. rewrite R.
  unfold startOfLocalDay. lia.
Qed.

(** X25.  On a host behind UTC a booking lands on the day before the one
    asked for: the date text is read as midnight UTC, which is still the
    evening before on the local clock, and the hours of the slot are set on
    that local day. *)
Theorem X25_booking_behind_utc_lands_a_day_early
    (o : Oracle) (now : Z) (body : Body.t) (w w' : World)
    (c : Confirmation.t) (y m d h mi : Z) :
  - Time.msPerDay < tz < 0 ->
  Date_parse (text (Body.date body))
  = Some (Time.days_from_civil y m d * Time.msPerDay) ->
  slotHours (text (Body.timeSlot body)) = Some h ->
  slotMinutes (text (Body.timeSlot body)) = Some mi ->
  postBookings tz Date_parse EMAIL_USER toLocaleDateString o now body w
  = (BookingOk c, w') ->
  Confirmation.date c
  = Some (localInstant tz y m d h + mi * Time.msPerMinute - Time.msPerDay)
  /\ exists b,
       bookings w' = (bookings w ++ [b])%list
       /\ Booking.startTime b = Confirmation.date c.
Proof.
  intros Htz Hp Hh Hmi.
  unfold postBookings.
  destruct (negb (truthy (Body.date body)) || _ || _ || _ || _ || _);
    [discriminate |].
  unfold createBooking, bindM, lift, ret, events_insert, Booking_save, sendMail.
  fold (slotHours (text (Body.timeSlot body)))
       (slotMinutes (text (Body.timeSlot body))).
  unfold newDateOfString. rewrite Hp, Hh, Hmi.
  destruct (Time.TimeClip (Time.days_from_civil y m d * Time.msPerDay))
    as [t|] eqn:T; [|discriminate].
  apply TimeClip_Some in T. destruct T as [-> _].
  rewrite setHours_local, (startOfLocalDay_behind_utc tz _ Htz).
  destruct (Time.TimeClip _) as [s|] eqn:S; [|discriminate].
  apply TimeClip_Some in S. destruct S as [S _].
  cbn [toISOString].
  destruct (toISOString _) as [endIso|]; [|discriminate].
  destruct (insertReply o) as [id|]; [|discriminate].
  destruct (saveSucceeds o); [|discriminate].
  destruct (sendSucceeds o); [|discriminate].
  cbn [calendar bookings outbox].
  intros E.
  assert (Ec : c = Confirmation.mk id (Some s) (text (Body.timeSlot body))
                     (text (Body.duration body))
                     (text (Body.customerName body))) by congruence.
  assert (Ew := f_equal snd E). cbn [snd] in Ew. subst w' c.
  cbn [Confirmation.date bookings]. split.
  - f_equal. rewrite S.
    unfold localInstant, Time.MakeTime, Time.msPerDay, Time.msPerHour,
      Time.msPerMinute. lia.
  - eexists. split; reflexivity.
Qed.

End BehindUtc.

(** ** Further runs on sample data *)

Lemma X1_sunday_3_march_witness :
  (isWeekend romeWinter (Some 1709467200000) = true <-> weekdayOf 2024 3 3 = 0)
  /\ (weekdayOf 2024 3 3 = 6 -> isWeekend romeWinter (Some 1709467200000) = false)
  /\ forall j,
       isWeekend romeWinter (Some (1709467200000 + j * Time.msPerDay)) = true
       <-> (weekdayOf 2024 3 3 + j) mod 7 = 0.
Proof.
  apply (X1_weekly_rule_closes_the_local_sunday_only romeWinter 1709467200000
           2024 3 3).
  reflexivity.
Defined.

Lemma X2_march_5_witness :
  (isHoliday (Some 1709596800000) = Returns true
   <-> In (3, 5) holidayMonthDays)
  /\ (isHoliday (Some 1709596800000) = Returns false
      <-> ~ In (3, 5) holidayMonthDays).
Proof.
  apply (X2_isHoliday_closes_exactly_the_ten_dates 1709596800000 2024 3 5).
  - reflexivity.
  - split; apply Z.leb_le; reflexivity.
Defined.

Lemma X3_sunday_3_march_witness :
  getSlots romeWinter parseISODate (calendarOf [eventMarch5]) sampleNow
    "2024-03-03"
  = SlotsOk None [].
Proof.
  apply (X3_day_view_is_empty_on_sundays_and_holidays romeWinter parseISODate
           (calendarOf [eventMarch5]) sampleNow "2024-03-03" 2024 3 3).
  - reflexivity.
  - split; [apply Z.leb_le | apply Z.ltb_lt]; reflexivity.
  - split; apply Z.leb_le; reflexivity.
  - split; apply Z.leb_le; reflexivity.
  - split; apply Z.leb_le; reflexivity.
  - left. reflexivity.
Defined.

Lemma X4_garbled_date_witness :
  getSlots romeWinter parseISODate (calendarOf []) sampleNow "tomorrow"
  = SlotsError.
Proof.
  apply X4_day_view_of_unreadable_date_is_an_error. reflexivity.
Defined.

Lemma X5_failing_calendar_witness :
  getSlots romeWinter parseISODate failingCalendar sampleNow "2024-03-05"
  = SlotsError.
Proof.
  apply (X5_day_view_fails_when_the_listing_fails romeWinter parseISODate
           failingCalendar sampleNow "2024-03-05" 1709596800000).
  - reflexivity.
  - apply validTime_sample. reflexivity.
  - apply validTime_sample. reflexivity.
  - apply validTime_sample. reflexivity.
  - apply Z.leb_le. reflexivity.
  - reflexivity.
  - reflexivity.
  - reflexivity.
Defined.

Lemma X6_all_day_event_witness :
  exists l,
    getSlots romeWinter parseISODate (calendarOf [allDayEvent]) sampleNow
      "2024-03-05"
    = SlotsOk (Some "2024-03-05") l
    /\ map Slot.time l = bh_slots getBusinessHours
    /\ forall sl, In sl l -> Slot.available sl = true.
Proof.
  apply (X6_day_view_without_timed_events_is_all_available romeWinter
           parseISODate (calendarOf [allDayEvent]) sampleNow "2024-03-05"
           1709596800000 (Some [allDayEvent])).
  - reflexivity.
  - apply validTime_sample. reflexivity.
  - apply validTime_sample. reflexivity.
  - apply validTime_sample. reflexivity.
  - apply Z.leb_le. reflexivity.
  - reflexivity.
  - reflexivity.
  - reflexivity.
  - intros event [<- | []]. reflexivity.
Defined.

Lemma X7_slot_14_witness :
  let out :=
    postBookings romeWinter parseISODate "studio@example.org" noLocale
      allGood sampleNow sampleBody emptyWorld in
  let sl := Slot.mk "14:00" true "2024-03-05T13:00:00.000Z" in
  exists r,
    calendar (snd out) = [("ev1", r)]
    /\ Resource.start_dateTime r = Slot.datetime sl
    /\ toISOString (Some 1709643600000) = Returns (Slot.datetime sl).
Proof.
  intros out sl.
  apply (X7_booking_starts_at_the_datetime_of_the_slot romeWinter parseISODate
           "studio@example.org" noLocale (calendarOf []) allGood sampleNow
           sampleNow "2024-03-05" (Some "2024-03-05")
           match getSlots romeWinter parseISODate (calendarOf []) sampleNow
                   "2024-03-05" with
           | SlotsOk _ l => l
           | SlotsError => []
           end
           sl sampleBody emptyWorld (snd out)
           (Confirmation.mk "ev1" (Some 1709643600000) "14:00" "2h" "Ada")).
  - vm_compute. reflexivity.
  - vm_compute. do 5 right. left. reflexivity.
  - reflexivity.
  - reflexivity.
  - vm_compute. reflexivity.
Defined.

Lemma X8_empty_name_witness :
  postBookings romeWinter parseISODate "studio@example.org" noLocale allGood
    sampleNow (withName EmptyString sampleBody) emptyWorld
  = (MissingFields, emptyWorld)
  /\ fst (postBookings romeWinter parseISODate "studio@example.org" noLocale
            allGood sampleNow sampleBody emptyWorld)
     <> MissingFields.
Proof.
  split.
  - apply (proj1 (X8_blank_field_is_rejected_and_complete_body_is_not
                    romeWinter parseISODate "studio@example.org" noLocale
                    allGood sampleNow (withName EmptyString sampleBody)
                    emptyWorld)).
    exists (Some EmptyString). split.
    + do 3 right. left. reflexivity.
    + right. reflexivity.
  - apply (proj2 (X8_blank_field_is_rejected_and_complete_body_is_not
                    romeWinter parseISODate "studio@example.org" noLocale
                    allGood sampleNow sampleBody emptyWorld)).
    reflexivity.
Defined.


Lemma X10_sample_request_witness :
  let out :=
    postBookings romeWinter parseISODate "studio@example.org" noLocale
      allGood sampleNow sampleBody emptyWorld in
  exists r b m,
    snd out = mkWorld [("ev1", r)] [b] [m]
    /\ insertReply allGood = Some "ev1"
    /\ Booking.id b = "ev1"
    /\ Booking.googleEventId b = "ev1"
    /\ Booking.status b = "confirmed"
    /\ Booking.createdAt b = sampleNow
    /\ Booking.date b = Some 1709643600000
    /\ Booking.startTime b = Some 1709643600000
    /\ toISOString (Booking.startTime b) = Returns (Resource.start_dateTime r)
    /\ toISOString (Booking.endTime b) = Returns (Resource.end_dateTime r)
    /\ Resource.attendees r = ["ada@example.org"]
    /\ Mail.to m = "ada@example.org"
    /\ Mail.cc m = "studio@example.org"
    /\ Mail.from m = "studio@example.org".
Proof.
  intros out.
  apply (X10_success_adds_one_event_one_record_and_one_mail romeWinter
           parseISODate "studio@example.org" noLocale allGood sampleNow
           sampleBody emptyWorld (snd out)
           (Confirmation.mk "ev1" (Some 1709643600000) "14:00" "2h" "Ada")).
  vm_compute. reflexivity.
Defined.

Lemma X11_second_request_witness :
  let first :=
    postBookings romeWinter parseISODate "studio@example.org" noLocale
      allGood sampleNow sampleBody emptyWorld in
  exists w2 r,
    postBookings romeWinter parseISODate "studio@example.org" noLocale
      secondOracle sampleNow sampleBody (snd first)
    = (BookingOk
         (Confirmation.mk "ev2" (Some 1709643600000) "14:00" "2h" "Ada"), w2)
    /\ calendar w2 = [("ev1", r); ("ev2", r)]
    /\ List.length (bookings w2) = 2%nat.
Proof.
  intros first.
  apply (X11_the_same_slot_can_be_booked_twice romeWinter parseISODate
           "studio@example.org" noLocale allGood secondOracle sampleNow
           sampleNow sampleBody emptyWorld (snd first)
           (Confirmation.mk "ev1" (Some 1709643600000) "14:00" "2h" "Ada")
           "ev2").
  - vm_compute. reflexivity.
  - reflexivity.
  - reflexivity.
  - reflexivity.
Defined.

Lemma X12_failed_mail_witness :
  let out :=
    postBookings romeWinter parseISODate "studio@example.org" noLocale
      (mkOracle (Some "ev1") true false) sampleNow sampleBody emptyWorld in
  exists events records mails,
    snd out = mkWorld events records mails
    /\ (List.length mails <= List.length records <= List.length events)%nat
    /\ (List.length events <= 1)%nat
    /\ (mails <> [] <-> exists c, fst out = BookingOk c).
Proof.
  intros out.
  apply (X12_stores_only_grow_in_step_order romeWinter parseISODate
           "studio@example.org" noLocale (mkOracle (Some "ev1") true false)
           sampleNow sampleBody emptyWorld (snd out) (fst out)).
  apply surjective_pairing.
Defined.


Lemma X14_january_30_witness :
  exists data,
    getCalendar 0 (calendarOf [eventJanuary30]) (closedDaysOf []) 31 2024 1
    = Some (CalendarOk data)
    /\ In (CalendarDay.mk "2024-01-30" occupied 1) data
    /\ 0 <= 1
    /\ (occupied = occupied -> 0 < 1)
    /\ (occupied = available -> 1 = 0).
Proof.
  eexists. split; [vm_compute; reflexivity|].
  split; [do 29 right; left; reflexivity|].
  eapply (X14_entries_of_the_month_view_are_consistent 0
            (calendarOf [eventJanuary30]) (closedDaysOf []) 31 2024 1 _
            (CalendarDay.mk "2024-01-30" occupied 1)).
  - vm_compute. reflexivity.
  - do 29 right. left. reflexivity.
Defined.

Lemma X15_failing_calendar_witness :
  getCalendar romeWinter failingCalendar (closedDaysOf []) 31 2024 1
  = Some CalendarError.
Proof.
  apply X15_month_view_fails_when_a_listing_fails.
  left. intros timeMin timeMax. reflexivity.
Defined.

Lemma X16_month_13_witness :
  (forall data,
     getCalendar romeWinter (calendarOf []) (closedDaysOf []) 31 2024 (1 + 12)
     = Some (CalendarOk data)
     <-> getCalendar romeWinter (calendarOf []) (closedDaysOf []) 31 (2024 + 1) 1
         = Some (CalendarOk data))
  /\ (getCalendar romeWinter (calendarOf []) (closedDaysOf []) 31 2024 (1 + 12)
      = Some CalendarError
      <-> getCalendar romeWinter (calendarOf []) (closedDaysOf []) 31 (2024 + 1) 1
          = Some CalendarError).
Proof.
  apply X16_month_numbers_roll_over_into_the_next_year.
  apply Z.leb_le. reflexivity.
Defined.

Lemma X18_rome_january_witness :
  exists data,
    getCalendar romeWinter (calendarOf []) (closedDaysOf []) 31 2024 1
    = Some (CalendarOk data)
    /\ Z.of_nat (List.length data) = Time.daysInMonth 2024 1
    /\ (exists first,
          nth_error data 0 = Some first
          /\ CalendarDay.date first
             = isoDate ((Time.days_from_civil 2024 1 1 - 1) * Time.msPerDay))
    /\ (forall k entry,
          nth_error data (S k) = Some entry ->
          CalendarDay.date entry = isoOfCivil 2024 1 (Z.of_nat k + 1))
    /\ (forall entry,
          In entry data ->
          CalendarDay.date entry
          <> isoOfCivil 2024 1 (Time.daysInMonth 2024 1)).
Proof.
  apply (X18_month_view_ahead_of_utc_is_dated_one_day_back romeWinter
           (calendarOf []) (closedDaysOf []) 31 2024 1 (Some []) []).
  - split; apply Z.ltb_lt; reflexivity.
  - split; apply Z.leb_le; reflexivity.
  - split; apply Z.leb_le; reflexivity.
  - apply Nat.leb_le. reflexivity.
  - reflexivity.
  - reflexivity.
  - apply Forall_nil.
Defined.


Lemma X20_closure_of_march_5_witness :
  exists data entry,
    getCalendar 0 (calendarOf [eventMarch5])
      (closedDaysOf
         (snd (postClosedDays parseISODate true closureBody [])))
      31 2024 3
    = Some (CalendarOk data)
    /\ nth_error data (Z.to_nat (5 - 1)) = Some entry
    /\ CalendarDay.date entry = isoOfCivil 2024 3 5
    /\ CalendarDay.status entry = closed.
Proof.
  apply (X20_declared_closure_shows_in_the_month_view 0 parseISODate
           (calendarOf [eventMarch5]) true closureBody "2024-03-05" []
           (snd (postClosedDays parseISODate true closureBody []))
           (ClosedDay.mk 1709596800000 (Some "maintenance") "personal")
           31 2024 3 5 (Some [eventMarch5])).
  - split; [apply Z.ltb_lt | apply Z.leb_le]; reflexivity.
  - split; apply Z.leb_le; reflexivity.
  - split; apply Z.leb_le; reflexivity.
  - split; apply Z.leb_le; reflexivity.
  - intros H. apply Z.leb_le. reflexivity.
  - apply Nat.leb_le. reflexivity.
  - reflexivity.
  - reflexivity.
  - reflexivity.
  - reflexivity.
  - apply Forall_cons; [|apply Forall_nil].
    apply validEvent_mk; apply validTime_sample; reflexivity.
Defined.

Lemma X21_utc_march_witness :
  exists data,
    getCalendar 0 (calendarOf [eventMarch5]) (closedDaysOf [closureMarch5])
      31 2024 3
    = Some (CalendarOk data)
    /\ map CalendarDay.date data
       = map (fun d => isoOfCivil 2024 3 (Z.of_nat d))
           (seq 1 (Z.to_nat (Time.daysInMonth 2024 3)))
    /\ forall d entry,
         1 <= d <= Time.daysInMonth 2024 3 ->
         nth_error data (Z.to_nat (d - 1)) = Some entry ->
         (CalendarDay.status entry = closed
          <-> weekdayOf 2024 3 d = 0
              \/ In (3, d) holidayMonthDays
              \/ exists day,
                   In day [closureMarch5]
                   /\ isoDate (ClosedDay.date day) = isoOfCivil 2024 3 d)
         /\ (CalendarDay.status entry = occupied
             <-> CalendarDay.status entry <> closed
                 /\ exists event s,
                      In event (itemsOf (Some [eventMarch5]))
                      /\ Event.start_dateTime event = Some s
                      /\ isoDate s = isoOfCivil 2024 3 d)
         /\ CalendarDay.bookings entry
            = Z.of_nat
                (List.length
                   (filter (startsAt (isoOfCivil 2024 3 d))
                      (itemsOf (Some [eventMarch5])))).
Proof.
  apply (X21_month_view_by_calendar_date 0 (calendarOf [eventMarch5])
           (closedDaysOf [closureMarch5]) 31 2024 3 (Some [eventMarch5])
           [closureMarch5]).
  - split; [apply Z.ltb_lt | apply Z.leb_le]; reflexivity.
  - split; apply Z.leb_le; reflexivity.
  - split; apply Z.leb_le; reflexivity.
  - apply Nat.leb_le. reflexivity.
  - reflexivity.
  - reflexivity.
  - apply Forall_cons; [|apply Forall_nil].
    apply validEvent_mk; apply validTime_sample; reflexivity.
Defined.

Lemma X22_booked_slot_witness :
  exists l sl,
    getSlots romeWinter parseISODate
      (calendarOf [Event.mk "ev1" (Some 1709643600000) (Some 1709650800000)])
      sampleNow "2024-03-05"
    = SlotsOk (Some "2024-03-05") l
    /\ In sl l
    /\ Slot.time sl = "14:00"
    /\ Slot.available sl = false.
Proof.
  apply (X22_a_booked_slot_is_taken_in_the_day_view romeWinter parseISODate
           "studio@example.org" noLocale
           (calendarOf
              [Event.mk "ev1" (Some 1709643600000) (Some 1709650800000)])
           allGood sampleNow sampleNow "2024-03-05" 1709596800000 2 sampleBody
           emptyWorld
           (snd (postBookings romeWinter parseISODate "studio@example.org"
                   noLocale allGood sampleNow sampleBody emptyWorld))
           (Confirmation.mk "ev1" (Some 1709643600000) "14:00" "2h" "Ada")
           (Booking.mk "ev1" (Some 1709643600000) (Some 1709643600000)
              (Some 1709650800000) "Ada" "ada@example.org" "333" "2h" None
              None "confirmed" "ev1" sampleNow)
           (Some [Event.mk "ev1" (Some 1709643600000) (Some 1709650800000)])
           (Event.mk "ev1" (Some 1709643600000) (Some 1709650800000))).
  - reflexivity.
  - do 5 right. left. reflexivity.
  - reflexivity.
  - apply Z.leb_le. reflexivity.
  - vm_compute. reflexivity.
  - vm_compute. reflexivity.
  - reflexivity.
  - apply validTime_sample. reflexivity.
  - apply validTime_sample. reflexivity.
  - apply validTime_sample. reflexivity.
  - apply Z.leb_le. reflexivity.
  - reflexivity.
  - reflexivity.
  - reflexivity.
  - left. reflexivity.
  - reflexivity.
  - reflexivity.
Defined.

Lemma X23_booking_in_march_witness :
  exists data entry,
    getCalendar 0
      (calendarOf [Event.mk "ev1" (Some 1709647200000) (Some 1709654400000)])
      (closedDaysOf []) 31 2024 3
    = Some (CalendarOk data)
    /\ nth_error data (Z.to_nat (5 - 1)) = Some entry
    /\ CalendarDay.date entry = isoOfCivil 2024 3 5
    /\ 0 < CalendarDay.bookings entry
    /\ CalendarDay.status entry <> available.
Proof.
  apply (X23_a_booking_counts_in_the_month_view parseISODate
           "studio@example.org" noLocale
           (calendarOf
              [Event.mk "ev1" (Some 1709647200000) (Some 1709654400000)])
           (closedDaysOf []) allGood sampleNow sampleBody emptyWorld
           (snd (postBookings 0 parseISODate "studio@example.org" noLocale
                   allGood sampleNow sampleBody emptyWorld))
           (Confirmation.mk "ev1" (Some 1709647200000) "14:00" "2h" "Ada")
           (Booking.mk "ev1" (Some 1709647200000) (Some 1709647200000)
              (Some 1709654400000) "Ada" "ada@example.org" "333" "2h" None
              None "confirmed" "ev1" sampleNow)
           31 2024 3 5 14 0
           (Some [Event.mk "ev1" (Some 1709647200000) (Some 1709654400000)])
           []
           (Event.mk "ev1" (Some 1709647200000) (Some 1709654400000))).
  - vm_compute. reflexivity.
  - vm_compute. reflexivity.
  - reflexivity.
  - reflexivity.
  - reflexivity.
  - split; [apply Z.leb_le | apply Z.ltb_lt]; reflexivity.
  - split; apply Z.leb_le; reflexivity.
  - split; apply Z.leb_le; reflexivity.
  - split; apply Z.leb_le; reflexivity.
  - apply Nat.leb_le. reflexivity.
  - reflexivity.
  - reflexivity.
  - apply Forall_cons; [|apply Forall_nil].
    apply validEvent_mk; apply validTime_sample; reflexivity.
  - left. reflexivity.
  - reflexivity.
Defined.

Lemma X24_new_york_today_witness :
  getSlots fiveHoursBehind parseISODate (calendarOf []) sampleNow "2024-03-01"
  = SlotsOk None [].
Proof.
  apply (X24_today_is_past_on_a_host_behind_utc fiveHoursBehind parseISODate
           (calendarOf []) sampleNow "2024-03-01" 2024 3 1).
  - split; apply Z.ltb_lt; reflexivity.
  - reflexivity.
  - reflexivity.
  - apply validTime_sample. reflexivity.
  - apply validTime_sample. reflexivity.
  - apply validTime_sample. reflexivity.
Defined.

Lemma X25_five_hours_behind_witness :
  let out :=
    postBookings fiveHoursBehind parseISODate "studio@example.org" noLocale
      allGood sampleNow sampleBody emptyWorld in
  Confirmation.date
    (Confirmation.mk "ev1" (Some 1709578800000) "14:00" "2h" "Ada")
  = Some (localInstant fiveHoursBehind 2024 3 5 14 + 0 * Time.msPerMinute
          - Time.msPerDay)
  /\ exists b,
       bookings (snd out) = [b]
       /\ Booking.startTime b
          = Confirmation.date
              (Confirmation.mk "ev1" (Some 1709578800000) "14:00" "2h" "Ada").
Proof.
  intros out.
  apply (X25_booking_behind_utc_lands_a_day_early fiveHoursBehind parseISODate
           "studio@example.org" noLocale allGood sampleNow sampleBody
           emptyWorld (snd out)
           (Confirmation.mk "ev1" (Some 1709578800000) "14:00" "2h" "Ada")
           2024 3 5 14 0).
  - split; apply Z.ltb_lt; reflexivity.
  - reflexivity.
  - reflexivity.
  - reflexivity.
  - vm_compute. reflexivity.
Defined.
